(* ===== verification/_CoqProject ===== *)
-Q . S2P
Prelude.v
Json.v
JsonDecode.v
Backend.v
Tornado.v
JsonRoundtrip.v
JsonFuel.v
Handlers.v
Fixtures.v
Results.v
Create.v
Dispatch.v
App.v
AccessLog.v
System.v
OnceDispatch.v
Listing.v
Resolver.v
Scenario.v
Liveness.v
