(* ===== verification/Prelude.v ===== *)
(** * A verification development of the osintframework task server

    ** The program
    [src/server.py] is a Tornado server with four routes ([make_app]):
    [/api/tasks/create] ([CreateTaskHandler.post]) decodes a JSON body,
    stores a new [PENDING] task through [TaskCrud] and either runs it in the
    request ([type=process], [TaskSpawner.run_task]) or publishes it to the
    broker ([type=queue], the default, [publisher.publish_task]);
    [/api/results] ([ResultsHandler.get]) is a cache-aside read: Redis
    first, then the store, caching the answer unless the task is still
    [pending]; [/api/tasks/list] ([ListTaskHandler.get]) lists tasks;
    [/api/health] answers liveness.  [CreateTaskQueueHandler] is defined
    but not routed.  The main block polls the broker with a
    [PeriodicCallback].  Every handler wraps its body in
    [try]/[except Exception] and answers a 500 error envelope
    ([BaseHandler.error]).  The store, the cache, the broker and the task
    runner are modules outside [src/]; they are modelled from the spec.

    ** The files (in dependency order)
    - Prelude.v (this file): the effect of Python code, [PyM S E A], a state
      and exception monad with [bind], [raise], [try_except] and [zoom] (a
      computation run on a component of a larger state); its laws; the
      relation-preservation framework [preserves R m] with the hint
      database [preserves] and the tactic [solve_preserves]; Hoare triples
      [hoare P m Q QE] with a postcondition for the raise, whose rules
      compose like [bind] and [try_except] and which carry what a call
      returns to the calls after it; Python truthiness, [dict.get], and
      the equations of string append.
    - Json.v: JSON values ([json], dicts as association lists in insertion
      order), [json.dumps] with its separators and ASCII escaping, Tornado's
      [json_encode], decimal printing of integers; the lemma that
      [json_encode] never emits the sequence [</].
    - JsonDecode.v: [json.loads] as a fuel-bounded parser; the fuel is the
      text length plus one, enough since every nested call consumes a
      character.  Floats, NaN/Infinity and code points above 255 are outside
      the model and refused; [rejected_at_start] names the bodies Python
      rejects at their first character, on which model and Python agree.
    - Backend.v: the collaborators, from the spec: [TaskStatus], [TaskItem]
      (a fresh id for uuid4), [TaskCrud] over a [Store] (rows in a [gmap],
      creation order, a read counter, an outage flag), [RedisCache] over a
      [Cache] (read and write outages apart), [Publisher] over a [Broker]
      (a FIFO), [TaskSpawner] over the [Executor] class (the work a task
      runs, an interface every theorem quantifies over); the process state
      [World] of the module-level singletons.
    - Tornado.v: the handler object [Ctx] (status, headers, write buffer),
      [get_argument], [write], [serve] (a method run on a fresh handler; an
      escaping exception becomes Tornado's 500 page), [str.strip], [int()],
      and the roundtrip [int(str(z)) = z] for every integer.
    - JsonRoundtrip.v and JsonFuel.v: checks of the decoder model itself,
      on which no property of the program rests: [json.loads(json.dumps(v))
      = v] for every value whose dict keys are distinct, and the parser
      needs no more fuel than the characters it consumes, so the bound
      [json_decode] gives never ends a parse.
    - Handlers.v: one definition per handler method of [src/server.py],
      translated line by line, and the tactic [run_handler].
    - Fixtures.v: a sample executor, requests and states for the witnesses.
    - Results.v: every branch of [ResultsHandler.get] (hit, pending miss,
      terminal miss, cache-write failure, not found, missing id), each with
      the full response and the full state after.
    - Create.v: [CreateTaskHandler.post] in queue, process and unsupported
      modes, its error paths, and the equivalence of the unrouted
      [CreateTaskQueueHandler.post] with queue mode; a body Python rejects
      at its first character creates nothing.
    - Dispatch.v: the dispatcher's contract of spec section 4.1 on an
      abstract state (rows, creation order, queue) with the errors of
      section 7 as a sum type ([dispatch_spec]), and the refinement
      theorem: [CreateTaskHandler.post] answers the contract's outcome and
      leaves the contract's state, in every mode and broker state.
    - App.v: routing ([make_app], Tornado's 404/405), the main block
      [main] ([create_all] raises with the database down, before anything
      listens), and the polling schedule: [callback_time] is read in
      milliseconds, so the broker is polled every millisecond.
    - AccessLog.v: line 29, [access_log.setLevel(DEBUG)], with Tornado's
      [Application.log_request] and [Logger.isEnabledFor] (a model of the
      configuration; no property rests on it).
    - System.v: the queue consumer (spec 4.3), outages, process starts,
      the step relation [sys_step] and [reachable]; the invariants that
      every step keeps terminal rows unchanged ([store_mono]), keeps the
      cache coherent with the store ([coherent]), queues only messages
      of stored tasks ([queued_ok]) and keeps the creation order a list of
      the stored ids without repetition ([store_wf]), proved
      compositionally per operation,
      with triples where a call relies on an earlier one (the cache write
      on the store read, the publish on the store write); a consumer run
      on a reachable state never meets an unknown task: it returns, or
      raises [OperationalError] and changes nothing.
    - OnceDispatch.v: no task is dispatched twice: on every reachable
      state the queued ids are distinct and name [PENDING] rows; proved
      like [world_ok], with triples for the run and the publish of the row
      a creation handler has just made.
    - Listing.v: [ListTaskHandler.get] by id, by an unknown id, with a
      limit, with a limit that is not an integer; without arguments on a
      reachable state, one entry per stored task.
    - Resolver.v: the abstract resolver [spec_results] (a store-only read) and the
      refinement theorem that on every reachable state with the services
      up the cache-aside read answers exactly as [spec_results];
      idempotence; the second read of a finished task served from the cache
      without a store read; stability under interleaving: after any run of
      steps ([rtc sys_step]) from a state where a task is finished, a read
      with the services up answers that finished row's view.
    - Scenario.v: the two scenarios of the spec's section 8 (queue mode
      with a pending read, the consumer's run and a cached read; process
      mode with a failing run) as runs of [sys_step] from [init_world], over
      any executor, with every response and state given in full.
    - Liveness.v: the consumer drains the queue: from a reachable state
      with the store up, as many runs as messages empty it and leave every
      queued task terminal; with the store down a run loses no message.

    ** What the theorems show
    Functional behaviour of the results, creation and listing handlers on
    every branch, errors included; the coherence of the cache with the
    store over all reachable states; refinement of the cache-aside read by
    the store-only read, its idempotence and its stability under any
    interleaving of steps; refinement of the creation handler by the
    dispatcher's contract; that no task is dispatched twice; the polling
    period; the spec's two scenarios end to end; the consumer's liveness
    and that it never meets an unknown task.  Four divergences from the spec are
    proved: a failed cache write fails the read, an unknown id is the same
    generic 500 as an outage, the broker is polled every millisecond, and a
    finished task is answered as the nested store view, not the flat
    object of the spec's scenario.

    ** Bounds and fuel
    [json_decode] runs the parser with the text length plus one as fuel;
    [parse_fuel] shows a parse needs at most the characters it consumes,
    so this fuel is never what ends a parse.  Python's recursion limit (a [RecursionError]
    on bodies nested about a thousand deep) is not modelled.  [str_N] prints with
    one digit more than the bit size of the number as fuel, enough since
    [n < 2 ^ size n <= 10 ^ size n].  The consumer needs exactly as many
    runs as there are queued messages.

    ** Not modelled
    [parse_command_line] (options only), the database schema, the HTTP
    layer and the broker's wire protocol, the text and handlers of the
    log records (their levels and the logger's filter are modelled);
    concurrency (each request runs to completion as one step, which
    Tornado's single-threaded loop guarantees for these handlers since none
    awaits).  JSON floats, NaN and code points above 255 are outside the
    JSON model, and the model reads the body's bytes as characters one to
    one: Python decodes them as UTF-8 (or UTF-16/32 by its detection), so
    it refuses invalid UTF-8 that the model reads and accepts a UTF-8 BOM
    that the model refuses.  The properties of the creation handler are
    stated for bodies that decode in the model ([json_decode _ = Some _])
    or that both reject at the first character ([rejected_at_start]).
    The store, cache and broker are modelled from the spec: that
    [updateStatus] leaves terminal rows alone is the spec's no-op choice,
    not something [server.py] enforces.

    The listing handler is characterised branch by branch (Listing.v)
    rather than against a separate abstract specification: the spec gives
    the listing no contract beyond "bounded by an optional count limit",
    which [listing] states directly. *)

From stdpp Require Export base gmap strings list fin_maps.
From Stdlib Require Export Ascii String ZArith Lia.

(** ** The effect of Python code: state and exceptions

    A Python method body mutates the objects it reaches and may raise at
    any call; a [try]/[except] block catches what was raised, keeping the
    mutations done before the raise.  [PyM S E A] is that effect: a state
    [S], a result [A] or a raised exception [E], and the state reached in
    both cases. *)

Inductive outcome (E A : Type) : Type :=
| Ok (a : A)
| Raise (e : E).
Arguments Ok {E A} a.
Arguments Raise {E A} e.

Definition PyM (S E A : Type) : Type := S -> outcome E A * S.

Section Monad.
Context {S E : Type}.

Definition ret {A} (a : A) : PyM S E A := fun s => (Ok a, s).

Definition bind {A B} (m : PyM S E A) (k : A -> PyM S E B) : PyM S E B :=
  fun s =>
    match m s with
    | (Ok a, s') => k a s'
    | (Raise e, s') => (Raise e, s')
    end.

Definition raise {A} (e : E) : PyM S E A := fun s => (Raise e, s).

(** [try: m  except e: h e] *)
Definition try_except {A} (m : PyM S E A) (h : E -> PyM S E A) : PyM S E A :=
  fun s =>
    match m s with
    | (Raise e, s') => h e s'
    | r => r
    end.

Definition get_st : PyM S E S := fun s => (Ok s, s).
Definition put_st (s : S) : PyM S E unit := fun _ => (Ok tt, s).
Definition modify_st (f : S -> S) : PyM S E unit := fun s => (Ok tt, f s).
Definition gets_st {A} (f : S -> A) : PyM S E A := fun s => (Ok (f s), s).

(** The state after a run, whatever the outcome. *)
Definition exec {A} (m : PyM S E A) (s : S) : S := snd (m s).
Definition eval {A} (m : PyM S E A) (s : S) : outcome E A := fst (m s).
End Monad.

(** Running a computation over a component of a larger state: a handler
    calls the store, the cache and the broker, which live in its world. *)
Definition zoom {S T E A} (get : S -> T) (set : T -> S -> S)
    (m : PyM T E A) : PyM S E A :=
  fun s => let '(r, t) := m (get s) in (r, set t s).

Declare Scope py_scope.
Delimit Scope py_scope with py.
Notation "x <- m ;; k" := (bind m (fun x => k))
  (at level 100, m at next level, right associativity) : py_scope.
Notation "m ;; k" := (bind m (fun _ => k))
  (at level 100, right associativity) : py_scope.
Open Scope py_scope.

(** ** Monad laws and the equations of each combinator *)

Create HintDb py.
Create Rewrite HintDb py_rw.

Section Laws.
Context {S E : Type}.

Lemma bind_ret_l {A B} (a : A) (k : A -> PyM S E B) s :
  bind (ret a) k s = k a s.
Proof. reflexivity. Qed.

Lemma bind_ret_r {A} (m : PyM S E A) s : bind m ret s = m s.
Proof. unfold bind. by destruct (m s) as [[] ?]. Qed.

Lemma bind_assoc {A B C} (m : PyM S E A) (k : A -> PyM S E B)
    (k' : B -> PyM S E C) s :
  bind (bind m k) k' s = bind m (fun a => bind (k a) k') s.
Proof. unfold bind. by destruct (m s) as [[] ?]. Qed.

Lemma bind_ok {A B} (m : PyM S E A) (k : A -> PyM S E B) s a s' :
  m s = (Ok a, s') -> bind m k s = k a s'.
Proof. unfold bind. by intros ->. Qed.

Lemma bind_raise {A B} (m : PyM S E A) (k : A -> PyM S E B) s e s' :
  m s = (Raise e, s') -> bind m k s = (Raise e, s').
Proof. unfold bind. by intros ->. Qed.

Lemma try_except_ok {A} (m : PyM S E A) h s a s' :
  m s = (Ok a, s') -> try_except m h s = (Ok a, s').
Proof. unfold try_except. by intros ->. Qed.

Lemma try_except_raise {A} (m : PyM S E A) h s e s' :
  m s = (Raise e, s') -> try_except m h s = h e s'.
Proof. unfold try_except. by intros ->. Qed.

(** A computation that never raises makes a [try] block transparent. *)
Lemma try_except_noraise {A} (m : PyM S E A) h s :
  (forall e s', m s <> (Raise e, s')) -> try_except m h s = m s.
Proof.
  unfold try_except. destruct (m s) as [[a|e] s'] eqn:Hm; [done|].
  intros Hn. by destruct (Hn e s').
Qed.
End Laws.

#[export] Hint Rewrite @bind_ret_l @bind_assoc : py_rw.

(** Case analysis of a partial function's result: its matches, option
    binds and pairs, until none is left. *)
Ltac scan_cases :=
  repeat (case_match || (progress simplify_option_eq) ||
          match goal with p : (_ * _)%type |- _ => destruct p end).

(** [py_step H] rewrites a bound computation whose run is known. *)
Ltac py_step H :=
  first [ erewrite bind_ok by exact H
        | erewrite bind_raise by exact H
        | erewrite try_except_ok by exact H
        | erewrite try_except_raise by exact H ].

(** ** Python values shared by the components *)

(** Python's truthiness of an optional string ([None] and the empty string are false). *)
Definition py_truthy (o : option string) : bool :=
  match o with
  | None => false
  | Some s => negb (String.eqb s EmptyString)
  end.

(** [dict.get(k, default)] on a dict kept as an association list in
    insertion order (a Python dict has at most one entry per key, found by
    the first match). *)
Fixpoint dict_get {V} (k : string) (d : list (string * V)) : option V :=
  match d with
  | [] => None
  | (k', v) :: d' => if String.eqb k k' then Some v else dict_get k d'
  end.

(** ** Generic lemmas *)

Lemma py_truthy_some s : s <> EmptyString -> py_truthy (Some s) = true.
Proof.
  intros Hs. simpl. destruct (String.eqb_spec s EmptyString) as [->|]; [done|done].
Qed.

Lemma dict_get_cons_eq {V} k (v : V) d : dict_get k ((k, v) :: d) = Some v.
Proof. simpl. by rewrite String.eqb_refl. Qed.

Lemma dict_get_cons_ne {V} k k' (v : V) d :
  k <> k' -> dict_get k ((k', v) :: d) = dict_get k d.
Proof.
  intros Hne. simpl. destruct (String.eqb_spec k k'); [done|done].
Qed.

(** Appending strings ([String.append] does not unfold by [simpl]). *)
Lemma str_app_nil_l (a : string) : (EmptyString ++ a)%string = a.
Proof. reflexivity. Qed.

Lemma str_app_cons x (a b : string) : (String x a ++ b)%string = String x (a ++ b)%string.
Proof. reflexivity. Qed.

Lemma str_app_assoc (a b c : string) : (a ++ (b ++ c) = (a ++ b) ++ c)%string.
Proof. induction a as [|x a IH]; [done|]. rewrite !str_app_cons. congruence. Qed.

Lemma str_app_nil_r (a : string) : (a ++ EmptyString)%string = a.
Proof. induction a as [|x a IH]; [done|]. rewrite str_app_cons. congruence. Qed.

Lemma str_length_app (a b : string) :
  String.length (a ++ b)%string = (String.length a + String.length b)%nat.
Proof. induction a as [|x a IH]; [done|]. rewrite str_app_cons. simpl. congruence. Qed.

#[export] Hint Rewrite @dict_get_cons_eq : py_rw.
#[export] Hint Resolve py_truthy_some : py.

(** ** Relations every step of a computation keeps

    [preserves R m]: whatever [m] returns or raises, the state it leaves is
    related by the preorder [R] to the state it started from.  [bind],
    [try_except] and [zoom] build such computations from such parts. *)

Section Preserves.
Context {S E : Type} (R : S -> S -> Prop) `{!PreOrder R}.

Definition preserves {A} (m : PyM S E A) : Prop := forall s, R s (exec m s).

Lemma preserves_ret {A} (a : A) : preserves (ret a).
Proof. intros s. unfold exec, ret. simpl. reflexivity. Qed.

Lemma preserves_raise {A} (e : E) : preserves (raise (A:=A) e).
Proof. intros s. unfold exec, raise. simpl. reflexivity. Qed.

Lemma preserves_gets {A} (f : S -> A) : preserves (gets_st f).
Proof. intros s. unfold exec, gets_st. simpl. reflexivity. Qed.

Lemma preserves_modify (f : S -> S) : (forall s, R s (f s)) -> preserves (modify_st f).
Proof. intros Hf s. apply Hf. Qed.

Lemma preserves_bind {A B} (m : PyM S E A) (k : A -> PyM S E B) :
  preserves m -> (forall a, preserves (k a)) -> preserves (bind m k).
Proof.
  intros Hm Hk s. unfold exec, bind. specialize (Hm s). unfold exec in Hm.
  destruct (m s) as [[a|e] s'] eqn:Hrun; simpl in *; [|done].
  etrans; [exact Hm | apply Hk].
Qed.

Lemma preserves_try {A} (m : PyM S E A) (h : E -> PyM S E A) :
  preserves m -> (forall e, preserves (h e)) -> preserves (try_except m h).
Proof.
  intros Hm Hh s. unfold exec, try_except. specialize (Hm s). unfold exec in Hm.
  destruct (m s) as [[a|e] s'] eqn:Hrun; simpl in *; [done|].
  etrans; [exact Hm | apply Hh].
Qed.
End Preserves.

Lemma preserves_zoom {S T E A} (R : S -> S -> Prop) (Q : T -> T -> Prop)
    (get : S -> T) (set : T -> S -> S) (m : PyM T E A) :
  (forall s t, Q (get s) t -> R s (set t s)) -> preserves Q m -> preserves R (zoom get set m).
Proof.
  intros Hset Hm s. unfold exec, zoom. specialize (Hm (get s)). unfold exec in Hm.
  destruct (m (get s)) as [r t]. simpl in *. by apply Hset.
Qed.

Create HintDb preserves.
#[export] Hint Resolve preserves_ret preserves_raise preserves_gets : preserves.
#[export] Hint Extern 1 (PreOrder _) => exact _ : preserves.

(** Split a computation into its calls and discharge the calls from the
    [preserves] hints. *)
Ltac solve_preserves :=
  repeat first
    [ progress intros
    | match goal with |- PreOrder _ => apply _ end
    | apply preserves_bind
    | apply preserves_try
    | progress cbn beta
    | case_match
    | solve [eauto with preserves] ].

(** A computation that leaves the state as it found it. *)
Lemma preserves_readonly {S E A} (R : S -> S -> Prop) `{!PreOrder R} (m : PyM S E A) :
  (forall s, exec m s = s) -> preserves R m.
Proof. intros Hm s. rewrite Hm. reflexivity. Qed.

(** ** Hoare triples with an exceptional postcondition

    [hoare P m Q QE]: from a state satisfying [P], [m] either returns [a]
    in a state satisfying [Q a] or raises [e] in a state satisfying
    [QE e].  A [preserves] fact is the triple whose pre- and
    postconditions are the relation to a fixed starting state; a triple
    carries, in addition, what a call returns to the calls after it. *)

Section Hoare.
Context {S E : Type}.

Definition hoare {A} (P : S -> Prop) (m : PyM S E A) (Q : A -> S -> Prop)
    (QE : E -> S -> Prop) : Prop :=
  forall s, P s -> match m s with (Ok a, s') => Q a s' | (Raise e, s') => QE e s' end.

Lemma hoare_ret {A} (P : S -> Prop) (a : A) Q QE :
  (forall s, P s -> Q a s) -> hoare P (ret a) Q QE.
Proof. intros H s. apply H. Qed.

Lemma hoare_raise {A} (P : S -> Prop) e (Q : A -> S -> Prop) QE :
  (forall s, P s -> QE e s) -> hoare P (raise e) Q QE.
Proof. intros H s. apply H. Qed.

Lemma hoare_bind {A B} P (m : PyM S E A) (k : A -> PyM S E B) Q' Q QE :
  hoare P m Q' QE -> (forall a, hoare (Q' a) (k a) Q QE) -> hoare P (bind m k) Q QE.
Proof.
  intros Hm Hk s Hs. specialize (Hm s Hs). unfold bind.
  destruct (m s) as [[a|e] s']; [by apply Hk | done].
Qed.

Lemma hoare_bind_ret {A B} P (a : A) (k : A -> PyM S E B) Q QE :
  hoare P (k a) Q QE -> hoare P (bind (ret a) k) Q QE.
Proof. done. Qed.

Lemma hoare_try {A} P (m : PyM S E A) (h : E -> PyM S E A) Q QE' QE :
  hoare P m Q QE' -> (forall e, hoare (QE' e) (h e) Q QE) -> hoare P (try_except m h) Q QE.
Proof.
  intros Hm Hh s Hs. specialize (Hm s Hs). unfold try_except.
  destruct (m s) as [[a|e] s']; [done | by apply Hh].
Qed.

Lemma hoare_consequence {A} (P P' : S -> Prop) (m : PyM S E A) Q Q' QE QE' :
  hoare P m Q QE -> (forall s, P' s -> P s) ->
  (forall a s, Q a s -> Q' a s) -> (forall e s, QE e s -> QE' e s) ->
  hoare P' m Q' QE'.
Proof.
  intros Hm HP HQ HQE s Hs. specialize (Hm s (HP s Hs)).
  destruct (m s) as [[a|e] s']; auto.
Qed.

(** A fact about the starting state that the triple may assume. *)
Lemma hoare_pure_pre {A} (phi : Prop) P (m : PyM S E A) Q QE :
  (phi -> hoare P m Q QE) -> hoare (fun s => phi /\ P s) m Q QE.
Proof. intros H s [Hphi Hs]. by apply H. Qed.

Lemma hoare_exists_pre {A X} (P : X -> S -> Prop) (m : PyM S E A) Q QE :
  (forall x, hoare (P x) m Q QE) -> hoare (fun s => exists x, P x s) m Q QE.
Proof. intros H s [x Hs]. by apply (H x). Qed.

Section FromPreserves.
Context (R : S -> S -> Prop) `{!PreOrder R}.

(** A computation that keeps [R] keeps the relation to any earlier state. *)
Lemma hoare_preserves {A} (s0 : S) (m : PyM S E A) :
  preserves R m -> hoare (R s0) m (fun _ => R s0) (fun _ => R s0).
Proof.
  intros Hm s Hs. specialize (Hm s). unfold exec in Hm.
  destruct (m s) as [[a|e] s']; simpl in *; by etrans.
Qed.

Lemma preserves_hoare {A} (m : PyM S E A) :
  (forall s0, hoare (eq s0) m (fun _ => R s0) (fun _ => R s0)) -> preserves R m.
Proof.
  intros H s. specialize (H s s eq_refl). unfold exec.
  destruct (m s) as [[a|e] s']; exact H.
Qed.
End FromPreserves.
End Hoare.
