(* ===== verification/Json.v ===== *)
(** * JSON values and their serialisation

    The handlers of [src/server.py] answer with JSON text: [dumps] (from
    Python's [json] module, with [default=str]) for the store's rows, and
    Tornado's [json_encode] for the task object and for dicts passed to
    [self.write].  This file models the values the server serialises and
    the two printers, as the libraries define them:
    - [json.dumps] with its default separators [", "] and [": "] and
      [ensure_ascii=True]: every character outside the printable ASCII
      range from space to tilde is escaped, newline, carriage return, tab,
      backspace, form feed, the double quote and the backslash by name and
      the others as a [u00xx] escape with lower-case hex digits;
    - Tornado's [json_encode v] is [json.dumps(v)] with every [</] replaced
      by [<\/], so that the text can sit in an HTML script element.
    Strings are byte strings: a byte above 127 stands for the code point
    of the same value.  Numbers are Python [int]s. *)

From S2P Require Import Prelude.

#[local] Set Warnings "-register-all".
Local Open Scope string_scope.

Inductive json : Type :=
| JNull
| JBool (b : bool)
| JInt (z : Z)
| JStr (s : string)
| JList (l : list json)
| JDict (kvs : list (string * json)).

(** ** Decimal printing of integers ([str(int)]) *)

Definition digit_char (d : N) : ascii := ascii_of_N (48 + d).

Fixpoint dec_digits (fuel : nat) (n : N) (acc : string) : string :=
  match fuel with
  | O => acc
  | S f =>
      let acc' := String (digit_char (n mod 10)) acc in
      if (n <? 10)%N then acc' else dec_digits f (n / 10) acc'
  end.

(** One more step than [N.size n], the number of bits of [n], is more than
    enough for its decimal digits. *)
Definition str_N (n : N) : string := dec_digits (S (N.to_nat (N.size n))) n EmptyString.

Definition str_Z (z : Z) : string :=
  if (z <? 0)%Z then String "-" (str_N (Z.to_N (- z))) else str_N (Z.to_N z).

(** ** String escaping of [json.dumps] with [ensure_ascii=True] *)

(** The double quote character (code 34). *)
Definition dquote : ascii := "034".

Definition hex_char (d : N) : ascii :=
  if (d <? 10)%N then ascii_of_N (48 + d) else ascii_of_N (87 + d).

Definition escape_char (c : ascii) : string :=
  let n := N_of_ascii c in
  if Ascii.eqb c dquote then String "\" (String dquote EmptyString)
  else if Ascii.eqb c "\" then String "\" (String "\" EmptyString)
  else if (n =? 10)%N then "\n"
  else if (n =? 13)%N then "\r"
  else if (n =? 9)%N then "\t"
  else if (n =? 8)%N then "\b"
  else if (n =? 12)%N then "\f"
  else if (32 <=? n)%N && (n <=? 126)%N then String c EmptyString
  else String "\" (String "u" (String "0" (String "0"
         (String (hex_char (n / 16)) (String (hex_char (n mod 16)) EmptyString))))).

Fixpoint escape_string (s : string) : string :=
  match s with
  | EmptyString => EmptyString
  | String c s' => escape_char c ++ escape_string s'
  end.

Definition dumps_str (s : string) : string :=
  String dquote (escape_string s ++ String dquote EmptyString).

(** ** [json.dumps] *)

Fixpoint dumps (j : json) : string :=
  match j with
  | JNull => "null"
  | JBool true => "true"
  | JBool false => "false"
  | JInt z => str_Z z
  | JStr s => dumps_str s
  | JList l => "[" ++ String.concat ", " (map dumps l) ++ "]"
  | JDict kvs =>
      "{" ++ String.concat ", "
               (map (fun '(k, v) => dumps_str k ++ ": " ++ dumps v) kvs) ++ "}"
  end.

(** ** [tornado.escape.json_encode] *)

(** The [replace] of [json_encode]: every [</] becomes [<\/], scanning
    left to right. *)
Fixpoint replace_close_tag (s : string) : string :=
  match s with
  | String "<" (String "/" s') => "<\/" ++ replace_close_tag s'
  | String c s' => String c (replace_close_tag s')
  | EmptyString => EmptyString
  end.

Definition json_encode (j : json) : string := replace_close_tag (dumps j).

(** Whether a text contains [</], the sequence that would close an HTML
    script element. *)
Definition starts_slash (s : string) : bool :=
  match s with String d _ => Ascii.eqb d "/" | EmptyString => false end.

Fixpoint has_close_tag (s : string) : bool :=
  match s with
  | String c s' => (Ascii.eqb c "<" && starts_slash s') || has_close_tag s'
  | EmptyString => false
  end.

(** ** Dict access on JSON values *)

(** [v.get(k, {})] on a dict value; a key that is absent gives the default. *)
Definition jget (k : string) (default : json) (v : json) : json :=
  match v with
  | JDict kvs => match dict_get k kvs with Some x => x | None => default end
  | _ => default
  end.

Example dumps_sample :
  dumps (JDict [("task", JDict [("id", JStr "T1"); ("status", JStr "pending")]);
                ("n", JList [JInt (-12); JNull; JBool true])])
  = "{" ++ dumps_str "task" ++ ": {" ++ dumps_str "id" ++ ": " ++ dumps_str "T1"
      ++ ", " ++ dumps_str "status" ++ ": " ++ dumps_str "pending" ++ "}, "
      ++ dumps_str "n" ++ ": [-12, null, true]}".
Proof. reflexivity. Qed.

Example escape_sample :
  escape_string (String dquote (String "010" (String "127" "a\"))) =
  String "\" (String dquote "\n\u007fa\\").
Proof. reflexivity. Qed.

Example json_encode_sample :
  json_encode (JStr "</script>") = String dquote ("<\/script>" ++ String dquote EmptyString).
Proof. reflexivity. Qed.

(** ** [json_encode] leaves no [</] in its output *)

Lemma replace_close_tag_other c s :
  Ascii.eqb c "<" && starts_slash s = false ->
  replace_close_tag (String c s) = String c (replace_close_tag s).
Proof.
  destruct (Ascii.eqb_spec c "<") as [->|Hc]; simpl.
  - destruct s as [|d s]; [reflexivity|]. simpl. intros Hd.
    destruct d as [[] [] [] [] [] [] [] []]; try discriminate Hd; reflexivity.
  - intros _. destruct c as [[] [] [] [] [] [] [] []]; try reflexivity. by destruct Hc.
Qed.

Lemma replace_close_tag_head s : starts_slash (replace_close_tag s) = starts_slash s.
Proof.
  destruct s as [|c s]; [done|].
  destruct (Ascii.eqb c "<" && starts_slash s) eqn:E.
  - apply andb_true_iff in E as [Hc Hs]. apply Ascii.eqb_eq in Hc as ->.
    destruct s as [|d s]; [done|]. simpl in Hs. by apply Ascii.eqb_eq in Hs as ->.
  - by rewrite replace_close_tag_other.
Qed.

Lemma replace_close_tag_clean s : has_close_tag (replace_close_tag s) = false.
Proof.
  induction s as [s IH] using (induction_ltof1 _ String.length).
  destruct s as [|c s]; [done|]. unfold ltof in IH.
  destruct (Ascii.eqb c "<" && starts_slash s) eqn:E.
  - apply andb_true_iff in E as [Hc Hs]. apply Ascii.eqb_eq in Hc as ->.
    destruct s as [|d s]; [done|]. simpl in Hs. apply Ascii.eqb_eq in Hs as ->.
    simpl. apply IH. simpl. lia.
  - rewrite replace_close_tag_other by done. simpl.
    rewrite replace_close_tag_head, E, IH; [done|]. simpl. lia.
Qed.

Lemma json_encode_clean j : has_close_tag (json_encode j) = false.
Proof. apply replace_close_tag_clean. Qed.
