(* ===== verification/JsonDecode.v ===== *)
(** * Decoding JSON text: [tornado.escape.json_decode]

    [json_decode(body)] is [json.loads] on the request body.  This file
    models that parser as Python's [json.decoder] scanner behaves:
    whitespace (space, tab, newline, carriage return) around values; the
    literals [null], [true], [false]; integers with an optional minus sign
    and no leading zero; strings with the escapes of the JSON grammar and
    no raw control character; arrays; objects, where a repeated key keeps
    the position of its first occurrence and the value of its last (Python
    dict assignment); and no data after the value.
    Outside the model, and refused here: fractional and exponent numbers
    (a Python [float]), the constants [NaN] and [Infinity], and [\u] escapes
    above 255, which do not fit a byte string.
    The parser is structural on a fuel bound; [json_decode] gives it the
    length of the text plus one, which is enough because every nested
    call consumes at least one character. *)

From S2P Require Import Prelude Json.
Local Open Scope string_scope.

Definition is_ws (c : ascii) : bool :=
  let n := N_of_ascii c in (n =? 32)%N || (n =? 9)%N || (n =? 10)%N || (n =? 13)%N.

Fixpoint skip_ws (s : string) : string :=
  match s with
  | String c s' => if is_ws c then skip_ws s' else s
  | EmptyString => EmptyString
  end.

Definition is_digit (c : ascii) : bool :=
  let n := N_of_ascii c in (48 <=? n)%N && (n <=? 57)%N.

Definition digit_val (c : ascii) : N := (N_of_ascii c - 48)%N.

(** The digits that follow the first one, accumulated in base ten. *)
Fixpoint scan_digits (acc : N) (s : string) : N * string :=
  match s with
  | String c s' => if is_digit c then scan_digits (acc * 10 + digit_val c) s' else (acc, s)
  | EmptyString => (acc, s)
  end.

(** A number that goes on with a fraction or an exponent is a [float]. *)
Definition float_follows (s : string) : bool :=
  match s with
  | String c _ => Ascii.eqb c "." || Ascii.eqb c "e" || Ascii.eqb c "E"
  | EmptyString => false
  end.

Definition scan_nat (s : string) : option (N * string) :=
  match s with
  | String "0" s' => if float_follows s' then None else Some (0%N, s')
  | String c s' =>
      if is_digit c then
        let '(n, r) := scan_digits (digit_val c) s' in
        if float_follows r then None else Some (n, r)
      else None
  | EmptyString => None
  end.

Definition scan_int (s : string) : option (Z * string) :=
  match s with
  | String "-" s' => '(n, r) ← scan_nat s'; Some ((- Z.of_N n)%Z, r)
  | _ => '(n, r) ← scan_nat s; Some (Z.of_N n, r)
  end.

Definition hex_val (c : ascii) : option N :=
  let n := N_of_ascii c in
  if (48 <=? n)%N && (n <=? 57)%N then Some (n - 48)%N
  else if (97 <=? n)%N && (n <=? 102)%N then Some (n - 87)%N
  else if (65 <=? n)%N && (n <=? 70)%N then Some (n - 55)%N
  else None.

(** The character after a backslash, and what is left after the escape. *)
Definition scan_escape (s : string) : option (ascii * string) :=
  match s with
  | String "u" (String a (String b (String c (String d r)))) =>
      a' ← hex_val a; b' ← hex_val b; c' ← hex_val c; d' ← hex_val d;
      let v := (((a' * 16 + b') * 16 + c') * 16 + d')%N in
      if (v <=? 255)%N then Some (ascii_of_N v, r) else None
  | String c r =>
      if Ascii.eqb c dquote || Ascii.eqb c "\" || Ascii.eqb c "/" then Some (c, r)
      else if Ascii.eqb c "b" then Some (ascii_of_N 8, r)
      else if Ascii.eqb c "f" then Some (ascii_of_N 12, r)
      else if Ascii.eqb c "n" then Some (ascii_of_N 10, r)
      else if Ascii.eqb c "r" then Some (ascii_of_N 13, r)
      else if Ascii.eqb c "t" then Some (ascii_of_N 9, r)
      else None
  | EmptyString => None
  end.

(** The body of a string literal, after its opening quote. *)
Fixpoint scan_string (s : string) : option (string * string) :=
  match s with
  | EmptyString => None
  | String c s' =>
      if Ascii.eqb c dquote then Some (EmptyString, s')
      else if Ascii.eqb c "\" then
        match s' with
        | String "u" (String _ (String _ (String _ (String _ r)))) =>
            '(e, _) ← scan_escape s'; '(t, r') ← scan_string r; Some (String e t, r')
        | String _ r =>
            '(e, _) ← scan_escape s'; '(t, r') ← scan_string r; Some (String e t, r')
        | EmptyString => None
        end
      else if (N_of_ascii c <? 32)%N then None
      else '(t, r) ← scan_string s'; Some (String c t, r)
  end.

(** [d[k] = v] on a dict kept in insertion order. *)
Fixpoint dict_set {V} (k : string) (v : V) (d : list (string * V)) : list (string * V) :=
  match d with
  | [] => [(k, v)]
  | (k', v') :: d' => if String.eqb k k' then (k, v) :: d' else (k', v') :: dict_set k v d'
  end.

Definition next_is (c : ascii) (s : string) : option string :=
  match skip_ws s with
  | String c' r => if Ascii.eqb c c' then Some r else None
  | EmptyString => None
  end.

Fixpoint parse_value (fuel : nat) (s : string) : option (json * string) :=
  match fuel with
  | O => None
  | S f =>
      match skip_ws s with
      | String "n" (String "u" (String "l" (String "l" r))) => Some (JNull, r)
      | String "t" (String "r" (String "u" (String "e" r))) => Some (JBool true, r)
      | String "f" (String "a" (String "l" (String "s" (String "e" r)))) =>
          Some (JBool false, r)
      | String "[" r =>
          match next_is "]" r with
          | Some r' => Some (JList [], r')
          | None => '(l, r') ← parse_elems f r; Some (JList l, r')
          end
      | String "{" r =>
          match next_is "}" r with
          | Some r' => Some (JDict [], r')
          | None => '(d, r') ← parse_members f [] r; Some (JDict d, r')
          end
      | String c r as t =>
          if Ascii.eqb c dquote then '(str, r') ← scan_string r; Some (JStr str, r')
          else '(z, r') ← scan_int t; Some (JInt z, r')
      | EmptyString => None
      end
  end
with parse_elems (fuel : nat) (s : string) : option (list json * string) :=
  match fuel with
  | O => None
  | S f =>
      '(v, r) ← parse_value f s;
      match skip_ws r with
      | String "," r' => '(vs, r'') ← parse_elems f r'; Some (v :: vs, r'')
      | String "]" r' => Some ([v], r')
      | _ => None
      end
  end
with parse_members (fuel : nat) (acc : list (string * json)) (s : string)
    : option (list (string * json) * string) :=
  match fuel with
  | O => None
  | S f =>
      match skip_ws s with
      | String c r =>
          if Ascii.eqb c dquote then
            '(k, r1) ← scan_string r;
            r2 ← next_is ":" r1;
            '(v, r3) ← parse_value f r2;
            let acc' := dict_set k v acc in
            match skip_ws r3 with
            | String "," r4 => parse_members f acc' r4
            | String "}" r4 => Some (acc', r4)
            | _ => None
            end
          else None
      | EmptyString => None
      end
  end.

Definition json_decode (body : string) : option json :=
  match parse_value (S (String.length body)) body with
  | Some (v, rest) => if String.eqb (skip_ws rest) EmptyString then Some v else None
  | None => None
  end.

(** A character that can begin a JSON document for Python's [json]: the
    openers of strings, arrays and objects, a sign or a digit, and the first
    letters of [null], [true], [false], [NaN] and [Infinity]. *)
Definition json_value_start (c : ascii) : bool :=
  is_digit c || existsb (Ascii.eqb c) ["{"; "["; dquote; "-"; "n"; "t"; "f"; "N"; "I"]%char.

(** Printable ASCII, or JSON whitespace. *)
Fixpoint ascii_text (s : string) : bool :=
  match s with
  | EmptyString => true
  | String c s' => (is_ws c || ((32 <=? N_of_ascii c) && (N_of_ascii c <=? 126))%N) && ascii_text s'
  end.

(** The bodies [json.loads] rejects at their first character, with
    ["Expecting value: line 1 column 1 (char 0)"]: the empty body, and an
    ASCII text (which Python decodes as UTF-8, unchanged) whose first
    character is neither whitespace nor the start of a value, such as a
    form-encoded body. *)
Definition rejected_at_start (s : string) : bool :=
  match s with
  | EmptyString => true
  | String c _ => negb (is_ws c) && negb (json_value_start c) && ascii_text s
  end.

Example json_decode_sample :
  json_decode ("{" ++ dumps_str "x" ++ ": 1, " ++ dumps_str "y" ++ ": [true, null, -20], "
                   ++ dumps_str "x" ++ ":" ++ String dquote ("a\n" ++ String dquote "} "))
  = Some (JDict [("x", JStr (String "a" (String "010" EmptyString)));
                 ("y", JList [JBool true; JNull; JInt (-20)])]).
Proof. reflexivity. Qed.

Example json_decode_rejects :
  json_decode "1.5" = None /\ json_decode "[1,]" = None /\ json_decode "01" = None
  /\ json_decode "{} x" = None.
Proof. repeat split; reflexivity. Qed.

(** The decoder rejects what [json.loads] rejects at its first character. *)
Lemma json_decode_rejected_at_start s : rejected_at_start s = true -> json_decode s = None.
Proof.
  destruct s as [|c r]; [done|]. unfold rejected_at_start.
  destruct c as [[] [] [] [] [] [] [] []]; try discriminate; reflexivity.
Qed.
