(* ===== verification/Backend.v ===== *)
(** * The collaborators of the server

    [src/server.py] imports [TaskStatus], [TaskItem] ([src.server.structures]),
    [TaskCrud] ([src.db.crud]), [RedisCache] ([src.cache.redis]),
    [Publisher] ([src.queue.publisher]) and [TaskSpawner]
    ([src.server.handlers.task_spawner]); their code is not part of the
    sources at hand, so each is modelled from the contract that the spec
    (sections 3, 4.3, 6 and 7) gives it.  Each keeps its own state and its
    own failure flag: a call on a service that is down raises, as the Python
    client libraries do, and the handlers see the exception.
    - [Store]: the task table (rows by id, creation order, a read counter);
    - [Cache]: the Redis key space, with separate read and write failures
      (a replica that serves reads and refuses writes);
    - [Broker]: the queue of published messages;
    - [Executor]: the work a task runs, an interface ([Class]) that the
      theorems quantify over. *)

From S2P Require Import Prelude Json.
Local Open Scope string_scope.

(** ** Exceptions raised by the collaborators and by the request parsing *)

Inductive PyExc : Type :=
| JSONDecodeError
| OperationalError
| IntegrityError (id : string)
| TaskNotFound (id : string)
| RedisConnectionError
| RedisDataError
| PublishError
| ValueError (arg : string)
| AttributeError (attr : string).

(** [str(err)], the text the handlers put in their error message.  For a
    [JSONDecodeError] it is Python's text for a document that fails at its
    first character; the model does not track where a later failure
    happens, so for those the position in the text is not Python's. *)
Definition exc_str (e : PyExc) : string :=
  match e with
  | JSONDecodeError => "Expecting value: line 1 column 1 (char 0)"
  | OperationalError => "database is unavailable"
  | IntegrityError id => "duplicate task id " ++ id
  | TaskNotFound id => "task not found: " ++ id
  | RedisConnectionError => "Error connecting to Redis"
  | RedisDataError => "Invalid input of type: 'NoneType'"
  | PublishError => "AMQP connection is closed"
  | ValueError arg => "invalid literal for int() with base 10: " ++ arg
  | AttributeError attr => "object has no attribute " ++ attr
  end.

(** ** [TaskStatus] and [TaskItem] *)

Inductive TaskStatus : Type := PENDING | SUCCESS | ERROR.

#[export] Instance TaskStatus_eq_dec : EqDecision TaskStatus.
Proof. solve_decision. Defined.

(** The value of each member of the string enum. *)
Definition status_value (st : TaskStatus) : string :=
  match st with
  | PENDING => "pending"
  | SUCCESS => "success"
  | ERROR => "error"
  end.

Definition is_terminal (st : TaskStatus) : bool :=
  match st with PENDING => false | SUCCESS | ERROR => true end.

Record TaskItem : Type := mkTaskItem { item_id : string; item_status : TaskStatus }.

(** [TaskItem.as_json()]: identity and status. *)
Definition as_json (t : TaskItem) : json :=
  JDict [("id", JStr (item_id t)); ("status", JStr (status_value (item_status t)))].

(** ** [TaskCrud]: the task table *)

Record TaskRow : Type := mkRow { row_status : TaskStatus; row_result : json }.

Record Store : Type := mkStore {
  rows : gmap string TaskRow;
  order : list string;        (** ids in creation order *)
  reads : nat;                (** calls of [get_results] that reached the table *)
  store_down : bool
}.

Definition row_json (id : string) (r : TaskRow) : json :=
  as_json (mkTaskItem id (row_status r)).

(** [TaskItem()]: a new task, [PENDING], whose id (a uuid) is not in use. *)
Definition TaskItem_new (s : Store) : TaskItem :=
  mkTaskItem (fresh (dom (rows s))) PENDING.

Definition store_guard : PyM Store PyExc unit :=
  fun s => if store_down s then (Raise OperationalError, s) else (Ok tt, s).

Definition create_task (t : TaskItem) : PyM Store PyExc unit :=
  store_guard ;;
  fun s =>
    match rows s !! item_id t with
    | Some _ => (Raise (IntegrityError (item_id t)), s)
    | None =>
        (Ok tt, mkStore (<[item_id t := mkRow (item_status t) JNull]> (rows s))
                        (order s ++ [item_id t]) (reads s) (store_down s))
    end.

Definition find_row (id : string) : PyM Store PyExc TaskRow :=
  fun s =>
    match rows s !! id with
    | Some r => (Ok r, s)
    | None => (Raise (TaskNotFound id), s)
    end.

Definition get_task (id : string) : PyM Store PyExc json :=
  store_guard ;; r <- find_row id ;; ret (row_json id r).

(** Rows in creation order, the first [limit] of them when a limit is given. *)
Definition listed_rows (s : Store) : list json :=
  omap (fun id => row_json id <$> rows s !! id) (order s).

Definition get_tasks (limit : option Z) : PyM Store PyExc json :=
  store_guard ;;
  fun s =>
    let l := listed_rows s in
    (Ok (JList (match limit with Some n => take (Z.to_nat n) l | None => l end)), s).

Definition results_view (id : string) (r : TaskRow) : json :=
  JDict [("task", row_json id r); ("results", row_result r)].

Definition count_read : PyM Store PyExc unit :=
  modify_st (fun s => mkStore (rows s) (order s) (S (reads s)) (store_down s)).

(** The handler passes the query argument as it got it, [None] included;
    no row has the id [None]. *)
Definition get_results (id : option string) : PyM Store PyExc json :=
  store_guard ;; count_read ;;
  match id with
  | Some k => r <- find_row k ;; ret (results_view k r)
  | None => raise (TaskNotFound "None")
  end.

(** [updateStatus]: the single transition out of [PENDING]; a row already
    terminal is left as it is (the spec leaves no-op or rejection to the
    store; this model takes the no-op). *)
Definition update_status (id : string) (st : TaskStatus) (res : json)
    : PyM Store PyExc unit :=
  store_guard ;;
  r <- find_row id ;;
  if is_terminal (row_status r) then ret tt
  else modify_st (fun s => mkStore (<[id := mkRow st res]> (rows s)) (order s)
                                   (reads s) (store_down s)).

(** ** [RedisCache] *)

Record Cache : Type := mkCache {
  entries : gmap string string;
  get_down : bool;
  set_down : bool
}.

(** A [None] key is refused by the client before any connection is used. *)
Definition redis_get (key : option string) : PyM Cache PyExc (option string) :=
  fun c =>
    match key with
    | None => (Raise RedisDataError, c)
    | Some k => if get_down c then (Raise RedisConnectionError, c)
                else (Ok (entries c !! k), c)
    end.

Definition redis_set (key : option string) (value : string) : PyM Cache PyExc unit :=
  fun c =>
    match key with
    | None => (Raise RedisDataError, c)
    | Some k => if set_down c then (Raise RedisConnectionError, c)
                else (Ok tt, mkCache (<[k := value]> (entries c)) (get_down c) (set_down c))
    end.

(** ** [Publisher] *)

Record Broker : Type := mkBroker { queue : list (string * json); broker_down : bool }.

Definition publish_task (t : TaskItem) (cases : json) : PyM Broker PyExc unit :=
  fun b =>
    if broker_down b then (Raise PublishError, b)
    else (Ok tt, mkBroker (queue b ++ [(item_id t, cases)]) (broker_down b)).

(** ** [TaskSpawner]: the work of a task, and its single status transition *)

Class Executor : Type := { run_cases : json -> string + json }.

Definition run_task `{Executor} (t : TaskItem) (body : json) : PyM Store PyExc unit :=
  match run_cases body with
  | inl err => update_status (item_id t) ERROR (JStr err)
  | inr res => update_status (item_id t) SUCCESS res
  end.

(** ** The process state the handlers reach

    [publisher] and [redis] are module-level singletons of [server.py]
    (lines 35 and 38); the store is reached through [TaskCrud]'s class
    methods; [logger] is Tornado's application log. *)

Record World : Type := mkWorld {
  w_store : Store;
  w_cache : Cache;
  w_broker : Broker;
  w_log : list string
}.

Definition on_store {A} (m : PyM Store PyExc A) : PyM World PyExc A :=
  zoom w_store (fun s w => mkWorld s (w_cache w) (w_broker w) (w_log w)) m.
Definition on_cache {A} (m : PyM Cache PyExc A) : PyM World PyExc A :=
  zoom w_cache (fun c w => mkWorld (w_store w) c (w_broker w) (w_log w)) m.
Definition on_broker {A} (m : PyM Broker PyExc A) : PyM World PyExc A :=
  zoom w_broker (fun b w => mkWorld (w_store w) (w_cache w) b (w_log w)) m.

(** [logger.info(msg=...)] *)
Definition log_info (msg : string) : PyM World PyExc unit :=
  modify_st (fun w => mkWorld (w_store w) (w_cache w) (w_broker w) (w_log w ++ [msg])).
