(* ===== verification/Tornado.v ===== *)
(** * The Tornado request handler and the Python builtins the handlers use

    A handler of [src/server.py] runs as a method of a
    [tornado.web.RequestHandler]: it reads query arguments with
    [get_argument], sets the status with [set_status], appends chunks to
    the output buffer with [write] (a dict is first passed to [json_encode]
    and switches the content type to JSON), and the framework finishes the
    request when the method returns.  An exception that escapes the method
    is turned by Tornado into a 500 page after the buffer and the headers
    are cleared.  This file models that object ([Ctx]: the handler's
    status, headers and buffer, next to the process state [World]) and the
    library calls, with these library facts:
    - [get_argument(name, default)] takes the last value given for [name],
      replaces the control characters [\x00-\x08] and [\x0e-\x1f] with a
      space and strips surrounding whitespace;
    - [int(s)] on a string strips whitespace, takes an optional sign and
      decimal digits, with single underscores allowed between digits. *)

From S2P Require Import Prelude Json JsonDecode Backend.
Local Open Scope string_scope.

(** ** [str.strip] *)

Definition py_isspace (c : ascii) : bool :=
  let n := N_of_ascii c in
  ((9 <=? n) && (n <=? 13))%N || ((28 <=? n) && (n <=? 32))%N || (n =? 133)%N || (n =? 160)%N.

Fixpoint lstrip (s : string) : string :=
  match s with
  | String c s' => if py_isspace c then lstrip s' else s
  | EmptyString => EmptyString
  end.

Fixpoint rstrip (s : string) : string :=
  match s with
  | String c s' =>
      let r := rstrip s' in
      if py_isspace c && String.eqb r EmptyString then EmptyString else String c r
  | EmptyString => EmptyString
  end.

Definition py_strip (s : string) : string := rstrip (lstrip s).

(** ** [int(s)] on a string, base 10 *)

(** Digits after a first digit; an underscore must sit between two digits. *)
Fixpoint scan_dec (acc : N) (s : string) : option N :=
  match s with
  | EmptyString => Some acc
  | String "_" (String c s') =>
      if is_digit c then scan_dec (acc * 10 + digit_val c) s' else None
  | String c s' => if is_digit c then scan_dec (acc * 10 + digit_val c) s' else None
  end.

Definition int_body (s : string) : option N :=
  match s with
  | String c s' => if is_digit c then scan_dec (digit_val c) s' else None
  | EmptyString => None
  end.

Definition py_int (s : string) : outcome PyExc Z :=
  let r := match py_strip s with
           | String "-" t => (fun n => (- Z.of_N n)%Z) <$> int_body t
           | String "+" t => Z.of_N <$> int_body t
           | t => Z.of_N <$> int_body t
           end in
  match r with Some z => Ok z | None => Raise (ValueError s) end.

(** Proofs about the handlers take [int()]'s result as a hypothesis. *)
Arguments py_int : simpl never.

(** What [int()] raises is a [ValueError] quoting its argument. *)
Lemma py_int_error s e : py_int s = Raise e -> e = ValueError s.
Proof. unfold py_int. case_match; congruence. Qed.

(** ** [int()] reads back [str()] *)

Lemma digit_cases (d : N) : (d < 10)%N ->
  d = 0%N \/ d = 1%N \/ d = 2%N \/ d = 3%N \/ d = 4%N \/ d = 5%N \/ d = 6%N \/ d = 7%N \/ d = 8%N \/ d = 9%N.
Proof. intros. lia. Qed.

Ltac digit_enum d := let H := fresh in
  match goal with Hd : (d < 10)%N |- _ => destruct (digit_cases d Hd) as [H|[H|[H|[H|[H|[H|[H|[H|[H|H]]]]]]]]]; subst d end.

Lemma scan_dec_digit a d s : (d < 10)%N ->
  scan_dec a (String (digit_char d) s) = scan_dec (a * 10 + d)%N s.
Proof. intros Hd. digit_enum d; reflexivity. Qed.

Lemma dec_digits_scan f n acc a : (n < 10 ^ N.of_nat f)%N ->
  exists p, scan_dec a (dec_digits f n acc) = scan_dec (a * p + n)%N acc.
Proof.
  revert n acc a. induction f as [|f IH]; intros n acc a Hn; simpl in *.
  - exists 1%N. replace n with 0%N by lia. f_equal. lia.
  - destruct (N.ltb_spec n 10).
    + exists 10%N. rewrite scan_dec_digit by (apply N.mod_lt; lia).
      rewrite N.mod_small by lia. done.
    + rewrite Nat2N.inj_succ, N.pow_succ_r' in Hn.
      destruct (IH (n / 10)%N (String (digit_char (n mod 10)) acc) a) as [p Hp].
      { apply N.Div0.div_lt_upper_bound; lia. }
      exists (p * 10)%N. rewrite Hp, scan_dec_digit by (apply N.mod_lt; lia).
      f_equal. pose proof (N.div_mod n 10). lia.
Qed.

Lemma dec_digits_head f n acc :
  exists d rest, (d < 10)%N /\ dec_digits (S f) n acc = String (digit_char d) rest.
Proof.
  revert n acc. induction f as [|f IH]; intros n acc; simpl.
  - destruct (n <? 10)%N; eexists _, _; split; [apply N.mod_lt; lia | reflexivity
                                              | apply N.mod_lt; lia | reflexivity].
  - destruct (n <? 10)%N; [eexists _, _; split; [apply N.mod_lt; lia | reflexivity]|].
    apply IH.
Qed.

Lemma rstrip_digit d s : (d < 10)%N -> rstrip (String (digit_char d) s) = String (digit_char d) (rstrip s).
Proof. intros Hd. digit_enum d; reflexivity. Qed.

Lemma rstrip_dec_digits f n acc : rstrip acc = acc -> rstrip (dec_digits f n acc) = dec_digits f n acc.
Proof.
  revert n acc. induction f as [|f IH]; intros n acc Hacc; simpl; [done|].
  destruct (n <? 10)%N.
  - rewrite rstrip_digit by (apply N.mod_lt; lia). by rewrite Hacc.
  - apply IH. rewrite rstrip_digit by (apply N.mod_lt; lia). by rewrite Hacc.
Qed.

Lemma str_N_fuel n : (n < 10 ^ N.of_nat (S (N.to_nat (N.size n))))%N.
Proof.
  rewrite Nat2N.inj_succ, N2Nat.id. pose proof (N.size_gt n).
  assert (2 ^ N.size n <= 10 ^ N.size n)%N by (apply N.pow_le_mono_l; lia).
  rewrite N.pow_succ_r'. lia.
Qed.

(** Compute the value of a concrete digit character in the goal. *)
Ltac digit_val_eval :=
  repeat match goal with
  | |- context [digit_val ?c] =>
      let v := eval vm_compute in (digit_val c) in change (digit_val c) with v
  end.

(** The printed digits of [n]: a first digit, then digits that [int()]
    reads back as [n] and that [strip] leaves alone. *)
Lemma str_N_shape n : exists d rest, (d < 10)%N /\ str_N n = String (digit_char d) rest /\
  scan_dec d rest = Some n /\ rstrip rest = rest.
Proof.
  unfold str_N. destruct (dec_digits_head (N.to_nat (N.size n)) n EmptyString) as (d & rest & Hd & Heq).
  pose proof (rstrip_dec_digits (S (N.to_nat (N.size n))) n EmptyString eq_refl) as Hr.
  destruct (dec_digits_scan _ n EmptyString 0 (str_N_fuel n)) as [p Hp].
  rewrite Heq in Hp, Hr. rewrite rstrip_digit in Hr by done.
  rewrite scan_dec_digit, N.mul_0_l, N.add_0_l in Hp by done.
  exists d, rest. split; [done|]. split; [done|]. split; [by rewrite Hp|]. congruence.
Qed.

(** [int()] reads back what [str()] prints. *)
Theorem py_int_str_Z z : py_int (str_Z z) = Ok z.
Proof.
  unfold str_Z. destruct (Z.ltb_spec z 0) as [Hz|Hz].
  - destruct (str_N_shape (Z.to_N (- z))) as (d & rest & Hd & -> & Hs & Hr).
    unfold py_int. digit_enum d; simpl; rewrite Hr; simpl; digit_val_eval; rewrite Hs;
      simpl; f_equal; lia.
  - destruct (str_N_shape (Z.to_N z)) as (d & rest & Hd & -> & Hs & Hr).
    unfold py_int. digit_enum d; simpl; rewrite Hr; simpl; digit_val_eval; rewrite Hs;
      simpl; f_equal; lia.
Qed.

Lemma str_Z_nonempty z : str_Z z <> EmptyString.
Proof.
  unfold str_Z. destruct (z <? 0)%Z; [done|].
  by destruct (str_N_shape (Z.to_N z)) as (d & rest & _ & -> & _).
Qed.

(** ** Requests and [get_argument] *)

Record Request : Type := mkRequest {
  req_args : list (string * string);   (** query arguments, in order *)
  req_body : string
}.

Definition remove_control_chars (s : string) : string :=
  string_of_list_ascii
    (map (fun c => let n := N_of_ascii c in
                   if (n <=? 8)%N || ((14 <=? n) && (n <=? 31))%N then " "%char else c)
         (list_ascii_of_string s)).

Fixpoint last_arg (name : string) (args : list (string * string)) : option string :=
  match args with
  | [] => None
  | (k, v) :: args' =>
      match last_arg name args' with
      | Some v' => Some v'
      | None => if String.eqb k name then Some v else None
      end
  end.

Definition get_argument (req : Request) (name : string) (default : option string)
    : option string :=
  match last_arg name (req_args req) with
  | Some v => Some (py_strip (remove_control_chars v))
  | None => default
  end.

(** ** The handler object *)

Record Ctx : Type := mkCtx {
  c_world : World;
  c_status : Z;
  c_headers : list (string * string);
  c_buffer : list string
}.

Definition Handler : Type := PyM Ctx PyExc unit.

Definition on_world {A} (m : PyM World PyExc A) : PyM Ctx PyExc A :=
  zoom c_world (fun w c => mkCtx w (c_status c) (c_headers c) (c_buffer c)) m.

Fixpoint hset (k v : string) (hs : list (string * string)) : list (string * string) :=
  match hs with
  | [] => [(k, v)]
  | (k', v') :: hs' => if String.eqb k k' then (k, v) :: hs' else (k', v') :: hset k v hs'
  end.

Definition set_header (k v : string) : Handler :=
  modify_st (fun c => mkCtx (c_world c) (c_status c) (hset k v (c_headers c)) (c_buffer c)).

Definition set_status (code : Z) : Handler :=
  modify_st (fun c => mkCtx (c_world c) code (c_headers c) (c_buffer c)).

Inductive Chunk : Type := WStr (s : string) | WDict (j : json).

Definition append_chunk (s : string) : Handler :=
  modify_st (fun c => mkCtx (c_world c) (c_status c) (c_headers c) (c_buffer c ++ [s])).

Definition write (chunk : Chunk) : Handler :=
  match chunk with
  | WStr s => append_chunk s
  | WDict j => set_header "Content-Type" "application/json; charset=UTF-8" ;;
               append_chunk (json_encode j)
  end.

(** ** Running a handler method *)

Record Response : Type := mkResponse {
  resp_status : Z;
  resp_headers : list (string * string);
  resp_body : string
}.

Definition tornado_headers : list (string * string) :=
  [("Server", "TornadoServer"); ("Content-Type", "text/html; charset=UTF-8")].

(** A new handler object: [BaseHandler.__init__] calls
    [RequestHandler.__init__], whose [clear()] sets the framework's headers
    and then the class's [set_default_headers]; the [ServerResponse] it
    keeps has no state. *)
Definition cleared (defaults : Handler) (w : World) (buf : list string) : Ctx :=
  exec defaults (mkCtx w 200 tornado_headers buf).

Definition error_page : string :=
  "<html><title>500: Internal Server Error</title><body>500: Internal Server Error</body></html>".

(** The method runs on a fresh handler; what it raises becomes a 500 page
    ([send_error]: clear, status 500, [write_error]); otherwise the buffer
    is sent with the status and headers the method left. *)
Definition serve (defaults : Handler) (method : Handler) (w : World) : Response * World :=
  match method (cleared defaults w []) with
  | (Ok _, c) => (mkResponse (c_status c) (c_headers c) (String.concat EmptyString (c_buffer c)),
                  c_world c)
  | (Raise _, c) =>
      let c' := cleared defaults (c_world c) [] in
      (mkResponse 500 (c_headers c') error_page, c_world c)
  end.

Example get_argument_last_stripped :
  get_argument (mkRequest [("limit", "3"); ("limit", " 7" ++ String "009" EmptyString)] EmptyString)
    "limit" None = Some "7".
Proof. reflexivity. Qed.

Example py_int_samples :
  py_int " -1_000 " = Ok (-1000)%Z /\ py_int "+07" = Ok 7%Z /\
  py_int "1__0" = Raise (ValueError "1__0") /\ py_int "_1" = Raise (ValueError "_1").
Proof. repeat split; reflexivity. Qed.
