(* ===== verification/JsonRoundtrip.v ===== *)
(** * [json.loads] reads back what [json.dumps] prints

    A client that sends as request body the [json.dumps] text of a value
    gets that value from the server's [json_decode]: the executor and the
    broker receive exactly what was sent.  The value must be one a Python
    dict can print: the keys of each dict distinct, since [json.loads]
    keeps the last of repeated keys.  The proof follows the printer:
    - numbers: [str(n)] has no leading zero, its digits are read back by
      [scan_digits], and what follows a number in printed text is never a
      digit, a point or an exponent;
    - strings: each byte's escape is read back as that byte, checked over
      all 256 bytes;
    - lists and dicts: by induction on the value, the fuel of the parser
      bounded by the size of the value, itself bounded by the length of
      the text. *)

From S2P Require Import Prelude Json JsonDecode Tornado.
Local Open Scope string_scope.

(** ** Numbers *)

(** Text that may follow a number without being read as part of it. *)
Definition stops (rest : string) : bool :=
  negb (float_follows rest) &&
  match rest with String c _ => negb (is_digit c) | EmptyString => true end.

Lemma scan_digits_stop a rest : stops rest = true -> scan_digits a rest = (a, rest).
Proof.
  destruct rest as [|c r]; [done|]. unfold stops. simpl.
  intros [_ Hc]%andb_true_iff. apply negb_true_iff in Hc. by rewrite Hc.
Qed.

Lemma scan_digits_digit a d s : (d < 10)%N ->
  scan_digits a (String (digit_char d) s) = scan_digits (a * 10 + d)%N s.
Proof. intros Hd. digit_enum d; reflexivity. Qed.

Lemma dec_digits_app f n acc rest :
  dec_digits f n acc ++ rest = dec_digits f n (acc ++ rest).
Proof.
  revert n acc. induction f as [|f IH]; intros n acc; [done|]. simpl.
  destruct (n <? 10)%N; [done|]. by rewrite IH.
Qed.

Lemma scan_digits_dec f n acc a : (n < 10 ^ N.of_nat f)%N ->
  exists p, scan_digits a (dec_digits f n acc) = scan_digits (a * p + n)%N acc.
Proof.
  revert n acc a. induction f as [|f IH]; intros n acc a Hn; simpl in *.
  - exists 1%N. replace n with 0%N by lia. f_equal. lia.
  - destruct (N.ltb_spec n 10).
    + exists 10%N. rewrite scan_digits_digit by (apply N.mod_lt; lia).
      rewrite N.mod_small by lia. done.
    + rewrite Nat2N.inj_succ, N.pow_succ_r' in Hn.
      destruct (IH (n / 10)%N (String (digit_char (n mod 10)) acc) a) as [p Hp].
      { apply N.Div0.div_lt_upper_bound; lia. }
      exists (p * 10)%N. rewrite Hp, scan_digits_digit by (apply N.mod_lt; lia).
      f_equal. pose proof (N.div_mod n 10). lia.
Qed.

(** The first digit of a positive number is not zero. *)
Lemma dec_digits_lead f n acc : (0 < n < 10 ^ N.of_nat (S f))%N ->
  exists d t, (0 < d < 10)%N /\ dec_digits (S f) n acc = String (digit_char d) t.
Proof.
  revert n acc. induction f as [|f IH]; intros n acc Hn; cbn [dec_digits];
    destruct (N.ltb_spec n 10) as [Hlt|Hge].
  - exists (n mod 10)%N, acc. rewrite N.mod_small by lia. split; [lia | done].
  - simpl in Hn. lia.
  - exists (n mod 10)%N, acc. rewrite N.mod_small by lia. split; [lia | done].
  - apply IH. split; [apply N.div_str_pos; lia|].
    apply N.Div0.div_lt_upper_bound. rewrite Nat2N.inj_succ, N.pow_succ_r' in Hn. lia.
Qed.

Lemma scan_digits_str_N n rest : stops rest = true ->
  scan_digits 0 (str_N n ++ rest) = (n, rest).
Proof.
  intros Hs. unfold str_N. rewrite dec_digits_app, str_app_nil_l.
  destruct (scan_digits_dec (S (N.to_nat (N.size n))) n rest 0 (str_N_fuel n)) as [p ->].
  by rewrite scan_digits_stop.
Qed.

(** [scan_nat] on a number that starts with a digit other than zero. *)
Lemma scan_nat_lead d t : (0 < d < 10)%N ->
  scan_nat (String (digit_char d) t) =
  let '(n, r) := scan_digits (0 * 10 + d)%N t in if float_follows r then None else Some (n, r).
Proof. intros Hd. assert (d <> 0%N) by lia. assert (Hd9 : (d < 10)%N) by lia. digit_enum d; done. Qed.

Lemma scan_nat_str_N n rest : stops rest = true -> scan_nat (str_N n ++ rest) = Some (n, rest).
Proof.
  intros Hs. pose proof (scan_digits_str_N n rest Hs) as Hd.
  destruct (N.eq_dec n 0) as [->|Hn].
  - unfold stops in Hs. apply andb_true_iff in Hs as [Hf _]. apply negb_true_iff in Hf.
    change (str_N 0 ++ rest) with (String "0" rest). simpl. by rewrite Hf.
  - unfold str_N in *. rewrite dec_digits_app, str_app_nil_l in *.
    destruct (dec_digits_lead (N.to_nat (N.size n)) n rest) as (d & t & Hd10 & Ht).
    { split; [lia | apply str_N_fuel]. }
    rewrite Ht in *. rewrite scan_digits_digit in Hd by lia.
    assert (Hf : float_follows rest = false).
    { unfold stops in Hs. apply andb_true_iff in Hs as [Hf _]. by apply negb_true_iff. }
    rewrite scan_nat_lead, Hd by done. by rewrite Hf.
Qed.

(** [scan_int] on a text that does not start with a minus sign. *)
Lemma scan_int_nonneg c s : c <> "-"%char ->
  scan_int (String c s) = '(n, r) ← scan_nat (String c s); Some (Z.of_N n, r).
Proof. intros Hc. destruct c as [[] [] [] [] [] [] [] []]; try reflexivity. by destruct Hc. Qed.

Lemma str_N_head n : exists d t, (d < 10)%N /\ str_N n = String (digit_char d) t.
Proof.
  unfold str_N. destruct (dec_digits_head (N.to_nat (N.size n)) n EmptyString) as (d & t & ? & ?).
  by exists d, t.
Qed.

Lemma scan_int_str_Z z rest : stops rest = true -> scan_int (str_Z z ++ rest) = Some (z, rest).
Proof.
  intros Hs. unfold str_Z. destruct (Z.ltb_spec z 0).
  - rewrite str_app_cons. cbn [scan_int]. rewrite scan_nat_str_N by done. simpl. f_equal. f_equal. lia.
  - destruct (str_N_head (Z.to_N z)) as (d & t & Hd & Ht).
    rewrite Ht, str_app_cons, scan_int_nonneg, <- str_app_cons, <- Ht, scan_nat_str_N by
      (done || (digit_enum d; discriminate)).
    simpl. f_equal. f_equal. lia.
Qed.

(** ** Strings *)

Lemma scan_string_escape_char c rest :
  scan_string (escape_char c ++ rest) =
  (fun '(t, r) => (String c t, r)) <$> scan_string rest.
Proof.
  destruct c as [[] [] [] [] [] [] [] []];
  match goal with |- context [escape_char ?c] =>
    let e := eval vm_compute in (escape_char c) in change (escape_char c) with e end;
  rewrite ?str_app_cons, ?str_app_nil_l; simpl;
  destruct (scan_string rest) as [[t r]|]; reflexivity.
Qed.

Lemma scan_string_escape s rest :
  scan_string (escape_string s ++ String dquote rest) = Some (s, rest).
Proof.
  induction s as [|c s IH]; [done|]. cbn [escape_string].
  by rewrite <- str_app_assoc, scan_string_escape_char, IH.
Qed.

(** ** Values a Python dict can print *)

(** Dict keys distinct at every level. *)
Fixpoint json_wf (j : json) : bool :=
  match j with
  | JList l => forallb json_wf l
  | JDict kvs => bool_decide (NoDup kvs.*1) && forallb (fun '(_, v) => json_wf v) kvs
  | _ => true
  end.

(** A bound on the fuel the parser spends on a value. *)
Fixpoint jsize (j : json) : nat :=
  match j with
  | JList l => S (list_sum (map (fun x => S (jsize x)) l))
  | JDict kvs => S (list_sum (map (fun '(_, v) => S (jsize v)) kvs))
  | _ => 1
  end.

(** Induction on values, with a hypothesis for each element of a list or dict. *)
Section JsonInd.
Variable P : json -> Prop.
Hypothesis HNull : P JNull.
Hypothesis HBool : forall b, P (JBool b).
Hypothesis HInt : forall z, P (JInt z).
Hypothesis HStr : forall s, P (JStr s).
Hypothesis HList : forall l, Forall P l -> P (JList l).
Hypothesis HDict : forall kvs, Forall (fun kv => P kv.2) kvs -> P (JDict kvs).

Fixpoint json_ind' (j : json) : P j :=
  match j with
  | JNull => HNull
  | JBool b => HBool b
  | JInt z => HInt z
  | JStr s => HStr s
  | JList l =>
      HList l ((fix go (l : list json) : Forall P l :=
                  match l with
                  | [] => List.Forall_nil P
                  | x :: l' => @List.Forall_cons _ P x l' (json_ind' x) (go l')
                  end) l)
  | JDict kvs =>
      HDict kvs ((fix go (kvs : list (string * json)) : Forall (fun kv => P kv.2) kvs :=
                    match kvs with
                    | [] => List.Forall_nil _
                    | (k, v) :: kvs' =>
                        @List.Forall_cons _ (fun kv => P kv.2) (k, v) kvs' (json_ind' v) (go kvs')
                    end) kvs)
  end.
End JsonInd.

(** ** One step of the parser on each kind of text *)

Lemma parse_value_ws f s : parse_value f (String " " s) = parse_value f s.
Proof. by destruct f. Qed.

Lemma parse_elems_ws f s : parse_elems f (String " " s) = parse_elems f s.
Proof. destruct f; [done|]. cbn [parse_elems]. by rewrite parse_value_ws. Qed.

Lemma parse_members_ws f acc s : parse_members f acc (String " " s) = parse_members f acc s.
Proof. by destruct f. Qed.

Lemma parse_value_quote f r :
  parse_value (S f) (String dquote r) = '(str, r') ← scan_string r; Some (JStr str, r').
Proof. reflexivity. Qed.

Lemma parse_value_list f r :
  parse_value (S f) (String "[" r) =
  match next_is "]" r with
  | Some r' => Some (JList [], r')
  | None => '(l, r') ← parse_elems f r; Some (JList l, r')
  end.
Proof. reflexivity. Qed.

Lemma parse_value_dict f r :
  parse_value (S f) (String "{" r) =
  match next_is "}" r with
  | Some r' => Some (JDict [], r')
  | None => '(d, r') ← parse_members f [] r; Some (JDict d, r')
  end.
Proof. reflexivity. Qed.

(** A number: the text starts with a minus sign or a digit. *)
Lemma parse_value_num f c r :
  c = "-"%char \/ is_digit c = true ->
  parse_value (S f) (String c r) = '(z, r') ← scan_int (String c r); Some (JInt z, r').
Proof.
  intros Hc. destruct c as [[] [] [] [] [] [] [] []]; try reflexivity;
  destruct Hc as [Hc|Hc]; discriminate.
Qed.

(** ** What a printed value starts with *)

Lemma skip_ws_nonws c t : is_ws c = false -> skip_ws (String c t) = String c t.
Proof. intros Hc. simpl. by rewrite Hc. Qed.

Lemma dumps_str_app k x :
  dumps_str k ++ x = String dquote (escape_string k ++ String dquote x).
Proof. unfold dumps_str. by rewrite str_app_cons, <- str_app_assoc, str_app_cons. Qed.

(** The first character of a printed value is not blank and does not close
    a list or a dict. *)
Lemma dumps_head j : exists c t, dumps j = String c t /\ is_ws c = false /\
  Ascii.eqb c "]" = false /\ Ascii.eqb c "}" = false.
Proof.
  destruct j as [|[]|z|s|l|kvs]; cbn [dumps]; try unfold dumps_str; rewrite ?str_app_cons;
    try by eexists _, _.
  unfold str_Z. destruct (z <? 0)%Z; [by eexists _, _|].
  destruct (str_N_head (Z.to_N z)) as (d & t & Hd & ->). exists (digit_char d), t.
  digit_enum d; done.
Qed.

Lemma next_is_dumps ch j x : Ascii.eqb ch "]" = true \/ Ascii.eqb ch "}" = true ->
  next_is ch (dumps j ++ x) = None.
Proof.
  intros Hch. destruct (dumps_head j) as (c & t & -> & Hws & Hb & Hc).
  unfold next_is. rewrite str_app_cons, skip_ws_nonws by done.
  destruct Hch as [Hch|Hch]; apply Ascii.eqb_eq in Hch as ->; [by rewrite Ascii.eqb_sym, Hb|].
  by rewrite Ascii.eqb_sym, Hc.
Qed.

(** ** Reading back lists and dicts *)

Definition reads_back (j : json) : Prop :=
  forall f rest, json_wf j = true -> (jsize j < f)%nat -> stops rest = true ->
  parse_value f (dumps j ++ rest) = Some (j, rest).

Lemma concat_map_cons2 {A} sep (h : A -> string) x y l :
  String.concat sep (map h (x :: y :: l)) = h x ++ sep ++ String.concat sep (map h (y :: l)).
Proof. reflexivity. Qed.

Lemma parse_elems_dumps l f rest :
  l <> [] -> Forall reads_back l -> forallb json_wf l = true ->
  (list_sum (map (fun x => S (jsize x)) l) < f)%nat ->
  parse_elems f (String.concat ", " (map dumps l) ++ String "]" rest) = Some (l, rest).
Proof.
  revert f. induction l as [|v l IH]; intros f Hne Hall Hwf Hf; [done|].
  apply Forall_cons in Hall as [Hv Hl]. apply andb_true_iff in Hwf as [Hwv Hwl].
  destruct f as [|f]; [simpl in Hf; lia|]. simpl in Hf. cbn [parse_elems].
  destruct l as [|v2 l].
  - cbn [map String.concat]. rewrite Hv by (done || lia). reflexivity.
  - rewrite concat_map_cons2, <- !str_app_assoc, !str_app_cons, str_app_nil_l.
    rewrite Hv by (done || lia). cbn [mbind option_bind].
    rewrite skip_ws_nonws by reflexivity. cbn iota.
    rewrite parse_elems_ws, IH by (done || lia). done.
Qed.

(** [d[k] = v] for a new key [k]: the pair goes last. *)
Lemma dict_set_fresh {V} k (v : V) d : k ∉ d.*1 -> dict_set k v d = (d ++ [(k, v)])%list.
Proof.
  induction d as [|[k' v'] d IH]; intros Hk; [done|]. simpl in *.
  rewrite not_elem_of_cons in Hk. destruct Hk as [Hk Hd].
  destruct (String.eqb_spec k k'); [done|]. by rewrite IH.
Qed.

Lemma next_is_colon x : next_is ":" (String ":" x) = Some x.
Proof. reflexivity. Qed.

(** The text of one member: its key, a colon, its value. *)
Lemma member_text k v x :
  (dumps_str k ++ ": " ++ dumps v) ++ x =
  String dquote (escape_string k ++ String dquote (String ":" (String " " (dumps v ++ x)))).
Proof. by rewrite <- !str_app_assoc, dumps_str_app, !str_app_cons, str_app_nil_l. Qed.

Lemma parse_members_dumps kvs acc f rest :
  kvs <> [] -> Forall (fun kv => reads_back kv.2) kvs ->
  forallb (fun '(_, v) => json_wf v) kvs = true -> NoDup (acc ++ kvs)%list.*1 ->
  (list_sum (map (fun '(_, v) => S (jsize v)) kvs) < f)%nat ->
  parse_members f acc
    (String.concat ", " (map (fun '(k, v) => dumps_str k ++ ": " ++ dumps v) kvs) ++ String "}" rest)
  = Some ((acc ++ kvs)%list, rest).
Proof.
  revert acc f. induction kvs as [|[k v] kvs IH]; intros acc f Hne Hall Hwf Hnd Hf; [done|].
  apply Forall_cons in Hall as [Hv Hl]. apply andb_true_iff in Hwf as [Hwv Hwl].
  destruct f as [|f]; [simpl in Hf; lia|]. simpl in Hf, Hv.
  assert (Hnd' : NoDup ((acc ++ [(k, v)]) ++ kvs)%list.*1) by (rewrite <- app_assoc; exact Hnd).
  rewrite fmap_app, fmap_cons, NoDup_app in Hnd. destruct Hnd as (Hacc & Hdisj & Hkvs).
  assert (Hk : k ∉ acc.*1) by (intros Hin; apply (Hdisj k Hin); rewrite elem_of_cons; by left).
  cbn [parse_members]. destruct kvs as [|kv2 kvs].
  - cbn [map String.concat]. cbv beta iota. rewrite member_text, skip_ws_nonws by reflexivity.
    cbn iota. rewrite Ascii.eqb_refl, scan_string_escape. cbn [mbind option_bind].
    rewrite next_is_colon. cbn [mbind option_bind]. rewrite parse_value_ws, Hv by (done || reflexivity || lia).
    cbn [mbind option_bind]. rewrite dict_set_fresh, skip_ws_nonws by done. done.
  - rewrite concat_map_cons2, <- str_app_assoc. cbv beta iota.
    rewrite member_text, skip_ws_nonws by reflexivity.
    cbn iota. rewrite Ascii.eqb_refl, scan_string_escape. cbn [mbind option_bind].
    rewrite next_is_colon. cbn [mbind option_bind].
    rewrite <- !str_app_assoc, !str_app_cons, str_app_nil_l, parse_value_ws, Hv
      by (done || reflexivity || lia).
    cbn [mbind option_bind]. rewrite dict_set_fresh, skip_ws_nonws by done. cbn iota.
    rewrite parse_members_ws, IH by (done || lia). by rewrite <- app_assoc.
Qed.

Lemma concat_map_head {A} sep (h : A -> string) x l y :
  exists z, String.concat sep (map h (x :: l)) ++ y = h x ++ z.
Proof.
  destruct l as [|x' l]; [by exists y|]. rewrite concat_map_cons2.
  eexists. by rewrite <- !str_app_assoc.
Qed.

Lemma str_Z_head z : exists c t, str_Z z = String c t /\ (c = "-"%char \/ is_digit c = true).
Proof.
  unfold str_Z. destruct (z <? 0)%Z; [eexists _, _; split; [reflexivity | by left]|].
  destruct (str_N_head (Z.to_N z)) as (d & t & Hd & ->). exists (digit_char d), t.
  split; [done | right]. digit_enum d; done.
Qed.

(** Every value a Python dict can print is read back from its text,
    whatever follows it. *)
Lemma json_reads_back j : reads_back j.
Proof.
  induction j as [| b | z | s | l IH | kvs IH] using json_ind';
    intros [|f] rest Hwf Hf Hs; try (simpl in Hf; lia).
  - reflexivity.
  - by destruct b.
  - cbn [dumps]. destruct (str_Z_head z) as (c & t & Heq & Hc).
    rewrite Heq, str_app_cons, parse_value_num, <- str_app_cons, <- Heq, scan_int_str_Z by done.
    done.
  - cbn [dumps]. by rewrite dumps_str_app, parse_value_quote, scan_string_escape.
  - cbn [dumps]. rewrite <- !str_app_assoc, !str_app_cons, !str_app_nil_l, parse_value_list.
    destruct l as [|v l]; [done|].
    destruct (concat_map_head ", " dumps v l (String "]" rest)) as [y Hy].
    rewrite Hy, next_is_dumps, <- Hy by (left; reflexivity).
    rewrite parse_elems_dumps by first [done | exact Hwf | simpl in *; lia]. done.
  - cbn [dumps]. rewrite <- !str_app_assoc, !str_app_cons, !str_app_nil_l, parse_value_dict.
    apply andb_true_iff in Hwf as [Hnd Hwf]. apply bool_decide_eq_true in Hnd.
    destruct kvs as [|[k v] kvs]; [done|].
    destruct (concat_map_head ", " (fun '(k, v) => dumps_str k ++ ": " ++ dumps v) (k, v) kvs
                (String "}" rest)) as [y Hy].
    assert (Hn : next_is "}" ((fun '(k, v) => dumps_str k ++ ": " ++ dumps v) (k, v) ++ y) = None).
    { cbv beta iota. rewrite <- str_app_assoc, dumps_str_app. reflexivity. }
    rewrite Hy, Hn, <- Hy. rewrite (parse_members_dumps _ []) by first [done | exact Hwf | simpl in *; lia]. done.
Qed.

(** ** The fuel of [json_decode] is enough *)

Lemma concat_length_bound {A} (g : A -> nat) (h : A -> string) l :
  Forall (fun x => g x <= S (String.length (h x)))%nat l ->
  (list_sum (map g l) <= S (String.length (String.concat ", " (map h l))))%nat.
Proof.
  induction l as [|x l IH]; intros Hg; [simpl; lia|].
  apply Forall_cons in Hg as [Hx Hl]. specialize (IH Hl).
  destruct l as [|y l]; [simpl; lia|].
  rewrite concat_map_cons2, !str_length_app. change (String.length ", ") with 2%nat.
  cbn [map list_sum fold_right] in *. lia.
Qed.

Lemma dumps_str_length k : (2 <= String.length (dumps_str k))%nat.
Proof. unfold dumps_str. simpl. rewrite str_length_app. simpl. lia. Qed.

Lemma jsize_length j : (jsize j <= String.length (dumps j))%nat.
Proof.
  induction j as [| b | z | s | l IH | kvs IH] using json_ind'.
  - simpl. lia.
  - destruct b; simpl; lia.
  - cbn [dumps jsize]. destruct (str_Z_head z) as (c & t & -> & _). simpl. lia.
  - cbn [dumps jsize]. pose proof (dumps_str_length s). lia.
  - cbn [dumps jsize]. rewrite !str_length_app. simpl.
    assert (Forall (fun x => S (jsize x) <= S (String.length (dumps x)))%nat l)
      by (eapply Forall_impl; [exact IH | simpl; lia]).
    pose proof (concat_length_bound _ _ l H). lia.
  - cbn [dumps jsize]. rewrite !str_length_app. simpl.
    assert (Forall (fun kv : string * json => (let '(_, v) := kv in S (jsize v)) <=
                    S (String.length (let '(k, v) := kv in dumps_str k ++ ": " ++ dumps v)))%nat kvs).
    { eapply Forall_impl; [exact IH|]. intros [k v] Hv. simpl in Hv.
      rewrite !str_length_app. simpl. lia. }
    pose proof (concat_length_bound _ _ kvs H). lia.
Qed.

(** [json.loads(json.dumps(v)) == v] for every value a Python dict can print. *)
Theorem json_decode_dumps j : json_wf j = true -> json_decode (dumps j) = Some j.
Proof.
  intros Hwf. unfold json_decode.
  pose proof (json_reads_back j (S (String.length (dumps j))) EmptyString Hwf) as H.
  rewrite str_app_nil_r in H. rewrite H by (pose proof (jsize_length j); (lia || reflexivity)).
  reflexivity.
Qed.
