(* ===== verification/JsonFuel.v ===== *)
(** * The decoder's fuel is never what decides its answer

    [parse_value] of JsonDecode.v is structural on a fuel bound, where
    Python's [json] scanner recurses without one.  This file shows that the
    bound [json_decode] gives, the text's length plus one, is never reached:
    every scanner consumes at least one character ([scan_string_len],
    [scan_int_len], ...), a parse needs no more fuel than the characters it
    consumes ([parse_fuel]), so any larger fuel gives the same answer
    ([parse_value_fuel]).  The proofs step through one call of each parser
    function with the equations [parse_value_S], [parse_elems_S] and
    [parse_members_S], which split off the branches that recurse. *)

From S2P Require Import Prelude Json JsonDecode.
Local Open Scope string_scope.
Local Abbreviation len := String.length.

(** The fuel a parse needs is at most the number of characters it
    consumes: a parse that succeeds with some fuel succeeds with the same
    result under every fuel at least that number. *)
Definition fuel_ok {A} (p : nat -> string -> option (A * string)) (m : nat) : Prop :=
  forall s x r, p m s = Some (x, r) ->
  len r < len s /\ forall n, len s - len r <= n -> p n s = Some (x, r).

Lemma skip_ws_len s : len (skip_ws s) <= len s.
Proof. induction s as [|c s IH]; simpl; [lia|]. destruct (is_ws c); simpl; lia. Qed.

Lemma next_is_len c s r : next_is c s = Some r -> len r < len s.
Proof.
  unfold next_is. pose proof (skip_ws_len s). destruct (skip_ws s) as [|c' t]; [done|].
  case_match; intros; simplify_eq/=; lia.
Qed.

Lemma scan_digits_len a s : len (snd (scan_digits a s)) <= len s.
Proof. revert a. induction s as [|c s IH]; intros a; simpl; [lia|]. case_match; simpl; [rewrite IH|]; lia. Qed.

Lemma scan_nat_len s n r : scan_nat s = Some (n, r) -> len r < len s.
Proof.
  destruct s as [|c s]; [done|]. pose proof (scan_digits_len (digit_val c) s).
  unfold scan_nat. repeat (case_match; simplify_eq/=); intros; simplify_eq/=; lia.
Qed.

#[local] Opaque scan_nat.
Lemma scan_int_len s z r : scan_int s = Some (z, r) -> len r < len s.
Proof.
  unfold scan_int. destruct s as [|c s]; [done|]. intros H. scan_cases;
    repeat match goal with H : scan_nat _ = Some _ |- _ => apply scan_nat_len in H end; simpl in *; lia.
Qed.
#[local] Transparent scan_nat.


#[local] Opaque hex_val N_of_ascii Ascii.eqb.
Lemma scan_escape_len s e r : scan_escape s = Some (e, r) -> len r < len s.
Proof. unfold scan_escape. intros H. scan_cases; simpl; lia. Qed.


#[local] Opaque scan_escape N_of_ascii Ascii.eqb.
Lemma scan_string_len s t r : scan_string s = Some (t, r) -> len r < len s.
Proof.
  revert t r. induction s as [s IH] using (induction_ltof1 _ len). intros t r.
  destruct s as [|c s]; [done|]. cbn [scan_string]. unfold ltof in IH. intros H. scan_cases;
    repeat match goal with H : scan_string ?x = Some _ |- _ =>
      apply IH in H; [|simpl in *; lia] end;
    repeat match goal with H : scan_escape _ = Some _ |- _ => apply scan_escape_len in H end;
    simpl in *; lia.
Qed.

#[local] Transparent hex_val scan_escape N_of_ascii Ascii.eqb.

(** One step of each parser function, with the two branches that recurse
    split off by a character test; every other value is read by one step. *)
Lemma parse_value_S f s :
  parse_value (S f) s =
  match skip_ws s with
  | String c r =>
      if Ascii.eqb c "[" then
        match next_is "]" r with
        | Some r' => Some (JList [], r')
        | None => '(l, r') ← parse_elems f r; Some (JList l, r')
        end
      else if Ascii.eqb c "{" then
        match next_is "}" r with
        | Some r' => Some (JDict [], r')
        | None => '(d, r') ← parse_members f [] r; Some (JDict d, r')
        end
      else parse_value 1 s
  | EmptyString => None
  end.
Proof.
  cbn [parse_value]. destruct (skip_ws s) as [|c r]; [done|].
  destruct c as [[] [] [] [] [] [] [] []]; reflexivity.
Qed.

Lemma parse_elems_S f s :
  parse_elems (S f) s =
  '(v, r) ← parse_value f s;
  match skip_ws r with
  | String c r' =>
      if Ascii.eqb c "," then '(vs, r'') ← parse_elems f r'; Some (v :: vs, r'')
      else if Ascii.eqb c "]" then Some ([v], r') else None
  | EmptyString => None
  end.
Proof.
  cbn [parse_elems]. destruct (parse_value f s) as [[v r]|]; [|done]. cbn [mbind option_bind].
  destruct (skip_ws r) as [|c r']; [done|]. destruct c as [[] [] [] [] [] [] [] []]; reflexivity.
Qed.

Lemma parse_members_S f acc s :
  parse_members (S f) acc s =
  match skip_ws s with
  | String c r =>
      if Ascii.eqb c dquote then
        '(k, r1) ← scan_string r;
        r2 ← next_is ":" r1;
        '(v, r3) ← parse_value f r2;
        match skip_ws r3 with
        | String c' r4 =>
            if Ascii.eqb c' "," then parse_members f (dict_set k v acc) r4
            else if Ascii.eqb c' "}" then Some (dict_set k v acc, r4) else None
        | EmptyString => None
        end
      else None
  | EmptyString => None
  end.
Proof.
  cbn [parse_members]. destruct (skip_ws s) as [|c r]; [done|]. destruct (Ascii.eqb c dquote); [|done].
  destruct (scan_string r) as [[k r1]|]; [|done]. cbn [mbind option_bind].
  destruct (next_is ":" r1) as [r2|]; [|done]. cbn [mbind option_bind].
  destruct (parse_value f r2) as [[v r3]|]; [|done]. cbn [mbind option_bind].
  destruct (skip_ws r3) as [|c' r4]; [done|]. destruct c' as [[] [] [] [] [] [] [] []]; reflexivity.
Qed.

#[local] Opaque scan_string scan_int N_of_ascii Ascii.eqb.
(** A value read by one step consumes at least one character. *)
Lemma parse_value_1_len s v r : parse_value 1 s = Some (v, r) -> len r < len s.
Proof.
  cbn [parse_value]. pose proof (skip_ws_len s). destruct (skip_ws s) as [|c t]; [done|].
  intros Hp. scan_cases;
    repeat match goal with
    | H : scan_string _ = Some _ |- _ => apply scan_string_len in H
    | H : scan_int _ = Some _ |- _ => apply scan_int_len in H
    | H : next_is _ _ = Some _ |- _ => apply next_is_len in H
    end; simpl in *; lia.
Qed.
#[local] Transparent scan_string scan_int N_of_ascii Ascii.eqb.

Lemma parse_fuel m :
  fuel_ok parse_value m /\ fuel_ok parse_elems m /\ forall acc, fuel_ok (fun n => parse_members n acc) m.
Proof.
  induction m as [|m (IHv & IHe & IHm)]; [split_and!; done|]. split_and!.
  - intros s v r H. rewrite parse_value_S in H. pose proof (skip_ws_len s) as Hs.
    destruct (skip_ws s) as [|c t] eqn:E; [done|]. simpl in Hs.
    destruct (Ascii.eqb c "[") eqn:E1; [|destruct (Ascii.eqb c "{") eqn:E2].
    + destruct (next_is "]" t) as [r'|] eqn:En.
      * apply next_is_len in En as Hl. injection H as <- <-.
        split; [lia|]. intros [|n] Hn; [lia|]. by rewrite parse_value_S, E, E1, En.
      * destruct (parse_elems m t) as [[l r']|] eqn:Hp; [|done]. injection H as <- <-.
        destruct (IHe _ _ _ Hp) as [Hl Hn']. split; [lia|].
        intros [|n] Hn; [lia|]. by rewrite parse_value_S, E, E1, En, Hn' by lia.
    + destruct (next_is "}" t) as [r'|] eqn:En.
      * apply next_is_len in En as Hl. injection H as <- <-.
        split; [lia|]. intros [|n] Hn; [lia|]. by rewrite parse_value_S, E, E1, E2, En.
      * destruct (parse_members m [] t) as [[d r']|] eqn:Hp; [|done]. injection H as <- <-.
        destruct (IHm [] _ _ _ Hp) as [Hl Hn']. split; [lia|].
        intros [|n] Hn; [lia|]. by rewrite parse_value_S, E, E1, E2, En, Hn' by lia.
    + apply parse_value_1_len in H as Hl. split; [lia|].
      intros [|n] Hn; [lia|]. by rewrite parse_value_S, E, E1, E2.
  - intros s vs r H. rewrite parse_elems_S in H.
    destruct (parse_value m s) as [[v r0]|] eqn:Hv; [|done]. cbn [mbind option_bind] in H.
    destruct (IHv _ _ _ Hv) as [Hl0 Hv']. pose proof (skip_ws_len r0) as Hs.
    destruct (skip_ws r0) as [|c t] eqn:E; [done|]. simpl in Hs.
    destruct (Ascii.eqb c ",") eqn:E1; [|destruct (Ascii.eqb c "]") eqn:E2; [|done]].
    + destruct (parse_elems m t) as [[l r']|] eqn:Hp; [|done]. injection H as <- <-.
      destruct (IHe _ _ _ Hp) as [Hl Hn']. split; [lia|].
      intros [|n] Hn; [lia|]. rewrite parse_elems_S, Hv' by lia. cbn [mbind option_bind].
      by rewrite E, E1, Hn' by lia.
    + injection H as <- <-. split; [lia|].
      intros [|n] Hn; [lia|]. rewrite parse_elems_S, Hv' by lia. cbn [mbind option_bind].
      by rewrite E, E1, E2.
  - intros acc s d r H. rewrite parse_members_S in H. pose proof (skip_ws_len s) as Hs.
    destruct (skip_ws s) as [|c t] eqn:E; [done|]. simpl in Hs.
    destruct (Ascii.eqb c dquote) eqn:E1; [|done].
    destruct (scan_string t) as [[k r1]|] eqn:Hk; [|done]. cbn [mbind option_bind] in H.
    destruct (next_is ":" r1) as [r2|] eqn:Hc; [|done]. cbn [mbind option_bind] in H.
    destruct (parse_value m r2) as [[v r3]|] eqn:Hv; [|done]. cbn [mbind option_bind] in H.
    apply scan_string_len in Hk as Hlk. apply next_is_len in Hc as Hlc.
    destruct (IHv _ _ _ Hv) as [Hl3 Hv']. pose proof (skip_ws_len r3) as Hs3.
    assert (Hrest : forall n, parse_value n r2 = Some (v, r3) ->
      parse_members (S n) acc s =
      match skip_ws r3 with
      | String c' r4 =>
          if Ascii.eqb c' "," then parse_members n (dict_set k v acc) r4
          else if Ascii.eqb c' "}" then Some (dict_set k v acc, r4) else None
      | EmptyString => None
      end).
    { intros n Hvn. rewrite parse_members_S, E, E1, Hk. cbn [mbind option_bind].
      rewrite Hc. cbn [mbind option_bind]. by rewrite Hvn. }
    destruct (skip_ws r3) as [|c' t'] eqn:E3; [done|]. simpl in Hs3.
    destruct (Ascii.eqb c' ",") eqn:E4; [|destruct (Ascii.eqb c' "}") eqn:E5; [|done]].
    + destruct (IHm _ _ _ _ H) as [Hl Hn']. split; [lia|].
      intros [|n] Hn; [lia|]. rewrite Hrest by (apply Hv'; lia). cbv iota. apply Hn'. lia.
    + injection H as <- <-. split; [lia|].
      intros [|n] Hn; [lia|]. rewrite Hrest by (apply Hv'; lia). by cbv iota.
Qed.

(** Fuel beyond the text's length changes nothing: the bound [json_decode]
    gives its parser never cuts a parse short. *)
Lemma parse_value_fuel s n :
  len s < n -> parse_value n s = parse_value (S (len s)) s.
Proof.
  intros Hn. destruct (parse_value n s) as [[v r]|] eqn:H.
  - destruct (proj1 (parse_fuel n) s v r H) as [Hl Hall]. symmetry. apply Hall. lia.
  - destruct (parse_value (S (len s)) s) as [[v r]|] eqn:H'; [|done].
    destruct (proj1 (parse_fuel _) s v r H') as [Hl Hall]. rewrite Hall in H by lia. done.
Qed.
