(* ===== verification/Handlers.v ===== *)
(** * The request handlers of [src/server.py]

    One definition per method of the handler classes, in the order of the
    source, each a [Handler] (a computation over the handler object and
    the process state, see Tornado.v):
    - [BaseHandler]: [set_default_headers], [success], [error];
    - [CreateTaskHandler.post]: decode the body, make a [TaskItem], store
      it, then run it in process or publish it by the [type] argument;
    - [CreateTaskQueueHandler.post]: the same, always publishing;
    - [ListTaskHandler.get]: one task by id, or the listing with a limit;
    - [ResultsHandler.get]: the cache-aside read of a task's results;
    - [HealthCheckHandler.get].
    The [try]/[except Exception] blocks are [try_except]; a [return] inside
    the [try] block of [post] and [get] is the [None] of the value the block
    returns, and the [self.write] after the block writes the [Some]. *)

From S2P Require Import Prelude Json JsonDecode Backend Tornado.
Local Open Scope string_scope.

(** ** Helpers for the Python expressions of the handlers *)

(** [str(x)] of an optional string, as an f-string prints it. *)
Definition py_str (o : option string) : string :=
  match o with Some s => s | None => "None" end.

(** The value of a truthy optional string. *)
Definition truthy_value (o : option string) : option string :=
  if py_truthy o then o else None.

(** [d.get(k, default)] on a JSON value, which must be a dict. *)
Definition py_get (k : string) (default : json) (v : json) : PyM Ctx PyExc json :=
  match v with
  | JDict kvs => ret (match dict_get k kvs with Some x => x | None => default end)
  | _ => raise (AttributeError "get")
  end.

(** [v == s] for a string [s]: only a string with the same characters is
    equal to it. *)
Definition py_eq_str (v : json) (s : string) : bool :=
  match v with JStr t => String.eqb t s | _ => false end.

(** [json_decode(self.request.body)] *)
Definition decode_body (body : string) : PyM Ctx PyExc json :=
  match json_decode body with Some j => ret j | None => raise JSONDecodeError end.

(** [int(limit)] *)
Definition int_arg (s : string) : PyM Ctx PyExc Z :=
  fun c => (py_int s, c).

(** ** [ServerResponse] (src.server.structures.response; from the spec:
    a uniform envelope with a human-readable message) *)

Definition ServerResponse_success (msg : string) : json :=
  JDict [("status", JStr "success"); ("message", JStr msg)].

Definition ServerResponse_error (msg : string) : json :=
  JDict [("status", JStr "error"); ("message", JStr msg)].

(** ** [BaseHandler] *)

Definition set_default_headers : Handler :=
  set_header "Content-Type" "application/json".

Definition success (msg : string) : Handler :=
  set_status 200 ;; write (WDict (ServerResponse_success msg)).

Definition error (msg : string) : Handler :=
  set_status 500 ;; write (WDict (ServerResponse_error msg)).

(** ** [CreateTaskHandler.post] *)

Definition unsupported_type_msg (execution_type : option string) : string :=
  "Unsupported value for parameter 'type': " ++ py_str execution_type ++ ". "
  ++ "Supported values: 'queue', 'process'".

Definition CreateTaskHandler_post `{Executor} (req : Request) : Handler :=
  let execution_type := get_argument req "type" (Some "queue") in
  r <- try_except
         (body <- decode_body (req_body req) ;;
          task <- on_world (on_store (gets_st TaskItem_new)) ;;
          on_world (on_store (create_task task)) ;;
          if bool_decide (execution_type = Some "process") then
            on_world (on_store (run_task task body)) ;;
            ret (Some (json_encode (as_json task)))
          else if bool_decide (execution_type = Some "queue") then
            on_world (on_broker (publish_task task body)) ;;
            ret (Some (json_encode (as_json task)))
          else
            error (unsupported_type_msg execution_type) ;; ret None)
         (fun e => error ("Unexpected error at task creating: " ++ exc_str e) ;; ret None) ;;
  match r with Some response => write (WStr response) | None => ret tt end.

(** ** [CreateTaskQueueHandler.post] *)

Definition CreateTaskQueueHandler_post (req : Request) : Handler :=
  r <- try_except
         (body <- decode_body (req_body req) ;;
          task <- on_world (on_store (gets_st TaskItem_new)) ;;
          on_world (on_store (create_task task)) ;;
          on_world (on_broker (publish_task task body)) ;;
          ret (Some (json_encode (as_json task))))
         (fun e => error ("Unexpected error at task creating: " ++ exc_str e) ;; ret None) ;;
  match r with Some response => write (WStr response) | None => ret tt end.

(** ** [ListTaskHandler.get] *)

Definition ListTaskHandler_get (req : Request) : Handler :=
  let task_id := get_argument req "task_id" None in
  let limit := get_argument req "limit" None in
  r <- try_except
         (tasks <- match truthy_value task_id with
                   | Some id => on_world (on_store (get_task id))
                   | None =>
                       lim <- match truthy_value limit with
                              | Some l => z <- int_arg l ;; ret (Some z)
                              | None => ret None
                              end ;;
                       on_world (on_store (get_tasks lim))
                   end ;;
          ret (Some (dumps tasks)))
         (fun e => error ("Unexpected error at tasks listing: " ++ exc_str e) ;; ret None) ;;
  match r with Some tasks => write (WStr tasks) | None => ret tt end.

(** ** [ResultsHandler.get] *)

Definition cache_hit_msg (task_id : option string) : string :=
  "Redis cache is available, task '" ++ py_str task_id ++ "'".
Definition skip_cache_msg (task_id : option string) : string :=
  "Status of the task '" ++ py_str task_id ++ "' is '" ++ status_value PENDING
  ++ "', skip Redis cache saving".
Definition save_cache_msg (task_id : option string) : string :=
  "Save results to Redis cache, task '" ++ py_str task_id ++ "'".

Definition ResultsHandler_get (req : Request) : Handler :=
  try_except
    (let task_id := get_argument req "task_id" None in
     redis_cache <- on_world (on_cache (redis_get task_id)) ;;
     if py_truthy redis_cache then
       on_world (log_info (cache_hit_msg task_id)) ;;
       write (WStr (py_str redis_cache))
     else
       db_results <- on_world (on_store (get_results task_id)) ;;
       let json_results := dumps db_results in
       task <- py_get "task" (JDict []) db_results ;;
       status <- py_get "status" (JStr EmptyString) task ;;
       if py_eq_str status (status_value PENDING) then
         on_world (log_info (skip_cache_msg task_id)) ;;
         write (WStr json_results)
       else
         on_world (on_cache (redis_set task_id json_results)) ;;
         on_world (log_info (save_cache_msg task_id)) ;;
         write (WStr json_results))
    (fun e => error ("Unexpected error at getting results: " ++ exc_str e)).

(** ** [HealthCheckHandler.get] *)

Definition HealthCheckHandler_get (req : Request) : Handler :=
  write (WDict (JDict [("status", JStr "up")])).

(** ** Running a handler on a symbolic world

    The headers a [BaseHandler] starts with, and those after [self.error]
    or a [self.write] of a dict. *)

Definition json_headers : list (string * string) :=
  [("Server", "TornadoServer"); ("Content-Type", "application/json")].

Definition dict_headers : list (string * string) :=
  [("Server", "TornadoServer"); ("Content-Type", "application/json; charset=UTF-8")].

(** The response [self.error(msg)] sends. *)
Definition error_response (msg : string) : Response :=
  mkResponse 500 dict_headers (json_encode (ServerResponse_error msg)).

(** Unfold the monad, the handler object and the collaborators, and
    compute; the printers stay folded. *)
Ltac run_handler :=
  cbv [serve cleared exec eval try_except bind ret raise get_st put_st modify_st gets_st
       zoom on_world on_store on_cache on_broker log_info
       set_header set_status write append_chunk set_default_headers success error
       py_get decode_body int_arg truthy_value
       redis_get redis_set get_results get_task get_tasks create_task update_status
       store_guard count_read find_row publish_task run_task];
  cbn -[dumps json_encode].
