(* ===== verification/Fixtures.v ===== *)
(** * Concrete inputs for the witnesses

    A sample executor (standing for the OSINT cases a task runs), sample
    requests and sample states, used to apply the theorems at concrete
    inputs.  The executor answers [{"y": x + 1}] for a body with an integer
    field [x], and fails otherwise; with the body [{"x": 1}] this is the
    scenario of the spec's section 8. *)

From S2P Require Import Prelude Json JsonDecode Backend Tornado Handlers.
Local Open Scope string_scope.

Definition sample_run (body : json) : string + json :=
  match jget "x" JNull body with
  | JInt n => inr (JDict [("y", JInt (n + 1))])
  | _ => inl "no cases to run"
  end.

#[export] Instance sample_executor : Executor := {| run_cases := sample_run |}.

(** The body [{"x": 1}]. *)
Definition body_x1 : string := "{" ++ dumps_str "x" ++ ": 1}".

Definition req_results (id : string) : Request := mkRequest [("task_id", id)] EmptyString.
Definition req_create (mode : string) : Request := mkRequest [("type", mode)] body_x1.

Definition row_done : TaskRow := mkRow SUCCESS (JDict [("y", JInt 2)]).
Definition row_pending : TaskRow := mkRow PENDING JNull.

(** A state with one finished task [T1] and one pending task [T2]. *)
Definition world_tasks (cache : gmap string string) (store_is_down cache_set_down : bool)
    : World :=
  mkWorld (mkStore (<["T2" := row_pending]> {["T1" := row_done]}) ["T1"; "T2"] 0 store_is_down)
          (mkCache cache false cache_set_down) (mkBroker [] false) [].

Definition world_up : World := world_tasks ∅ false false.

Example body_x1_decodes : json_decode body_x1 = Some (JDict [("x", JInt 1)]).
Proof. reflexivity. Qed.
