(* ===== verification/Results.v ===== *)
(** * The result resolver: [ResultsHandler.get]

    The cache-aside read of [src/server.py] lines 171-197, branch by
    branch: a cache hit answers without the store; a miss reads the store
    and caches the answer only when the task's status is not [pending];
    every exception, from the cache, the store or the cache write, becomes
    the handler's 500 error envelope.  Each theorem gives the whole
    response and the whole state after the request. *)

From S2P Require Import Prelude Json JsonDecode Backend Tornado Handlers Fixtures.
Local Open Scope string_scope.

(** A request through [ResultsHandler.get]: the response and the state after. *)
Definition results_get (req : Request) (w : World) : Response * World :=
  serve set_default_headers (ResultsHandler_get req) w.

Section Resolver.
Context (req : Request) (k : string).
Hypothesis Harg : get_argument req "task_id" None = Some k.

(** The state of a request that misses the cache and reads the store. *)
Definition after_read (w : World) (cache : Cache) (msgs : list string) : World :=
  mkWorld (mkStore (rows (w_store w)) (order (w_store w)) (S (reads (w_store w)))
                   (store_down (w_store w)))
          cache (w_broker w) (w_log w ++ msgs).

(** C5: a cache hit (a non-empty cached value) is the answer: the value is
    sent as it is, and the store is not touched. *)
Theorem results_cache_hit (w : World) (v : string) :
  get_down (w_cache w) = false ->
  entries (w_cache w) !! k = Some v -> v <> EmptyString ->
  results_get req w =
  (mkResponse 200 json_headers v,
   mkWorld (w_store w) (w_cache w) (w_broker w) (w_log w ++ [cache_hit_msg (Some k)])).
Proof.
  destruct w as [s [ent gd sdn] b lg]; simpl. intros -> Hv Hne.
  unfold results_get, ResultsHandler_get. rewrite Harg. run_handler.
  rewrite Hv. cbn. apply String.eqb_neq in Hne. rewrite Hne. by destruct s.
Qed.

(** C4: a miss on a [PENDING] task answers the store's view and leaves
    the cache as it was, whether or not the cache accepts writes. *)
Theorem results_pending_miss (w : World) (r : TaskRow) :
  get_down (w_cache w) = false -> store_down (w_store w) = false ->
  py_truthy (entries (w_cache w) !! k) = false ->
  rows (w_store w) !! k = Some r -> row_status r = PENDING ->
  results_get req w =
  (mkResponse 200 json_headers (dumps (results_view k r)),
   after_read w (w_cache w) [skip_cache_msg (Some k)]).
Proof.
  destruct w as [[rs ord rd sd] [ent gd sdn] b lg]; simpl.
  intros -> -> Hmiss Hr Hst. unfold results_get, ResultsHandler_get, after_read. rewrite Harg.
  run_handler. rewrite Hmiss. cbn -[dumps]. rewrite Hr. cbn -[dumps].
  destruct r as [st res]; simpl in Hst; subst st. reflexivity.
Qed.

(** C3: a miss on a terminal task answers the store's view and writes
    exactly that text to the cache under the task id. *)
Theorem results_terminal_miss (w : World) (r : TaskRow) :
  get_down (w_cache w) = false -> set_down (w_cache w) = false ->
  store_down (w_store w) = false ->
  py_truthy (entries (w_cache w) !! k) = false ->
  rows (w_store w) !! k = Some r -> is_terminal (row_status r) = true ->
  results_get req w =
  (mkResponse 200 json_headers (dumps (results_view k r)),
   after_read w (mkCache (<[k := dumps (results_view k r)]> (entries (w_cache w)))
                         false false)
              [save_cache_msg (Some k)]).
Proof.
  destruct w as [[rs ord rd sd] [ent gd sdn] b lg]; simpl.
  intros -> -> -> Hmiss Hr Ht. unfold results_get, ResultsHandler_get, after_read. rewrite Harg.
  run_handler. rewrite Hmiss. cbn -[dumps]. rewrite Hr. cbn -[dumps].
  destruct r as [[] res]; [discriminate| |]; reflexivity.
Qed.

(** C11: a failed cache write fails the read: the store answered, yet the
    client gets the 500 envelope (the spec asks for the write failure to
    be logged only). *)
Theorem results_cache_write_failure (w : World) (r : TaskRow) :
  get_down (w_cache w) = false -> set_down (w_cache w) = true ->
  store_down (w_store w) = false ->
  py_truthy (entries (w_cache w) !! k) = false ->
  rows (w_store w) !! k = Some r -> is_terminal (row_status r) = true ->
  results_get req w =
  (error_response ("Unexpected error at getting results: " ++ exc_str RedisConnectionError),
   after_read w (w_cache w) []).
Proof.
  destruct w as [[rs ord rd sd] [ent gd sdn] b lg]; simpl.
  intros -> -> -> Hmiss Hr Ht. unfold results_get, ResultsHandler_get, after_read. rewrite Harg.
  run_handler. rewrite Hmiss. cbn -[dumps]. rewrite Hr. cbn -[dumps].
  rewrite app_nil_r. destruct r as [[] res]; [discriminate| |]; reflexivity.
Qed.

(** C12: an id with no row is not a distinct not-found answer: it is the
    same 500 envelope as any infrastructure failure. *)
Theorem results_not_found (w : World) :
  get_down (w_cache w) = false -> store_down (w_store w) = false ->
  py_truthy (entries (w_cache w) !! k) = false ->
  rows (w_store w) !! k = None ->
  results_get req w =
  (error_response ("Unexpected error at getting results: " ++ exc_str (TaskNotFound k)),
   after_read w (w_cache w) []).
Proof.
  destruct w as [[rs ord rd sd] [ent gd sdn] b lg]; simpl.
  intros -> -> Hmiss Hr. unfold results_get, ResultsHandler_get, after_read. rewrite Harg.
  run_handler. rewrite Hmiss. cbn -[dumps]. rewrite Hr. cbn. by rewrite app_nil_r.
Qed.
End Resolver.

(** C15: without a [task_id] argument the handler passes [None] to the
    cache, which refuses it: the answer is the 500 envelope and nothing
    changes. *)
Theorem results_without_task_id (req : Request) (w : World) :
  get_argument req "task_id" None = None ->
  results_get req w =
  (error_response ("Unexpected error at getting results: " ++ exc_str RedisDataError), w).
Proof.
  intros Harg. unfold results_get, ResultsHandler_get. rewrite Harg. run_handler. by destruct w.
Qed.

(** ** Witnesses *)

Lemma results_cache_hit_witness :
  results_get (req_results "T1")
    (world_tasks {["T1" := "cached"]} false false) =
  (mkResponse 200 json_headers "cached",
   let w := world_tasks {["T1" := "cached"]} false false in
   mkWorld (w_store w) (w_cache w) (w_broker w) (w_log w ++ [cache_hit_msg (Some "T1")])).
Proof.
  apply (results_cache_hit (req_results "T1") "T1"); first [reflexivity | discriminate].
Defined.

Lemma results_pending_miss_witness :
  results_get (req_results "T2") world_up =
  (mkResponse 200 json_headers (dumps (results_view "T2" row_pending)),
   after_read world_up (w_cache world_up) [skip_cache_msg (Some "T2")]).
Proof. apply (results_pending_miss (req_results "T2") "T2"); reflexivity. Defined.

Lemma results_terminal_miss_witness :
  results_get (req_results "T1") world_up =
  (mkResponse 200 json_headers (dumps (results_view "T1" row_done)),
   after_read world_up
     (mkCache (<["T1" := dumps (results_view "T1" row_done)]> (entries (w_cache world_up)))
              false false)
     [save_cache_msg (Some "T1")]).
Proof. apply (results_terminal_miss (req_results "T1") "T1"); reflexivity. Defined.

Lemma results_cache_write_failure_witness :
  results_get (req_results "T1") (world_tasks ∅ false true) =
  (error_response ("Unexpected error at getting results: " ++ exc_str RedisConnectionError),
   after_read (world_tasks ∅ false true) (w_cache (world_tasks ∅ false true)) []).
Proof.
  apply (results_cache_write_failure (req_results "T1") "T1") with (r := row_done); reflexivity.
Defined.

Lemma results_not_found_witness :
  results_get (req_results "T9") world_up =
  (error_response ("Unexpected error at getting results: " ++ exc_str (TaskNotFound "T9")),
   after_read world_up (w_cache world_up) []).
Proof. apply (results_not_found (req_results "T9") "T9"); reflexivity. Defined.

Lemma results_without_task_id_witness :
  results_get (mkRequest [] EmptyString) world_up =
  (error_response ("Unexpected error at getting results: " ++ exc_str RedisDataError), world_up).
Proof. apply results_without_task_id. reflexivity. Defined.
