(* ===== verification/Create.v ===== *)
(** * Task creation: [CreateTaskHandler.post] and [CreateTaskQueueHandler.post]

    The dispatcher of the spec's section 4.1, as [src/server.py] lines
    90-114 write it: the body is decoded first, then a [TaskItem] is made
    and stored as [PENDING], and only then does the [type] argument choose
    between running the task in the request ([process]) and publishing it
    ([queue], the default).  An unknown [type] answers the error envelope
    after the row was stored, and runs nothing.  The answer of a successful
    creation is the task object as it was made, [PENDING], whichever mode
    ran it.  Each theorem gives the response and the whole state after. *)

From S2P Require Import Prelude Json JsonDecode Backend Tornado Handlers Fixtures.
Local Open Scope string_scope.

(** The id [TaskItem()] draws is not in the table. *)
Lemma TaskItem_new_fresh s : rows s !! item_id (TaskItem_new s) = None.
Proof. apply not_elem_of_dom. apply is_fresh. Qed.

(** The store after [TaskCrud.create_task] of a new task. *)
Definition store_created (s : Store) (id : string) (r : TaskRow) : Store :=
  mkStore (<[id := r]> (rows s)) (order s ++ [id]) (reads s) (store_down s).

(** The row the executor leaves for a task that ran [body]. *)
Definition ran_row `{Executor} (body : json) : TaskRow :=
  match run_cases body with
  | inl err => mkRow ERROR (JStr err)
  | inr res => mkRow SUCCESS res
  end.

Definition pending_row : TaskRow := mkRow PENDING JNull.

(** A request through [CreateTaskHandler.post] and [CreateTaskQueueHandler.post]. *)
Definition create_post `{Executor} (req : Request) (w : World) : Response * World :=
  serve set_default_headers (CreateTaskHandler_post req) w.
Definition create_queue_post (req : Request) (w : World) : Response * World :=
  serve set_default_headers (CreateTaskQueueHandler_post req) w.

Section Create.
Context `{Executor} (req : Request) (w : World) (body : json).
Hypothesis Hbody : json_decode (req_body req) = Some body.
Hypothesis Hstore : store_down (w_store w) = false.

Let id := item_id (TaskItem_new (w_store w)).

Lemma create_queue_run :
  get_argument req "type" (Some "queue") = Some "queue" ->
  broker_down (w_broker w) = false ->
  create_post req w =
  (mkResponse 200 json_headers (json_encode (as_json (mkTaskItem id PENDING))),
   mkWorld (store_created (w_store w) id pending_row) (w_cache w)
           (mkBroker (queue (w_broker w) ++ [(id, body)]) false) (w_log w)).
Proof.
  intros Htype Hb. pose proof (TaskItem_new_fresh (w_store w)) as Hf.
  subst id. destruct w as [[rs ord rd sd] c [q bd] lg]; simpl in *; subst sd bd.
  unfold create_post, create_queue_post, CreateTaskHandler_post. rewrite Htype. run_handler.
  rewrite Hbody. cbn -[json_encode]. rewrite Hf. by destruct c.
Qed.

(** C8: in [queue] mode (the default) the task is stored [PENDING] under
    a fresh id, exactly one message [(id, body)] is published, and the
    answer is the [PENDING] task. *)
Theorem create_queue_mode :
  get_argument req "type" (Some "queue") = Some "queue" ->
  broker_down (w_broker w) = false ->
  create_post req w =
  (mkResponse 200 json_headers (json_encode (as_json (mkTaskItem id PENDING))),
   mkWorld (store_created (w_store w) id pending_row) (w_cache w)
           (mkBroker (queue (w_broker w) ++ [(id, body)]) false) (w_log w)).
Proof. apply create_queue_run. Qed.

Lemma create_process_run :
  get_argument req "type" (Some "queue") = Some "process" ->
  create_post req w =
  (mkResponse 200 json_headers (json_encode (as_json (mkTaskItem id PENDING))),
   mkWorld (store_created (w_store w) id (ran_row body)) (w_cache w) (w_broker w) (w_log w)).
Proof.
  intros Htype. pose proof (TaskItem_new_fresh (w_store w)) as Hf.
  subst id. destruct w as [[rs ord rd sd] c b lg]; simpl in *; subst sd.
  unfold create_post, create_queue_post, CreateTaskHandler_post, store_created, ran_row. rewrite Htype. run_handler.
  rewrite Hbody. cbn -[json_encode]. rewrite Hf. rewrite bool_decide_true by done.
  cbn -[json_encode].
  destruct (run_cases body); cbn -[json_encode]; rewrite lookup_insert_eq; cbn -[json_encode];
    rewrite insert_insert_eq; by destruct c, b.
Qed.

(** C9: in [process] mode the task runs in the request: its row goes
    from [PENDING] to the executor's terminal status, nothing is
    published, and the answer is still the task as created, [PENDING]. *)
Theorem create_process_mode :
  get_argument req "type" (Some "queue") = Some "process" ->
  create_post req w =
  (mkResponse 200 json_headers (json_encode (as_json (mkTaskItem id PENDING))),
   mkWorld (store_created (w_store w) id (ran_row body)) (w_cache w) (w_broker w) (w_log w)).
Proof. apply create_process_run. Qed.

Lemma create_unsupported_run t :
  get_argument req "type" (Some "queue") = Some t -> t <> "queue" -> t <> "process" ->
  create_post req w =
  (error_response (unsupported_type_msg (Some t)),
   mkWorld (store_created (w_store w) id pending_row) (w_cache w) (w_broker w) (w_log w)).
Proof.
  intros Htype Hq Hp. pose proof (TaskItem_new_fresh (w_store w)) as Hf.
  subst id. destruct w as [[rs ord rd sd] c b lg]; simpl in *; subst sd.
  unfold create_post, create_queue_post, CreateTaskHandler_post. rewrite Htype. run_handler.
  rewrite Hbody. cbn -[json_encode]. rewrite Hf. cbn -[json_encode].
  rewrite !bool_decide_false by congruence. cbn -[json_encode]. by destruct c, b.
Qed.

(** C10: an unknown [type] answers the error envelope naming the value
    and the two accepted ones; the row was stored before and stays
    [PENDING]; nothing runs and nothing is published. *)
Theorem create_unsupported_mode t :
  get_argument req "type" (Some "queue") = Some t -> t <> "queue" -> t <> "process" ->
  create_post req w =
  (error_response (unsupported_type_msg (Some t)),
   mkWorld (store_created (w_store w) id pending_row) (w_cache w) (w_broker w) (w_log w)).
Proof. apply create_unsupported_run. Qed.

Lemma create_publish_fail_run :
  get_argument req "type" (Some "queue") = Some "queue" -> broker_down (w_broker w) = true ->
  create_post req w =
  (error_response ("Unexpected error at task creating: " ++ exc_str PublishError),
   mkWorld (store_created (w_store w) id pending_row) (w_cache w) (w_broker w) (w_log w)).
Proof.
  intros Htype Hb. pose proof (TaskItem_new_fresh (w_store w)) as Hf.
  subst id. destruct w as [[rs ord rd sd] c [q bd] lg]; simpl in *; subst sd bd.
  unfold create_post, create_queue_post, CreateTaskHandler_post. rewrite Htype. run_handler.
  rewrite Hbody. cbn -[json_encode]. rewrite Hf. by destruct c.
Qed.
End Create.

(** C14: a body that [json.loads] rejects at its first character (an
    empty body, or an ASCII body such as [x=1] that begins no JSON
    value) answers the 500 error envelope with Python's message
    ["Expecting value: line 1 column 1 (char 0)"], before any task is made:
    nothing is stored, run or published, whatever the mode. *)
Theorem create_bad_body `{Executor} req w :
  rejected_at_start (req_body req) = true ->
  create_post req w =
  (error_response ("Unexpected error at task creating: " ++ exc_str JSONDecodeError), w).
Proof.
  intros Hbody%json_decode_rejected_at_start.
  unfold create_post, create_queue_post, CreateTaskHandler_post. run_handler. rewrite Hbody. by destruct w.
Qed.

(** C13: when the broker refuses the message, the client gets the error
    envelope, and the row stored just before stays [PENDING] with no
    message to run it. *)
Theorem create_publish_failure `{Executor} req w body :
  json_decode (req_body req) = Some body ->
  get_argument req "type" (Some "queue") = Some "queue" ->
  store_down (w_store w) = false -> broker_down (w_broker w) = true ->
  let id := item_id (TaskItem_new (w_store w)) in
  create_post req w =
  (error_response ("Unexpected error at task creating: " ++ exc_str PublishError),
   mkWorld (store_created (w_store w) id pending_row) (w_cache w) (w_broker w) (w_log w)).
Proof. intros Hbody Htype Hs Hb. by apply (create_publish_fail_run req w body). Qed.

(** C16: the handler class that is not routed, [CreateTaskQueueHandler],
    behaves exactly as [CreateTaskHandler] in [queue] mode. *)
Theorem create_queue_handler_equiv `{Executor} req w :
  get_argument req "type" (Some "queue") = Some "queue" ->
  create_queue_post req w =
  create_post req w.
Proof. intros Htype. unfold create_post, create_queue_post, CreateTaskHandler_post. by rewrite Htype. Qed.

(** ** Witnesses *)

Definition new_id : string := item_id (TaskItem_new (w_store world_up)).
Definition decoded_x1 : json := JDict [("x", JInt 1)].

Lemma create_queue_mode_witness :
  create_post (req_create "queue") world_up =
  (mkResponse 200 json_headers (json_encode (as_json (mkTaskItem new_id PENDING))),
   mkWorld (store_created (w_store world_up) new_id pending_row) (w_cache world_up)
           (mkBroker (queue (w_broker world_up) ++ [(new_id, decoded_x1)]) false)
           (w_log world_up)).
Proof. apply (create_queue_mode (req_create "queue") world_up decoded_x1); reflexivity. Defined.

Lemma create_process_mode_witness :
  create_post (req_create "process") world_up =
  (mkResponse 200 json_headers (json_encode (as_json (mkTaskItem new_id PENDING))),
   mkWorld (store_created (w_store world_up) new_id (ran_row decoded_x1)) (w_cache world_up)
           (w_broker world_up) (w_log world_up)).
Proof. apply (create_process_mode (req_create "process") world_up decoded_x1); reflexivity. Defined.

Lemma create_unsupported_mode_witness :
  create_post (req_create "thread") world_up =
  (error_response (unsupported_type_msg (Some "thread")),
   mkWorld (store_created (w_store world_up) new_id pending_row) (w_cache world_up)
           (w_broker world_up) (w_log world_up)).
Proof.
  apply (create_unsupported_mode (req_create "thread") world_up decoded_x1);
    first [reflexivity | discriminate].
Defined.

(** A form-encoded body sent to the JSON endpoint. *)
Lemma create_bad_body_witness :
  rejected_at_start (req_body (mkRequest [("type", "process")] "x=1")) = true /\
  create_post (mkRequest [("type", "process")] "x=1") world_up =
  (error_response ("Unexpected error at task creating: " ++ exc_str JSONDecodeError), world_up).
Proof. split; [reflexivity | apply create_bad_body; reflexivity]. Defined.

Definition world_broker_down : World :=
  mkWorld (w_store world_up) (w_cache world_up) (mkBroker [] true) [].

Lemma create_publish_failure_witness :
  create_post (req_create "queue") world_broker_down =
  (error_response ("Unexpected error at task creating: " ++ exc_str PublishError),
   mkWorld (store_created (w_store world_broker_down) new_id pending_row)
           (w_cache world_broker_down) (w_broker world_broker_down) (w_log world_broker_down)).
Proof.
  apply (create_publish_failure (req_create "queue") world_broker_down decoded_x1); reflexivity.
Defined.

Lemma create_queue_handler_equiv_witness :
  create_queue_post (mkRequest [] body_x1) world_up =
  create_post (mkRequest [] body_x1) world_up.
Proof. apply create_queue_handler_equiv. reflexivity. Defined.
