(* ===== verification/Dispatch.v ===== *)
(** * The dispatcher's contract, and [CreateTaskHandler.post] as its refinement

    Section 4.1 of the spec states what the dispatcher promises, over the
    task table and the work queue alone: allocate an identity and persist a
    [PENDING] record first; then run the task in-line ([process]), publish
    it ([queue]), or fail with [UnsupportedModeError] naming the mode; a
    failed publish is a [DispatchFailure] surfaced to the caller; on
    success the answer is the task record as created.  [dispatch_spec] is
    that contract on an abstract state [AState] (rows, creation order,
    queue), with the spec's error taxonomy as a sum type.  The refinement
    theorem shows that the handler of [src/server.py] lines 90-114, run
    through Tornado on the full process state, answers the presentation of
    the contract's outcome and leaves the abstraction of the contract's
    state, touching neither the cache nor the log. *)

From S2P Require Import Prelude Json JsonDecode Backend Tornado Handlers Fixtures Create.
Local Open Scope string_scope.

(** ** The abstract state and the contract *)

Record AState : Type := mkAState {
  a_rows : gmap string TaskRow;
  a_order : list string;
  a_queue : list (string * json)
}.

(** What the contract sees of the process state. *)
Definition abs (w : World) : AState :=
  mkAState (rows (w_store w)) (order (w_store w)) (queue (w_broker w)).

(** The caller-facing errors of the spec's section 7 that the dispatcher raises. *)
Inductive DispatchError : Type :=
| UnsupportedModeError (mode : string)
| DispatchFailure.

Definition a_create (id : string) (a : AState) : AState :=
  mkAState (<[id := pending_row]> (a_rows a)) (a_order a ++ [id]) (a_queue a).

Definition a_run `{Executor} (id : string) (body : json) (a : AState) : AState :=
  mkAState (<[id := ran_row body]> (a_rows a)) (a_order a) (a_queue a).

Definition a_publish (id : string) (body : json) (a : AState) : AState :=
  mkAState (a_rows a) (a_order a) (a_queue a ++ [(id, body)]).

(** Steps 1-5 of the contract, for a fresh [id], a decoded payload and a
    work queue that accepts ([broker_ok]) or refuses the publish. *)
Definition dispatch_spec `{Executor} (broker_ok : bool) (mode id : string) (body : json)
    (a : AState) : (TaskItem + DispatchError) * AState :=
  let a1 := a_create id a in
  if String.eqb mode "process" then (inl (mkTaskItem id PENDING), a_run id body a1)
  else if String.eqb mode "queue" then
    if broker_ok then (inl (mkTaskItem id PENDING), a_publish id body a1)
    else (inr DispatchFailure, a1)
  else (inr (UnsupportedModeError mode), a1).

(** How the handler presents an outcome: the serialized task, or the error
    envelope of [BaseHandler.error]. *)
Definition present (o : TaskItem + DispatchError) : Response :=
  match o with
  | inl t => mkResponse 200 json_headers (json_encode (as_json t))
  | inr (UnsupportedModeError m) => error_response (unsupported_type_msg (Some m))
  | inr DispatchFailure => error_response ("Unexpected error at task creating: " ++ exc_str PublishError)
  end.

(** ** Refinement *)

(** The handler's answer and state, related to an outcome and an abstract state. *)
Definition implements (rw : Response * World) (w : World) (oa : (TaskItem + DispatchError) * AState)
    : Prop :=
  rw.1 = present oa.1 /\ abs rw.2 = oa.2 /\ w_cache rw.2 = w_cache w /\ w_log rw.2 = w_log w.

(** C28: with the database up and a body that decodes, a creation through
    [CreateTaskHandler.post], whatever its [type] argument and whether the
    broker accepts the message, implements the dispatcher's contract:
    its answer presents the contract's outcome, its task table and queue
    are the contract's, and the cache and the log are untouched. *)
Theorem create_refines_dispatch `{Executor} req w body mode :
  json_decode (req_body req) = Some body -> store_down (w_store w) = false ->
  get_argument req "type" (Some "queue") = Some mode ->
  implements (create_post req w) w
    (dispatch_spec (negb (broker_down (w_broker w))) mode (item_id (TaskItem_new (w_store w)))
       body (abs w)).
Proof.
  intros Hbody Hs Htype. unfold dispatch_spec, implements.
  destruct (String.eqb_spec mode "process") as [->|Hp].
  - rewrite (create_process_run req w body) by done. cbn. unfold a_run, a_create. cbn.
    by rewrite insert_insert_eq.
  - destruct (String.eqb_spec mode "queue") as [->|Hq].
    + destruct (broker_down (w_broker w)) eqn:Hb.
      * by rewrite (create_publish_fail_run req w body).
      * by rewrite (create_queue_run req w body).
    + by rewrite (create_unsupported_run req w body Hbody Hs mode).
Qed.

(** ** Witness *)

Lemma create_refines_dispatch_witness :
  json_decode (req_body (req_create "later")) = Some (JDict [("x", JInt 1)]) /\
  store_down (w_store world_up) = false /\
  get_argument (req_create "later") "type" (Some "queue") = Some "later" /\
  implements (create_post (req_create "later") world_up) world_up
    (dispatch_spec (negb (broker_down (w_broker world_up))) "later"
       (item_id (TaskItem_new (w_store world_up))) (JDict [("x", JInt 1)]) (abs world_up)).
Proof.
  split_and!; [reflexivity | reflexivity | reflexivity |].
  apply create_refines_dispatch; reflexivity.
Defined.
