(* ===== verification/App.v ===== *)
(** * The application: routing ([make_app]) and the broker polling

    [make_app] (lines 213-225) maps four paths to handler classes; Tornado
    matches the path of a request against each pattern in order, anchored
    at both ends, answers 404 when none matches, and 405 when the class
    has no method for the request's verb.  [CreateTaskQueueHandler] is
    defined (lines 117-137) but not routed.

    The main block (lines 228-247) starts a [PeriodicCallback] that calls
    [publisher.process_data_events()] with [callback_time=1.000].  Tornado
    reads [callback_time] in milliseconds: after [start()] at time [t0] the
    next run is due at [t0 + callback_time], and after each run
    [_update_next] moves the due time forward by whole periods past the
    current time.  Times are integers in microseconds here. *)

From S2P Require Import Prelude Json JsonDecode Backend Tornado Handlers Fixtures.
Local Open Scope string_scope.

(** ** Routing *)

Inductive HandlerClass : Type :=
| CreateTaskHandler
| CreateTaskQueueHandler
| ListTaskHandler
| ResultsHandler
| HealthCheckHandler.

Definition make_app : list (string * HandlerClass) :=
  [("/api/tasks/create", CreateTaskHandler);
   ("/api/tasks/list", ListTaskHandler);
   ("/api/results", ResultsHandler);
   ("/api/health", HealthCheckHandler)].

Fixpoint find_handler (path : string) (rules : list (string * HandlerClass))
    : option HandlerClass :=
  match rules with
  | [] => None
  | (pat, hc) :: rules' => if String.eqb pat path then Some hc else find_handler path rules'
  end.

(** The methods each class defines. *)
Definition handler_method `{Executor} (hc : HandlerClass) (verb : string)
    : option (Request -> Handler) :=
  match hc with
  | CreateTaskHandler => if String.eqb verb "POST" then Some CreateTaskHandler_post else None
  | CreateTaskQueueHandler =>
      if String.eqb verb "POST" then Some CreateTaskQueueHandler_post else None
  | ListTaskHandler => if String.eqb verb "GET" then Some ListTaskHandler_get else None
  | ResultsHandler => if String.eqb verb "GET" then Some ResultsHandler_get else None
  | HealthCheckHandler => if String.eqb verb "GET" then Some HealthCheckHandler_get else None
  end.

Definition status_page (code : Z) (reason : string) : string :=
  "<html><title>" ++ str_Z code ++ ": " ++ reason ++ "</title><body>" ++ str_Z code
  ++ ": " ++ reason ++ "</body></html>".

(** One request through the application. *)
Definition app_serve `{Executor} (verb path : string) (req : Request) (w : World)
    : Response * World :=
  match find_handler path make_app with
  | None => (mkResponse 404 tornado_headers (status_page 404 "Not Found"), w)
  | Some hc =>
      match handler_method hc verb with
      | None => (mkResponse 405 json_headers (status_page 405 "Method Not Allowed"), w)
      | Some m => serve set_default_headers (m req) w
      end
  end.

(** ** [PeriodicCallback] *)

(** [callback_time=1.000] milliseconds, in microseconds. *)
Definition polling_callback_time : Z := 1000.

(** [_update_next]: the next due time after a run that ended at [now]. *)
Definition update_next (period next now : Z) : Z :=
  if (next <=? now)%Z then (next + ((now - next) / period + 1) * period)%Z
  else (next + period)%Z.

(** The due times of the first [n] runs after [start()] at [t0], each run
    returning at once. *)
Fixpoint poll_times (n : nat) (period next : Z) : list Z :=
  match n with
  | O => []
  | S n' => next :: poll_times n' period (update_next period next next)
  end.

Definition polling_schedule (n : nat) (t0 : Z) : list Z :=
  poll_times n polling_callback_time (update_next polling_callback_time t0 t0).

(** ** The main block *)

Definition started_msg : string :=
  "Server successfully started. Wait for incoming connections.".

(** What the process runs: the routes, the port, the polling period. *)
Record Server : Type := mkServer {
  srv_routes : list (string * HandlerClass);
  srv_port : Z;
  srv_poll_period : Z
}.

(** [if __name__ == "__main__"]: [parse_command_line()] reads the options
    (no state here); [Base.metadata.create_all(Engine)] connects to the
    database, creating the missing tables and keeping existing rows, and
    raises when the database is down, before anything listens; then
    [make_app()], [listen(port=8888)], the [PeriodicCallback] started with
    [callback_time=1.000], and the log line.  [IOLoop.current().start()]
    then serves requests, the steps of System.v. *)
Definition main : PyM World PyExc Server :=
  on_store store_guard ;;
  let app := make_app in
  log_info started_msg ;;
  ret (mkServer app 8888 polling_callback_time).

(** ** Properties of the polling schedule *)

Lemma update_next_on_time period next :
  (0 < period)%Z -> update_next period next next = (next + period)%Z.
Proof.
  intros Hp. unfold update_next. rewrite Z.leb_refl, Z.sub_diag, Z.div_0_l by lia. lia.
Qed.

Lemma poll_times_spec n period next :
  (0 < period)%Z ->
  poll_times n period next = map (fun i => (next + Z.of_nat i * period)%Z) (seq 0 n).
Proof.
  intros Hp. revert next. induction n as [|n IH]; intros next; [done|].
  simpl. rewrite update_next_on_time, IH by done. f_equal; [lia|].
  rewrite <- seq_shift, map_map. apply map_ext. intros i. lia.
Qed.

Lemma filter_map_comm {A B} (f : B -> bool) (g : A -> B) (l : list A) :
  List.filter f (map g l) = map g (List.filter (fun x => f (g x)) l).
Proof. induction l as [|x l IH]; simpl; [done|]. destruct (f (g x)); simpl; by rewrite IH. Qed.

Lemma filter_seq_lt n k : List.filter (fun i => Nat.ltb i k) (seq 0 n) = seq 0 (Nat.min n k).
Proof.
  induction n as [|n IH]; [done|].
  rewrite seq_S, List.filter_app, IH, Nat.add_0_l. cbn [List.filter].
  destruct (Nat.ltb_spec n k).
  - rewrite !Nat.min_l by lia. by rewrite (seq_S n 0), Nat.add_0_l.
  - rewrite !Nat.min_r by lia. apply app_nil_r.
Qed.

(** C17: the broker is polled every millisecond, not every second: the
    [i]-th poll after [start()] at [t0] is due at [t0 + (i+1)] ms, so a
    thousand polls fall in the first second. *)
Theorem polling_every_millisecond n t0 i :
  (i < n)%nat ->
  nth_error (polling_schedule n t0) i = Some (t0 + (Z.of_nat i + 1) * 1000)%Z /\
  List.length (List.filter (fun t => (t <=? t0 + 1000000)%Z) (polling_schedule n t0))
  = Nat.min n 1000.
Proof.
  intros Hi. unfold polling_schedule, polling_callback_time.
  rewrite update_next_on_time, poll_times_spec by lia. split.
  - rewrite nth_error_map, nth_error_seq. destruct (Nat.ltb_spec i n); [|lia]. simpl. f_equal. lia.
  - rewrite filter_map_comm, length_map.
    rewrite (List.filter_ext _ (fun j => Nat.ltb j 1000)), filter_seq_lt.
    + apply length_seq.
    + intros j. destruct (Nat.ltb_spec j 1000), (Z.leb_spec (t0 + 1000 + Z.of_nat j * 1000)
        (t0 + 1000000)); lia.
Qed.

(** ** Witnesses *)

Lemma polling_every_millisecond_witness :
  nth_error (polling_schedule 2000 0) 5 = Some (0 + (Z.of_nat 5 + 1) * 1000)%Z /\
  List.length (List.filter (fun t => (t <=? 0 + 1000000)%Z) (polling_schedule 2000 0))
  = Nat.min 2000 1000.
Proof. apply polling_every_millisecond. lia. Defined.
