(* ===== verification/AccessLog.v ===== *)
(** * The access log: [tornado.log.access_log.setLevel(DEBUG)]

    Line 29 of [src/server.py] sets the level of Tornado's access logger to
    [DEBUG].  After every request Tornado calls [Application.log_request],
    which picks the logger method by the response status ([info] below 400,
    [warning] below 500, [error] otherwise) and logs
    ["%d %s %.2fms" % (status, request_summary, request_time)], the summary
    being ["%s %s (%s)" % (method, uri, remote_ip)].  Python's
    [Logger.isEnabledFor(level)] lets a record through when its level is at
    least the logger's.  This file models the record as a structure (the
    remote address and the time are inputs of the connection, not of the
    handlers) and the logger level as the one line 29 sets.  With [DEBUG]
    every request, successful ones included, leaves exactly one record; at
    Python's default effective level [WARNING] the successful ones would
    leave none.  The handlers of Handlers.v do not see this logger. *)

From S2P Require Import Prelude Json JsonDecode Backend Tornado Handlers Fixtures App.
Local Open Scope Z_scope.
Local Open Scope string_scope.

(** The numeric levels of Python's [logging] module. *)
Definition DEBUG : Z := 10.
Definition INFO : Z := 20.
Definition WARNING : Z := 30.
Definition ERROR : Z := 40.

(** [tornado.log.access_log.setLevel(DEBUG)] *)
Definition access_log_level : Z := DEBUG.

(** [Logger.isEnabledFor(level)] of a logger whose effective level is [logger_level]. *)
Definition is_enabled_for (logger_level level : Z) : bool := Z.leb logger_level level.

(** The method [Application.log_request] picks by status. *)
Definition log_request_level (status : Z) : Z :=
  if Z.ltb status 400 then INFO else if Z.ltb status 500 then WARNING else ERROR.

Record AccessRecord : Type := mkAccessRecord {
  acc_level : Z;
  acc_status : Z;
  acc_method : string;
  acc_uri : string;
  acc_remote_ip : string;
  acc_request_time : Z   (** milliseconds, as [request_time()] measures *)
}.

(** [Application.log_request(handler)] on a logger of level [logger_level]. *)
Definition log_request (logger_level : Z) (verb path ip : string) (ms : Z) (resp : Response)
    : list AccessRecord :=
  let lvl := log_request_level (resp_status resp) in
  if is_enabled_for logger_level lvl
  then [mkAccessRecord lvl (resp_status resp) verb path ip ms] else [].

(** A request served by the application, then logged on [on_finish]. *)
Definition serve_logged `{Executor} (logger_level : Z) (verb path ip : string) (ms : Z)
    (req : Request) (w : World) (log : list AccessRecord) : Response * World * list AccessRecord :=
  let '(resp, w') := app_serve verb path req w in
  (resp, w', (log ++ log_request logger_level verb path ip ms resp)%list).

(** With the access logger at the level line 29 sets, every request,
    whatever its route, verb and outcome, leaves exactly one access record,
    at [INFO] below status 400, [WARNING] below 500 and [ERROR] otherwise,
    and the request is served exactly as without logging. *)
Theorem access_log_every_request `{Executor} verb path ip ms req w log :
  let '(resp, w') := app_serve verb path req w in
  serve_logged access_log_level verb path ip ms req w log =
  (resp, w', (log ++ [mkAccessRecord (log_request_level (resp_status resp)) (resp_status resp)
                                     verb path ip ms])%list).
Proof.
  unfold serve_logged. destruct (app_serve verb path req w) as [resp w'].
  unfold log_request, is_enabled_for, log_request_level, access_log_level, DEBUG, INFO, WARNING, ERROR.
  by repeat case_match.
Qed.

(** At Python's default effective level [WARNING], the successful
    requests would leave no record: line 29 is what logs them. *)
Lemma default_level_drops_success verb path ip ms resp :
  resp_status resp = 200 -> log_request WARNING verb path ip ms resp = [].
Proof. intros Hs. unfold log_request. by rewrite Hs. Qed.
