(* ===== verification/System.v ===== *)
(** * The whole system: requests, the queue consumer, outages, restarts

    The server's state evolves by four kinds of steps ([sys_step]): a
    request through the application ([app_serve]), a run of the queue
    consumer ([consume_one], the worker of the spec's section 4.3 that the
    sources do not contain), a change of which services are down, and a
    start of the process ([main], the block [__main__] of [server.py]),
    which may happen again on the persisted state.
    Three invariants hold of every reachable state:
    - the task lifecycle: a row, once stored, stays, and it changes only
      while it is [PENDING] ([store_mono] between any two states);
    - cache coherence: every cached value is the [dumps] of the store's
      current view of a task whose status is terminal ([coherent]);
    - every queued message names a stored task ([queued_ok]).
    They are one relation, [world_ok], proved compositionally: [bind] and
    [try_except] preserve it and every operation but the cache write and
    the publish keeps it (the [_mono] lemmas, in the hint database
    [preserves]).  The cache write and the publish keep it only where an
    earlier call established a fact: the row read before the write, the row
    created before the publish.  Those two handlers, [ResultsHandler.get]
    and the creation handlers, are proved with the Hoare triples of
    Prelude.v, whose postconditions carry the fact to the call. *)

From S2P Require Import Prelude Json JsonDecode Backend Tornado Handlers App.
Local Open Scope string_scope.

(** ** The queue consumer and the environment *)

Section Consumer.
Context `{Executor}.

(** The consumer takes the oldest message and runs its task; the message
    leaves the queue only when the run reached the store. *)
Definition consume_one : PyM World PyExc unit :=
  fun w =>
    match queue (w_broker w) with
    | [] => (Ok tt, w)
    | (id, cases) :: rest =>
        match run_task (mkTaskItem id PENDING) cases (w_store w) with
        | (Ok _, s') =>
            (Ok tt, mkWorld s' (w_cache w) (mkBroker rest (broker_down (w_broker w)))
                            (w_log w))
        | (Raise e, s') => (Raise e, mkWorld s' (w_cache w) (w_broker w) (w_log w))
        end
    end.
End Consumer.

Record Outage : Type := mkOutage {
  o_store : bool; o_cache_get : bool; o_cache_set : bool; o_broker : bool
}.

Definition set_outage (o : Outage) (w : World) : World :=
  let s := w_store w in
  let c := w_cache w in
  mkWorld (mkStore (rows s) (order s) (reads s) (o_store o))
          (mkCache (entries c) (o_cache_get o) (o_cache_set o))
          (mkBroker (queue (w_broker w)) (o_broker o)) (w_log w).

Definition init_world : World :=
  mkWorld (mkStore ∅ [] 0 false) (mkCache ∅ false false) (mkBroker [] false) [].

Section Steps.
Context `{Executor}.

Inductive sys_step : World -> World -> Prop :=
| step_request verb path req w :
    sys_step w (snd (app_serve verb path req w))
| step_consume w :
    sys_step w (exec consume_one w)
| step_outage o w :
    sys_step w (set_outage o w)
| step_start w :
    sys_step w (exec main w).

Inductive reachable : World -> Prop :=
| reach_init : reachable init_world
| reach_step w w' : reachable w -> sys_step w w' -> reachable w'.
End Steps.

(** ** The two invariants *)

(** A row may change only while it is pending. *)
Definition row_le (r r' : TaskRow) : Prop := r' = r \/ row_status r = PENDING.

Definition store_mono (s s' : Store) : Prop :=
  forall k r, rows s !! k = Some r -> exists r', rows s' !! k = Some r' /\ row_le r r'.

Definition coherent (w : World) : Prop :=
  forall k v, entries (w_cache w) !! k = Some v ->
  exists r, rows (w_store w) !! k = Some r /\ is_terminal (row_status r) = true /\
            v = dumps (results_view k r).

(** A message that enters the queue names a task the store holds. *)
Definition queue_ok (w w' : World) : Prop :=
  forall m, m ∈ queue (w_broker w') ->
  m ∈ queue (w_broker w) \/ is_Some (rows (w_store w') !! m.1).

(** The creation order lists each stored task once. *)
Definition store_wf (s : Store) : Prop :=
  NoDup (order s) /\ forall id, id ∈ order s <-> is_Some (rows s !! id).

(** What a call of [TaskCrud] may do to the table. *)
Definition store_ok (s s' : Store) : Prop :=
  store_mono s s' /\ (store_wf s -> store_wf s').

Definition world_ok (w w' : World) : Prop :=
  store_mono (w_store w) (w_store w') /\ (coherent w -> coherent w') /\ queue_ok w w' /\
  (store_wf (w_store w) -> store_wf (w_store w')).

Lemma store_mono_refl s : store_mono s s.
Proof. intros k r Hr. exists r. split; [done | by left]. Qed.

Lemma store_mono_trans s1 s2 s3 :
  store_mono s1 s2 -> store_mono s2 s3 -> store_mono s1 s3.
Proof.
  intros H12 H23 k r Hr.
  destruct (H12 k r Hr) as (r2 & Hr2 & [-> | Hp]); [by apply H23|].
  destruct (H23 k r2 Hr2) as (r3 & Hr3 & _). exists r3. split; [done | by right].
Qed.

Lemma store_mono_is_Some s s' k :
  store_mono s s' -> is_Some (rows s !! k) -> is_Some (rows s' !! k).
Proof. intros Hm [r Hr]. destruct (Hm k r Hr) as (r' & Hr' & _). by exists r'. Qed.

(** A terminal row stays as it is under [store_mono]. *)
Lemma store_mono_terminal s s' k r :
  store_mono s s' -> rows s !! k = Some r -> is_terminal (row_status r) = true ->
  rows s' !! k = Some r.
Proof. intros Hm Hr Ht. destruct (Hm k r Hr) as (r' & Hr' & [-> | Hp]); [done | by rewrite Hp in Ht]. Qed.

Lemma world_ok_refl w : world_ok w w.
Proof. split_and!; [apply store_mono_refl | done | by left | done]. Qed.

Lemma world_ok_trans w1 w2 w3 : world_ok w1 w2 -> world_ok w2 w3 -> world_ok w1 w3.
Proof.
  intros (H12 & C12 & Q12 & W12) (H23 & C23 & Q23 & W23).
  split_and!; [by eapply store_mono_trans | tauto | | tauto].
  intros m Hm. destruct (Q23 m Hm) as [Hm2|]; [|by right].
  destruct (Q12 m Hm2) as [|Hs]; [by left | right; by eapply store_mono_is_Some].
Qed.

(** A cached terminal row is one that [store_mono] keeps as it is. *)
Lemma coherent_frame w w' :
  store_mono (w_store w) (w_store w') -> entries (w_cache w') = entries (w_cache w) ->
  coherent w -> coherent w'.
Proof.
  intros Hm He Hc k v Hv. rewrite He in Hv.
  destruct (Hc k v Hv) as (r & Hr & Ht & ->).
  destruct (Hm k r Hr) as (r' & Hr' & [-> | Hp]).
  - by exists r.
  - by rewrite Hp in Ht.
Qed.

(** A world change that keeps the cache and is monotone on the store. *)
Lemma world_ok_store w w' :
  store_ok (w_store w) (w_store w') -> entries (w_cache w') = entries (w_cache w) ->
  queue (w_broker w') = queue (w_broker w) -> world_ok w w'.
Proof.
  intros [Hm Hw] He Hq.
  split_and!; [done | by apply coherent_frame | intros m; rewrite Hq; by left | done].
Qed.

Definition ctx_ok (c c' : Ctx) : Prop := world_ok (c_world c) (c_world c').

#[export] Instance store_mono_preorder : PreOrder store_mono.
Proof. split; [intros ?; apply store_mono_refl | intros ???; apply store_mono_trans]. Qed.

#[export] Instance store_ok_preorder : PreOrder store_ok.
Proof.
  split; [intros ?; split; [apply store_mono_refl | done]|].
  intros ??? [H12 W12] [H23 W23]. split; [by eapply store_mono_trans | tauto].
Qed.

#[export] Instance world_ok_preorder : PreOrder world_ok.
Proof. split; [intros ?; apply world_ok_refl | intros ???; apply world_ok_trans]. Qed.

#[export] Instance ctx_ok_preorder : PreOrder ctx_ok.
Proof.
  split; [intros ?; apply world_ok_refl | intros ??? H1 H2; by eapply world_ok_trans].
Qed.

Lemma not_terminal_pending st : is_terminal st = false -> st = PENDING.
Proof. by destruct st. Qed.

(** Writing a row over a pending one, or where there was none. *)
Lemma store_mono_insert s id r' o n b :
  (forall r0, rows s !! id = Some r0 -> row_status r0 = PENDING) ->
  store_mono s (mkStore (<[id := r']> (rows s)) o n b).
Proof.
  intros Hp k r Hr. simpl. destruct (decide (k = id)) as [->|Hne].
  - exists r'. rewrite lookup_insert_eq. split; [done | right; by apply Hp].
  - exists r. rewrite lookup_insert_ne by done. split; [done | by left].
Qed.

Lemma store_mono_same_rows s o n b : store_mono s (mkStore (rows s) o n b).
Proof. intros k r Hr. exists r. split; [done | by left]. Qed.

Lemma store_ok_same s n b : store_ok s (mkStore (rows s) (order s) n b).
Proof. split; [apply store_mono_same_rows | done]. Qed.

(** A write over a pending row that the table holds. *)
Lemma store_ok_update s id r0 r' n b :
  rows s !! id = Some r0 -> row_status r0 = PENDING ->
  store_ok s (mkStore (<[id := r']> (rows s)) (order s) n b).
Proof.
  intros Hr Hp. split; [apply store_mono_insert; rewrite Hr; by intros ? [= <-]|].
  intros [Hnd Hin]. unfold store_wf. cbn [order rows]. split; [done|]. intros k. rewrite Hin.
  destruct (decide (k = id)) as [->|Hne]; [rewrite lookup_insert_eq, Hr; by split | by rewrite lookup_insert_ne].
Qed.

(** A new row, appended to the creation order. *)
Lemma store_ok_create s id r n b :
  rows s !! id = None ->
  store_ok s (mkStore (<[id := r]> (rows s)) (order s ++ [id]) n b).
Proof.
  intros Hr. split; [apply store_mono_insert; by rewrite Hr|].
  intros [Hnd Hin]. unfold store_wf. cbn [order rows]. split.
  - apply NoDup_app. split_and!; [done | | apply NoDup_singleton].
    intros x Hx ->%list_elem_of_singleton. apply Hin in Hx. rewrite Hr in Hx. by destruct Hx.
  - intros k. rewrite elem_of_app, list_elem_of_singleton, Hin.
    destruct (decide (k = id)) as [->|Hne]; [rewrite lookup_insert_eq; split; [by eexists | by right]|].
    rewrite lookup_insert_ne by done. split; [by intros [? | ?] | by left].
Qed.

(** ** Every operation but the cache write keeps [world_ok] *)

Lemma store_guard_mono : preserves store_ok store_guard.
Proof. apply preserves_readonly; try exact _. intros s. unfold exec, store_guard. by case_match. Qed.

Lemma find_row_mono id : preserves store_ok (find_row id).
Proof. apply preserves_readonly; try exact _. intros s. unfold exec, find_row. by case_match. Qed.

Lemma count_read_mono : preserves store_ok count_read.
Proof. apply preserves_modify. intros s. apply store_ok_same. Qed.

#[export] Hint Resolve store_guard_mono find_row_mono count_read_mono : preserves.

Lemma create_task_mono t : preserves store_ok (create_task t).
Proof.
  unfold create_task. apply preserves_bind; [apply _ | apply store_guard_mono |].
  intros _ s. unfold exec. destruct (rows s !! item_id t) eqn:E; simpl; [reflexivity|].
  by apply store_ok_create.
Qed.

Lemma update_status_mono id st res : preserves store_ok (update_status id st res).
Proof.
  intros s. unfold exec, update_status, bind, store_guard, find_row.
  destruct (store_down s); simpl; [reflexivity|].
  destruct (rows s !! id) as [r0|] eqn:E; simpl; [|reflexivity].
  destruct (is_terminal (row_status r0)) eqn:T; simpl; [reflexivity|].
  eapply store_ok_update; [exact E | by apply not_terminal_pending].
Qed.

Lemma run_task_mono `{Executor} t body : preserves store_ok (run_task t body).
Proof. unfold run_task. case_match; apply update_status_mono. Qed.

Lemma get_task_mono id : preserves store_ok (get_task id).
Proof. unfold get_task. solve_preserves. Qed.

Lemma get_tasks_mono lim : preserves store_ok (get_tasks lim).
Proof.
  unfold get_tasks. apply preserves_bind; [apply _ | apply store_guard_mono |].
  intros _. apply preserves_readonly; try exact _. done.
Qed.

Lemma get_results_mono id : preserves store_ok (get_results id).
Proof. unfold get_results. solve_preserves. Qed.

#[export] Hint Resolve create_task_mono update_status_mono run_task_mono get_task_mono
  get_tasks_mono get_results_mono : preserves.

Lemma on_store_mono {A} (m : PyM Store PyExc A) :
  preserves store_ok m -> preserves world_ok (on_store m).
Proof. apply preserves_zoom. intros w s Hs. by apply world_ok_store. Qed.

(** Publishing a task whose row the store holds. *)
Lemma world_ok_publish w t body :
  is_Some (rows (w_store w) !! item_id t) -> world_ok w (exec (on_broker (publish_task t body)) w).
Proof.
  intros Hs. destruct w as [s c [q bd] lg]. cbv [exec on_broker zoom publish_task]. simpl.
  destruct bd; [apply world_ok_refl|]. split_and!; [apply store_mono_refl | done | | done].
  intros m. simpl. rewrite elem_of_app, list_elem_of_singleton. intros [? | ->]; [by left | by right].
Qed.

Lemma redis_get_mono key : preserves world_ok (on_cache (redis_get key)).
Proof.
  apply preserves_readonly; try exact _. intros [s c b l]. unfold exec, on_cache, zoom, redis_get.
  simpl. destruct key; [destruct (get_down c)|]; reflexivity.
Qed.

Lemma log_info_mono msg : preserves world_ok (log_info msg).
Proof. apply preserves_modify. intros w. by apply world_ok_store. Qed.

Lemma on_world_mono {A} (m : PyM World PyExc A) :
  preserves world_ok m -> preserves ctx_ok (on_world m).
Proof. apply preserves_zoom. intros c w Hw. exact Hw. Qed.

#[export] Hint Resolve on_store_mono redis_get_mono log_info_mono
  on_world_mono : preserves.

(** The handler object's own fields do not touch the process state. *)
Lemma ctx_modify_mono (f : Ctx -> Ctx) :
  (forall c, c_world (f c) = c_world c) -> preserves ctx_ok (modify_st (E:=PyExc) f).
Proof. intros Hf. apply preserves_modify. intros c. unfold ctx_ok. rewrite Hf. reflexivity. Qed.

Lemma set_header_mono k v : preserves ctx_ok (set_header k v).
Proof. by apply ctx_modify_mono. Qed.
Lemma set_status_mono code : preserves ctx_ok (set_status code).
Proof. by apply ctx_modify_mono. Qed.
Lemma append_chunk_mono s : preserves ctx_ok (append_chunk s).
Proof. by apply ctx_modify_mono. Qed.
#[export] Hint Resolve set_header_mono set_status_mono append_chunk_mono : preserves.

Lemma write_mono chunk : preserves ctx_ok (write chunk).
Proof. unfold write. solve_preserves. Qed.
Lemma error_mono msg : preserves ctx_ok (error msg).
Proof. unfold error. solve_preserves; apply write_mono. Qed.
Lemma decode_body_mono body : preserves ctx_ok (decode_body body).
Proof. unfold decode_body. solve_preserves. Qed.
Lemma int_arg_mono s : preserves ctx_ok (int_arg s).
Proof. apply preserves_readonly; try exact _. done. Qed.
Lemma py_get_mono k d v : preserves ctx_ok (py_get k d v).
Proof. unfold py_get. solve_preserves. Qed.
#[export] Hint Resolve write_mono error_mono decode_body_mono int_arg_mono py_get_mono
  : preserves.

(** ** The handlers *)

Lemma list_task_handler_mono req : preserves ctx_ok (ListTaskHandler_get req).
Proof. unfold ListTaskHandler_get. solve_preserves. Qed.

Lemma health_check_handler_mono req : preserves ctx_ok (HealthCheckHandler_get req).
Proof. unfold HealthCheckHandler_get. solve_preserves. Qed.

(** The cache write of [ResultsHandler.get]: the text of a terminal row's
    view, under that row's id, over a store whose rows did not change. *)
Lemma world_ok_cache_insert w w' k r :
  w_store w' = w_store w -> rows (w_store w) !! k = Some r ->
  is_terminal (row_status r) = true ->
  entries (w_cache w') = <[k := dumps (results_view k r)]> (entries (w_cache w)) ->
  queue (w_broker w') = queue (w_broker w) -> world_ok w w'.
Proof.
  intros Hs Hr Ht He Hq. split_and!; [| |intros m; rewrite Hq; by left | by rewrite Hs].
  - rewrite Hs. apply store_mono_refl.
  - intros Hc k' v Hv. rewrite He in Hv. rewrite Hs.
    destruct (decide (k' = k)) as [->|Hne].
    + rewrite lookup_insert_eq in Hv. injection Hv as <-. by exists r.
    + rewrite lookup_insert_ne in Hv by done. by apply Hc.
Qed.

(** What the store read of [ResultsHandler.get] returns: the view of a row
    that the store holds. *)
Lemma get_results_spec c0 id :
  hoare (ctx_ok c0) (on_world (on_store (get_results id)))
    (fun v c => exists k r, id = Some k /\ v = results_view k r /\
                rows (w_store (c_world c)) !! k = Some r /\ ctx_ok c0 c)
    (fun _ c => ctx_ok c0 c).
Proof.
  intros [[[rs ord rd sd] cache b lg] st hs buf] Hc.
  assert (Hr : forall rd', ctx_ok c0 (mkCtx (mkWorld (mkStore rs ord rd' sd) cache b lg) st hs buf)).
  { intros rd'. etrans; [exact Hc|]. apply world_ok_store; [apply store_ok_same | done..]. }
  cbv [on_world on_store zoom get_results bind store_guard count_read modify_st find_row ret raise].
  simpl. destruct sd; [exact Hc|]. destruct id as [k|]; [|apply Hr].
  simpl. destruct (rs !! k) as [r|] eqn:E; [|apply Hr]. by exists k, r.
Qed.

(** The cache write of [ResultsHandler.get]: the view of a terminal row,
    under its id. *)
Lemma cache_write_spec c0 k r :
  is_terminal (row_status r) = true ->
  hoare (fun c => rows (w_store (c_world c)) !! k = Some r /\ ctx_ok c0 c)
    (on_world (on_cache (redis_set (Some k) (dumps (results_view k r)))))
    (fun _ c => ctx_ok c0 c) (fun _ c => ctx_ok c0 c).
Proof.
  intros Ht [[s [ent gd sdn] b lg] st hs buf] [Hr Hc].
  cbv [on_world on_cache zoom redis_set]. simpl. destruct sdn; [exact Hc|].
  etrans; [exact Hc|]. by eapply world_ok_cache_insert.
Qed.

(** A triple from a [preserves] fact on handler objects. *)
Ltac hoare_by_preserves :=
  eapply hoare_consequence;
  [apply (hoare_preserves ctx_ok); solve_preserves
  | cbn beta; intros ? Hpre; first [apply Hpre | apply (proj2 Hpre)] | done | done].

Lemma results_handler_mono req : preserves ctx_ok (ResultsHandler_get req).
Proof.
  apply preserves_hoare. intros c0. unfold ResultsHandler_get.
  apply hoare_try with (QE' := fun _ => ctx_ok c0); [|intros e; hoare_by_preserves].
  eapply hoare_consequence with (P := ctx_ok c0) (Q := fun _ => ctx_ok c0)
    (QE := fun _ => ctx_ok c0); [| by intros ? -> | done | done].
  eapply hoare_bind; [hoare_by_preserves|]. intros v.
  destruct (py_truthy v); [hoare_by_preserves|].
  eapply hoare_bind; [apply get_results_spec|]. intros v'.
  apply hoare_exists_pre. intros k. apply hoare_exists_pre. intros [st res].
  apply hoare_pure_pre. intros Hk. rewrite Hk. apply hoare_pure_pre. intros ->.
  cbv [py_get results_view row_json as_json dict_get item_id item_status row_status
       String.eqb Ascii.eqb Bool.eqb andb].
  apply hoare_bind_ret, hoare_bind_ret.
  destruct st; cbv [py_eq_str status_value String.eqb Ascii.eqb Bool.eqb andb];
    [hoare_by_preserves| |]; (eapply hoare_bind; [by apply cache_write_spec|]);
    intros ?; hoare_by_preserves.
Qed.

(** The store write of the creation handlers: once it returns, the store
    holds the task. *)
Lemma create_task_spec c0 t :
  hoare (ctx_ok c0) (on_world (on_store (create_task t)))
    (fun _ c => is_Some (rows (w_store (c_world c)) !! item_id t) /\ ctx_ok c0 c)
    (fun _ c => ctx_ok c0 c).
Proof.
  intros [[[rs ord rd sd] cache b lg] st hs buf] Hc.
  cbv [on_world on_store zoom create_task bind store_guard]. simpl. destruct sd; [exact Hc|].
  simpl. destruct (rs !! item_id t) eqn:E; simpl; [exact Hc|].
  split; [rewrite lookup_insert_eq; by eexists|]. etrans; [exact Hc|].
  apply world_ok_store; [apply store_ok_create; simpl; by rewrite E | done..].
Qed.

Lemma publish_spec c0 t body :
  hoare (fun c => is_Some (rows (w_store (c_world c)) !! item_id t) /\ ctx_ok c0 c)
    (on_world (on_broker (publish_task t body)))
    (fun _ c => ctx_ok c0 c) (fun _ c => ctx_ok c0 c).
Proof.
  intros c [Hs Hc]. pose proof (world_ok_publish (c_world c) t body Hs) as Hw.
  unfold exec in Hw. unfold on_world, zoom at 1.
  destruct (on_broker (publish_task t body) (c_world c)) as [[] w']; simpl in *; by etrans.
Qed.

(** Run a call that keeps [ctx_ok], then go on. *)
Ltac hoare_seq := eapply hoare_bind; [hoare_by_preserves|]; intros ?.

(** The creation handlers, from a starting handler object [c0]. *)
Ltac create_handler_mono c0 :=
  eapply hoare_consequence with (P := ctx_ok c0) (Q := fun _ => ctx_ok c0)
    (QE := fun _ => ctx_ok c0); [| by intros ? -> | done | done];
  eapply hoare_bind with (Q' := fun _ => ctx_ok c0); [|intros ?; hoare_by_preserves];
  apply hoare_try with (QE' := fun _ => ctx_ok c0); [|intros ?; hoare_by_preserves];
  hoare_seq; hoare_seq; eapply hoare_bind; [apply create_task_spec|]; intros ?.

Lemma create_task_handler_mono `{Executor} req : preserves ctx_ok (CreateTaskHandler_post req).
Proof.
  apply preserves_hoare. intros c0. unfold CreateTaskHandler_post. create_handler_mono c0.
  destruct (bool_decide _); [hoare_seq; hoare_by_preserves|].
  destruct (bool_decide _); [|hoare_by_preserves].
  eapply hoare_bind; [apply publish_spec|]. intros ?. hoare_by_preserves.
Qed.

Lemma create_task_queue_handler_mono req : preserves ctx_ok (CreateTaskQueueHandler_post req).
Proof.
  apply preserves_hoare. intros c0. unfold CreateTaskQueueHandler_post. create_handler_mono c0.
  eapply hoare_bind; [apply publish_spec|]. intros ?. hoare_by_preserves.
Qed.

#[export] Hint Resolve create_task_handler_mono create_task_queue_handler_mono
  list_task_handler_mono health_check_handler_mono results_handler_mono : preserves.

(** ** Every step of the system keeps [world_ok] *)

Lemma serve_mono (m : Handler) w :
  preserves ctx_ok m -> world_ok w (snd (serve set_default_headers m w)).
Proof.
  intros Hm. specialize (Hm (cleared set_default_headers w [])). unfold exec in Hm.
  unfold serve. destruct (m (cleared set_default_headers w [])) as [[] c]; exact Hm.
Qed.

Lemma handler_method_mono `{Executor} hc verb m :
  handler_method hc verb = Some m -> forall req, preserves ctx_ok (m req).
Proof.
  destruct hc; simpl; case_match; intros [= <-] req; eauto with preserves.
Qed.

Lemma app_serve_mono `{Executor} verb path req w :
  world_ok w (snd (app_serve verb path req w)).
Proof.
  unfold app_serve. destruct (find_handler path make_app) as [hc|]; [|reflexivity].
  destruct (handler_method hc verb) eqn:Hm; [|reflexivity].
  apply serve_mono. by eapply handler_method_mono.
Qed.

Lemma consume_one_mono `{Executor} : preserves world_ok consume_one.
Proof.
  intros w. unfold exec, consume_one.
  destruct (queue (w_broker w)) as [|[id cases] rest] eqn:Hq; [reflexivity|].
  pose proof (run_task_mono (mkTaskItem id PENDING) cases (w_store w)) as Hs.
  unfold exec in Hs. destruct (run_task _ _ _) as [[] s']; [|by apply world_ok_store].
  destruct Hs as [Hm Hw]. split_and!; [done | by apply coherent_frame | | done].
  intros m Hm'. left. rewrite Hq, elem_of_cons. by right.
Qed.

Lemma set_outage_mono o w : world_ok w (set_outage o w).
Proof. apply world_ok_store; [apply store_ok_same | done..]. Qed.

(** A start of the process keeps the store, the cache and the queue. *)
Lemma main_mono : preserves world_ok main.
Proof. unfold main. solve_preserves. Qed.

Lemma sys_step_ok `{Executor} w w' : sys_step w w' -> world_ok w w'.
Proof.
  destruct 1; [apply app_serve_mono | apply consume_one_mono | apply set_outage_mono
              | apply main_mono].
Qed.

(** ** The invariants on reachable states *)

Lemma reachable_world_ok `{Executor} w : reachable w -> coherent w.
Proof.
  induction 1 as [|w w' _ IH Hs].
  - intros k v Hv. simpl in Hv. by rewrite lookup_empty in Hv.
  - by apply (sys_step_ok w w' Hs).
Qed.

(** Every queued message names a task the store holds. *)
Definition queued_ok (w : World) : Prop :=
  forall m, m ∈ queue (w_broker w) -> is_Some (rows (w_store w) !! m.1).

(** A row whose status is terminal. *)
Definition finished (s : Store) (id : string) : Prop :=
  exists r, rows s !! id = Some r /\ is_terminal (row_status r) = true.

Lemma world_ok_queued w w' : world_ok w w' -> queued_ok w -> queued_ok w'.
Proof.
  intros (Hm & _ & Hq & _) Hw m Hin. destruct (Hq m Hin) as [Hin'|]; [|done].
  by eapply store_mono_is_Some, Hw.
Qed.

Lemma reachable_queued `{Executor} w : reachable w -> queued_ok w.
Proof.
  induction 1 as [|w w' _ IH Hs]; [intros m Hm; by apply elem_of_nil in Hm|].
  by eapply world_ok_queued; [apply sys_step_ok|].
Qed.

Lemma reachable_store_wf `{Executor} w : reachable w -> store_wf (w_store w).
Proof.
  induction 1 as [|w w' _ IH Hs].
  - split; [constructor|]. intros id. simpl. rewrite lookup_empty. split; [by intros ?%elem_of_nil | by intros []].
  - by apply (sys_step_ok w w' Hs).
Qed.

(** ** A run of a task by the consumer *)

Lemma finished_mono s s' id : store_mono s s' -> finished s id -> finished s' id.
Proof. intros Hm (r & Hr & Ht). exists r. split; [by eapply store_mono_terminal | done]. Qed.

(** [updateStatus] to a terminal status on a stored task, with the store up,
    returns, and the task is then terminal. *)
Lemma update_status_finishes s id st res :
  store_down s = false -> is_Some (rows s !! id) -> is_terminal st = true ->
  exists s', update_status id st res s = (Ok tt, s') /\ store_down s' = false /\ finished s' id.
Proof.
  intros Hd [r Hr] Ht. cbv [update_status bind store_guard find_row]. rewrite Hd, Hr.
  destruct (is_terminal (row_status r)) eqn:Hr'.
  - eexists. split_and!; [reflexivity | done | by exists r].
  - eexists. split_and!; [reflexivity | done |]. exists (mkRow st res).
    split; [apply lookup_insert_eq | done].
Qed.

Section RunTask.
Context `{Executor}.

Lemma run_task_finishes s t body :
  store_down s = false -> is_Some (rows s !! item_id t) ->
  exists s', run_task t body s = (Ok tt, s') /\ store_down s' = false /\ finished s' (item_id t).
Proof. intros Hd Hs. unfold run_task. case_match; by apply update_status_finishes. Qed.

(** With the database down a run raises at its first query and changes nothing. *)
Lemma run_task_down s t body :
  store_down s = true -> run_task t body s = (Raise OperationalError, s).
Proof. intros Hd. unfold run_task. case_match; cbv [update_status bind store_guard]; by rewrite Hd. Qed.
End RunTask.

(** C2: on every reachable state, each cached value is the text of the
    store's current view of a finished task. *)
Theorem cache_coherent `{Executor} w k v :
  reachable w -> entries (w_cache w) !! k = Some v ->
  exists r, rows (w_store w) !! k = Some r /\ is_terminal (row_status r) = true /\
            v = dumps (results_view k r).
Proof. intros Hw. by apply reachable_world_ok. Qed.

(** C27: on every reachable state a run of the queue consumer either
    returns or raises the database's [OperationalError] and leaves the
    state as it was: it never meets a message whose task the store does not
    hold, so no message is lost to [TaskNotFound] or stuck behind one. *)
Theorem consumer_never_orphaned `{Executor} w e w' :
  reachable w -> consume_one w = (Raise e, w') -> e = OperationalError /\ w' = w.
Proof.
  intros Hw. unfold consume_one. destruct (queue (w_broker w)) as [|[id cases] rest] eqn:Hq; [done|].
  destruct (store_down (w_store w)) eqn:Hd.
  - rewrite run_task_down by done. intros [= <- <-]. by destruct w.
  - destruct (run_task_finishes (w_store w) (mkTaskItem id PENDING) cases Hd) as (s' & -> & _).
    { apply (reachable_queued w Hw (id, cases)). rewrite Hq, elem_of_cons. by left. }
    done.
Qed.
