(* ===== verification/OnceDispatch.v ===== *)
(** * Every task is dispatched at most once

    The spec (section 5) assumes that at most one executor ever makes a
    task's terminal transition, "a caller discipline, not an enforced
    lock".  In [src/server.py] the discipline holds by construction: a task
    is published only right after its row was created under a fresh id, a
    task run in the request ([process]) is never published, and the
    consumer removes a message exactly when its run reached the store.
    [once_dispatched] states it of a state: the queued ids are distinct,
    and each names a row that is still [PENDING], so no queued run can
    meet a task some other executor already finished.  It is kept by every
    step, proved as [System.v] proves [world_ok]: the relation [rows_grow]
    (no stored row changes) is kept by every store call but
    [updateStatus]; the creation handlers run [updateStatus] and the
    publish only on the row they have just created, which the Hoare triples
    [create_task_fresh], [run_task_fresh] and [publish_fresh] carry. *)

From S2P Require Import Prelude Json JsonDecode Backend Tornado Handlers App System.
Local Open Scope string_scope.

(** ** The invariant and the relations that keep it *)

Definition qids (w : World) : list string := fst <$> queue (w_broker w).

Definition once_dispatched (w : World) : Prop :=
  NoDup (qids w) /\
  forall m, m ∈ queue (w_broker w) ->
  exists r, rows (w_store w) !! m.1 = Some r /\ row_status r = PENDING.

(** No stored row changes; rows may be added. *)
Definition rows_grow (s s' : Store) : Prop :=
  forall k r, rows s !! k = Some r -> rows s' !! k = Some r.

Definition disp_ok (w w' : World) : Prop := once_dispatched w -> once_dispatched w'.

Definition dctx_ok (c c' : Ctx) : Prop := disp_ok (c_world c) (c_world c').

#[export] Instance rows_grow_preorder : PreOrder rows_grow.
Proof. split; [by intros ??? | intros ??? H12 H23 k r Hr; by apply H23, H12]. Qed.

#[export] Instance disp_ok_preorder : PreOrder disp_ok.
Proof. split; [by intros ?? | intros ??? H12 H23 H; by apply H23, H12]. Qed.

#[export] Instance dctx_ok_preorder : PreOrder dctx_ok.
Proof. split; [by intros ?? | intros ??? H12 H23 H; by apply H23, H12]. Qed.

(** ** Store calls that change no stored row *)

Lemma rows_grow_same s o n b : rows_grow s (mkStore (rows s) o n b).
Proof. by intros k r. Qed.

Lemma rows_grow_fresh s id r o n b :
  rows s !! id = None -> rows_grow s (mkStore (<[id := r]> (rows s)) o n b).
Proof. intros Hn k r' Hr. simpl. rewrite lookup_insert_ne; [done|]. intros ->. by rewrite Hn in Hr. Qed.

Lemma store_guard_grows : preserves rows_grow store_guard.
Proof. apply preserves_readonly; try exact _. intros s. unfold exec, store_guard. by case_match. Qed.

Lemma find_row_grows id : preserves rows_grow (find_row id).
Proof. apply preserves_readonly; try exact _. intros s. unfold exec, find_row. by case_match. Qed.

Lemma count_read_grows : preserves rows_grow count_read.
Proof. apply preserves_modify. intros s. apply rows_grow_same. Qed.

#[export] Hint Resolve store_guard_grows find_row_grows count_read_grows : preserves.

Lemma create_task_grows t : preserves rows_grow (create_task t).
Proof.
  unfold create_task. apply preserves_bind; [apply _ | apply store_guard_grows |].
  intros _ s. unfold exec. destruct (rows s !! item_id t) eqn:E; simpl; [reflexivity|].
  by apply rows_grow_fresh.
Qed.

Lemma get_task_grows id : preserves rows_grow (get_task id).
Proof. unfold get_task. solve_preserves. Qed.

Lemma get_tasks_grows lim : preserves rows_grow (get_tasks lim).
Proof.
  unfold get_tasks. apply preserves_bind; [apply _ | apply store_guard_grows |].
  intros _. apply preserves_readonly; try exact _. done.
Qed.

Lemma get_results_grows id : preserves rows_grow (get_results id).
Proof. unfold get_results. solve_preserves. Qed.

#[export] Hint Resolve create_task_grows get_task_grows get_tasks_grows get_results_grows
  : preserves.

(** ** Lifting to the process state and the handler object *)

(** A state whose queue is unchanged and whose rows only grew. *)
Lemma disp_ok_frame w w' :
  rows_grow (w_store w) (w_store w') -> queue (w_broker w') = queue (w_broker w) -> disp_ok w w'.
Proof.
  intros Hg Hq [Hnd Hp]. unfold once_dispatched, qids. rewrite Hq. split; [done|].
  intros m Hm. destruct (Hp m Hm) as (r & Hr & Hs). exists r. split; [by apply Hg | done].
Qed.

Lemma on_store_grows {A} (m : PyM Store PyExc A) :
  preserves rows_grow m -> preserves disp_ok (on_store m).
Proof. apply preserves_zoom. intros w s Hs. by apply disp_ok_frame. Qed.

Lemma on_cache_disp {A} (m : PyM Cache PyExc A) : preserves disp_ok (on_cache m).
Proof. apply preserves_zoom with (Q := fun _ _ => True); [intros w c _; by apply disp_ok_frame|]. by intros c. Qed.

Lemma log_info_disp msg : preserves disp_ok (log_info msg).
Proof. apply preserves_modify. intros w. by apply disp_ok_frame. Qed.

Lemma on_world_disp {A} (m : PyM World PyExc A) :
  preserves disp_ok m -> preserves dctx_ok (on_world m).
Proof. apply preserves_zoom. intros c w Hw. exact Hw. Qed.

#[export] Hint Resolve on_store_grows on_cache_disp log_info_disp on_world_disp : preserves.

Lemma dctx_modify (f : Ctx -> Ctx) :
  (forall c, c_world (f c) = c_world c) -> preserves dctx_ok (modify_st (E:=PyExc) f).
Proof. intros Hf. apply preserves_modify. intros c. unfold dctx_ok. rewrite Hf. reflexivity. Qed.

Lemma set_header_disp k v : preserves dctx_ok (set_header k v).
Proof. by apply dctx_modify. Qed.
Lemma set_status_disp code : preserves dctx_ok (set_status code).
Proof. by apply dctx_modify. Qed.
Lemma append_chunk_disp s : preserves dctx_ok (append_chunk s).
Proof. by apply dctx_modify. Qed.
#[export] Hint Resolve set_header_disp set_status_disp append_chunk_disp : preserves.

Lemma write_disp chunk : preserves dctx_ok (write chunk).
Proof. unfold write. solve_preserves. Qed.
Lemma error_disp msg : preserves dctx_ok (error msg).
Proof. unfold error. solve_preserves; apply write_disp. Qed.
Lemma decode_body_disp body : preserves dctx_ok (decode_body body).
Proof. unfold decode_body. solve_preserves. Qed.
Lemma int_arg_disp s : preserves dctx_ok (int_arg s).
Proof. apply preserves_readonly; try exact _. done. Qed.
Lemma py_get_disp k d v : preserves dctx_ok (py_get k d v).
Proof. unfold py_get. solve_preserves. Qed.
#[export] Hint Resolve write_disp error_disp decode_body_disp int_arg_disp py_get_disp
  : preserves.

(** ** The handlers *)

Lemma list_task_handler_disp req : preserves dctx_ok (ListTaskHandler_get req).
Proof. unfold ListTaskHandler_get. solve_preserves. Qed.

Lemma health_check_handler_disp req : preserves dctx_ok (HealthCheckHandler_get req).
Proof. unfold HealthCheckHandler_get. solve_preserves. Qed.

Lemma results_handler_disp req : preserves dctx_ok (ResultsHandler_get req).
Proof. unfold ResultsHandler_get. solve_preserves. Qed.

(** A task that no message names, whose row is [PENDING]. *)
Definition fresh_pending (w : World) (id : string) : Prop :=
  (id ∉ qids w) /\ exists r, rows (w_store w) !! id = Some r /\ row_status r = PENDING.

(** A write to a row that no message names. *)
Lemma disp_ok_unqueued w id r :
  id ∉ qids w ->
  disp_ok w (mkWorld (mkStore (<[id := r]> (rows (w_store w))) (order (w_store w))
                              (reads (w_store w)) (store_down (w_store w)))
                     (w_cache w) (w_broker w) (w_log w)).
Proof.
  intros Hid [Hnd Hp]. split; [done|]. intros m Hm. destruct (Hp m Hm) as (r' & Hr & Hs).
  exists r'. simpl. rewrite lookup_insert_ne; [done|]. intros Heq. apply Hid.
  apply list_elem_of_fmap. by exists m.
Qed.

(** [TaskItem()] is [PENDING]. *)
Lemma task_new_spec c0 :
  hoare (dctx_ok c0) (on_world (on_store (gets_st TaskItem_new)))
    (fun t c => item_status t = PENDING /\ dctx_ok c0 c) (fun _ c => dctx_ok c0 c).
Proof. intros [[s cache b lg] st hs buf] Hc. by split. Qed.

(** Once [create_task] returns, its row is [PENDING] and no message names it. *)
Lemma create_task_fresh c0 t :
  item_status t = PENDING ->
  hoare (dctx_ok c0) (on_world (on_store (create_task t)))
    (fun _ c => dctx_ok c0 c /\ (once_dispatched (c_world c0) -> fresh_pending (c_world c) (item_id t)))
    (fun _ c => dctx_ok c0 c).
Proof.
  intros Hst [[[rs ord rd sd] cache b lg] st hs buf] Hc.
  cbv [on_world on_store zoom create_task bind store_guard]. simpl. destruct sd; [exact Hc|].
  simpl. destruct (rs !! item_id t) eqn:E; simpl; [exact Hc|].
  assert (Hg : dctx_ok c0 (mkCtx (mkWorld (mkStore (<[item_id t := mkRow (item_status t) JNull]> rs)
            (ord ++ [item_id t]) rd false) cache b lg) st hs buf)).
  { etrans; [exact Hc|]. apply disp_ok_frame; [by apply rows_grow_fresh | done]. }
  split; [exact Hg|]. intros H0. split.
  - intros (m & Heq & Hm)%list_elem_of_fmap. destruct (proj2 (Hc H0) m Hm) as (r & Hr & _).
    simpl in Hr. by rewrite <- Heq, E in Hr.
  - exists (mkRow (item_status t) JNull). simpl. by rewrite lookup_insert_eq.
Qed.

(** A run leaves the table as it was, or writes the task's own row. *)
Lemma run_task_shape `{Executor} t body s :
  exists o, run_task t body s = (o, s) \/
  exists r, run_task t body s = (Ok tt, mkStore (<[item_id t := r]> (rows s)) (order s) (reads s) (store_down s)).
Proof.
  unfold run_task. case_match; cbv [update_status bind store_guard find_row ret modify_st];
    destruct (store_down s) eqn:Hd; simpl; try (eexists; left; reflexivity);
    destruct (rows s !! item_id t); simpl; try (eexists; left; reflexivity);
    case_match; simpl; rewrite ?Hd;
    first [eexists; left; reflexivity | exists (Ok tt); right; eexists; reflexivity].
Qed.

(** [updateStatus] on a task no message names. *)
Lemma run_task_fresh `{Executor} c0 t body :
  hoare (fun c => dctx_ok c0 c /\ (once_dispatched (c_world c0) -> item_id t ∉ qids (c_world c)))
    (on_world (on_store (run_task t body))) (fun _ c => dctx_ok c0 c) (fun _ c => dctx_ok c0 c).
Proof.
  intros [[s cache b lg] st hs buf] [Hc Hq].
  cbv [on_world on_store zoom]. simpl.
  destruct (run_task_shape t body s) as [o [E | [r E]]]; rewrite E; simpl.
  - destruct o; exact Hc.
  - intros H0. by apply (disp_ok_unqueued (mkWorld s cache b lg)); [apply Hq | apply Hc].
Qed.

(** The publish of a task whose row was just created. *)
Lemma publish_fresh c0 t body :
  hoare (fun c => dctx_ok c0 c /\ (once_dispatched (c_world c0) -> fresh_pending (c_world c) (item_id t)))
    (on_world (on_broker (publish_task t body))) (fun _ c => dctx_ok c0 c) (fun _ c => dctx_ok c0 c).
Proof.
  intros [[s cache [q bd] lg] st hs buf] [Hc Hf].
  cbv [on_world on_broker zoom publish_task]. simpl. destruct bd; simpl; [exact Hc|].
  intros H0. destruct (Hc H0) as [Hnd Hp]. destruct (Hf H0) as [Hid Hr]. simpl in *. split.
  - unfold qids. simpl. rewrite fmap_app. apply NoDup_app. split_and!; [done | | apply NoDup_singleton].
    intros x Hx ->%list_elem_of_singleton. by apply Hid.
  - intros m. simpl. rewrite elem_of_app, list_elem_of_singleton. intros [Hm | ->]; [by apply Hp | done].
Qed.

(** A triple from a [preserves] fact on handler objects. *)
Ltac dhoare_by_preserves :=
  eapply hoare_consequence;
  [apply (hoare_preserves dctx_ok); solve_preserves
  | cbn beta; intros ? Hpre; first [apply Hpre | apply (proj1 Hpre) | apply (proj2 Hpre)]
  | done | done].

(** The creation handlers, from a starting handler object [c0], up to the
    dispatch of the task they created. *)
Ltac create_handler_disp c0 :=
  eapply hoare_consequence with (P := dctx_ok c0) (Q := fun _ => dctx_ok c0)
    (QE := fun _ => dctx_ok c0); [| by intros ? -> | done | done];
  eapply hoare_bind with (Q' := fun _ => dctx_ok c0); [|intros ?; dhoare_by_preserves];
  apply hoare_try with (QE' := fun _ => dctx_ok c0); [|intros ?; dhoare_by_preserves];
  eapply hoare_bind; [dhoare_by_preserves|]; intros ?;
  eapply hoare_bind; [apply task_new_spec|]; intros ?;
  apply hoare_pure_pre; intros ?;
  eapply hoare_bind; [by apply create_task_fresh|]; intros ?.

Lemma create_task_handler_disp `{Executor} req : preserves dctx_ok (CreateTaskHandler_post req).
Proof.
  apply preserves_hoare. intros c0. unfold CreateTaskHandler_post. create_handler_disp c0.
  destruct (bool_decide _).
  - eapply hoare_bind with (Q' := fun _ => dctx_ok c0); [|intros ?; dhoare_by_preserves].
    eapply hoare_consequence; [apply (run_task_fresh c0) | | by intros | by intros].
    intros c [Hc Hf]. split; [done|]. intros Hi. apply (Hf Hi).
  - destruct (bool_decide _); [|dhoare_by_preserves].
    eapply hoare_bind; [apply publish_fresh|]. intros ?. dhoare_by_preserves.
Qed.

Lemma create_task_queue_handler_disp req : preserves dctx_ok (CreateTaskQueueHandler_post req).
Proof.
  apply preserves_hoare. intros c0. unfold CreateTaskQueueHandler_post. create_handler_disp c0.
  eapply hoare_bind; [apply publish_fresh|]. intros ?. dhoare_by_preserves.
Qed.

#[export] Hint Resolve create_task_handler_disp create_task_queue_handler_disp
  list_task_handler_disp health_check_handler_disp results_handler_disp : preserves.

(** ** Every step keeps the invariant *)

Lemma app_serve_disp `{Executor} verb path req w : disp_ok w (snd (app_serve verb path req w)).
Proof.
  unfold app_serve. destruct (find_handler path make_app) as [hc|]; [|reflexivity].
  destruct (handler_method hc verb) as [m|] eqn:Hm; [|reflexivity].
  assert (Hp : preserves dctx_ok (m req)).
  { revert Hm. destruct hc; simpl; case_match; intros [= <-]; eauto with preserves. }
  specialize (Hp (cleared set_default_headers w [])). unfold exec in Hp.
  unfold serve. destruct (m req (cleared set_default_headers w [])) as [[] c]; exact Hp.
Qed.

Lemma consume_one_disp `{Executor} w : disp_ok w (exec consume_one w).
Proof.
  intros Hw. pose proof Hw as [Hnd Hp]. unfold exec, consume_one. unfold qids in Hnd.
  destruct (queue (w_broker w)) as [|[id cases] rest] eqn:Hq; [exact Hw|].
  rewrite fmap_cons in Hnd. apply NoDup_cons in Hnd as [Hid Hnd].
  destruct (run_task_shape (mkTaskItem id PENDING) cases (w_store w)) as [o [E | [r E]]];
    rewrite E; [destruct o|]; simpl.
  - split; [done|]. intros m Hm. apply Hp. rewrite ?Hq, elem_of_cons. by right.
  - by destruct w as [? ? [? ?] ?].
  - split; [done|]. intros m Hm. destruct (Hp m) as (r' & Hr & Hs); [rewrite ?Hq, elem_of_cons; by right|].
    exists r'. simpl. rewrite lookup_insert_ne; [done|]. intros Heq. apply Hid.
    apply list_elem_of_fmap. by exists m.
Qed.

Lemma sys_step_disp `{Executor} w w' : sys_step w w' -> disp_ok w w'.
Proof.
  destruct 1.
  - apply app_serve_disp.
  - apply consume_one_disp.
  - apply disp_ok_frame; [apply rows_grow_same | done].
  - assert (Hm : preserves disp_ok main) by (unfold main; solve_preserves). apply Hm.
Qed.

Lemma reachable_once `{Executor} w : reachable w -> once_dispatched w.
Proof.
  induction 1 as [|w w' _ IH Hs].
  - split; [constructor|]. intros m Hm. by apply elem_of_nil in Hm.
  - by apply (sys_step_disp w w' Hs).
Qed.

(** C29: on every reachable state no task is dispatched twice: the queued
    messages name distinct tasks, and every queued task is still
    [PENDING], so neither a task run in the request ([process]) nor one the
    consumer already finished is ever queued again, and the at-most-one
    executor discipline the spec leaves to callers holds by construction. *)
Theorem dispatched_once `{Executor} w :
  reachable w ->
  NoDup (qids w) /\
  forall id cases, (id, cases) ∈ queue (w_broker w) ->
  exists r, rows (w_store w) !! id = Some r /\ row_status r = PENDING.
Proof. intros Hw. destruct (reachable_once w Hw) as [Hnd Hp]. split; [done|]. intros id cases. apply (Hp (id, cases)). Qed.
