(* ===== verification/Listing.v ===== *)
(** * Listing tasks: [ListTaskHandler.get]

    [src/server.py] lines 145-163: a truthy [task_id] argument selects one
    task ([TaskCrud.get_task]); otherwise the listing of all tasks, cut to
    [int(limit)] when a truthy [limit] is given.  [int(limit)] runs inside
    the [try] block, so an argument that is not an integer answers the
    error envelope.  No branch changes the state.  On every reachable
    state the listing without arguments has exactly one entry per stored
    task, from the invariant [store_wf] of System.v. *)

From S2P Require Import Prelude Json JsonDecode Backend Tornado Handlers Fixtures App System.
Local Open Scope string_scope.

(** The answer of a listing: the rows in creation order, cut to the limit. *)
Definition listing (s : Store) (limit : option Z) : json :=
  JList (match limit with Some n => take (Z.to_nat n) (listed_rows s) | None => listed_rows s end).

(** A request through [ListTaskHandler.get]. *)
Definition list_get (req : Request) (w : World) : Response * World :=
  serve set_default_headers (ListTaskHandler_get req) w.

Section List.
Context (req : Request) (w : World).
Hypothesis Hstore : store_down (w_store w) = false.

(** C18: a truthy [task_id] answers that task's id and status. *)
Theorem list_by_id k r :
  get_argument req "task_id" None = Some k -> k <> EmptyString ->
  rows (w_store w) !! k = Some r ->
  list_get req w =
  (mkResponse 200 json_headers (dumps (row_json k r)), w).
Proof.
  intros Hk Hne Hr. apply String.eqb_neq in Hne.
  destruct w as [[rs ord rd sd] c b lg]; simpl in *; subst sd.
  unfold list_get, ListTaskHandler_get. rewrite Hk. run_handler. rewrite Hne. cbn -[dumps].
  rewrite Hr. by destruct c, b.
Qed.

Lemma list_get_limit l n :
  py_truthy (get_argument req "task_id" None) = false ->
  get_argument req "limit" None = Some l -> l <> EmptyString -> py_int l = Ok n ->
  list_get req w =
  (mkResponse 200 json_headers (dumps (listing (w_store w) (Some n))), w).
Proof.
  intros Hk Hl Hne Hn. apply String.eqb_neq in Hne.
  destruct w as [[rs ord rd sd] c b lg]; simpl in *; subst sd.
  unfold list_get, ListTaskHandler_get. rewrite Hl. run_handler. rewrite Hk, Hne. cbn -[dumps]. rewrite Hn.
  cbn -[dumps take listed_rows]. by destruct c, b.
Qed.

(** C19: without a [task_id], a [limit] that [int()] reads as [n]
    answers the first [n] rows in creation order. *)
Theorem list_with_limit l n :
  py_truthy (get_argument req "task_id" None) = false ->
  get_argument req "limit" None = Some l -> l <> EmptyString -> py_int l = Ok n ->
  list_get req w =
  (mkResponse 200 json_headers (dumps (listing (w_store w) (Some n))), w).
Proof. apply list_get_limit. Qed.

(** C25: a truthy [task_id] that names no task answers the error
    envelope with the store's not-found message, status 500, and changes
    nothing: the listing, like the results read, has no distinct
    not-found answer. *)
Theorem list_unknown_id k :
  get_argument req "task_id" None = Some k -> k <> EmptyString ->
  rows (w_store w) !! k = None ->
  list_get req w =
  (error_response ("Unexpected error at tasks listing: " ++ exc_str (TaskNotFound k)), w).
Proof.
  intros Hk Hne Hr. apply String.eqb_neq in Hne.
  destruct w as [[rs ord rd sd] c b lg]; simpl in *; subst sd.
  unfold list_get, ListTaskHandler_get. rewrite Hk. run_handler. rewrite Hne. cbn -[dumps].
  rewrite Hr. cbn. by destruct c, b.
Qed.

Lemma list_get_all :
  py_truthy (get_argument req "task_id" None) = false ->
  py_truthy (get_argument req "limit" None) = false ->
  list_get req w = (mkResponse 200 json_headers (dumps (listing (w_store w) None)), w).
Proof.
  intros Hk Hl. destruct w as [[rs ord rd sd] c b lg]; simpl in *; subst sd.
  unfold list_get, ListTaskHandler_get, truthy_value. rewrite Hk, Hl. run_handler.
  by destruct c, b.
Qed.
End List.

(** One entry per element of a list whose elements all have one. *)
Lemma length_omap_total {A B} (f : A -> option B) (l : list A) :
  (forall x, x ∈ l -> is_Some (f x)) -> List.length (omap f l) = List.length l.
Proof.
  induction l as [|x l IH]; intros Hf; [done|]. simpl.
  destruct (Hf x) as [y ->]; [rewrite elem_of_cons; by left|]. simpl. f_equal.
  apply IH. intros z Hz. apply Hf. rewrite elem_of_cons. by right.
Qed.

(** On a well-formed table the listing has one entry per stored task. *)
Lemma listed_rows_length s : store_wf s -> List.length (listed_rows s) = size (rows s).
Proof.
  intros [Hnd Hin]. unfold listed_rows.
  rewrite length_omap_total by (intros id Hid; apply Hin in Hid as [r ->]; by eexists).
  rewrite <- size_dom, <- (size_list_to_set (C:=gset string) (order s)) by done.
  f_equal. apply set_eq. intros id. rewrite elem_of_list_to_set, elem_of_dom. apply Hin.
Qed.

Lemma list_get_bad_limit req w l e :
  py_truthy (get_argument req "task_id" None) = false ->
  get_argument req "limit" None = Some l -> l <> EmptyString -> py_int l = Raise e ->
  list_get req w =
  (error_response ("Unexpected error at tasks listing: " ++ exc_str e), w).
Proof.
  intros Hk Hl Hne He. apply String.eqb_neq in Hne.
  unfold list_get, ListTaskHandler_get. rewrite Hl. run_handler. rewrite Hk, Hne. cbn. rewrite He.
  by destruct w.
Qed.

(** C20: a [limit] that is not an integer answers the error envelope with
    Python's [ValueError] message, and nothing changes. *)
Theorem list_bad_limit req w l e :
  py_truthy (get_argument req "task_id" None) = false ->
  get_argument req "limit" None = Some l -> l <> EmptyString -> py_int l = Raise e ->
  list_get req w =
  (error_response ("Unexpected error at tasks listing: " ++ exc_str e), w).
Proof. apply list_get_bad_limit. Qed.

(** C24: on every reachable state with the store up, a listing with
    neither [task_id] nor [limit] answers every stored task exactly once,
    in creation order, and changes nothing: the creation order lists each
    stored id once, an invariant every step keeps. *)
Theorem list_all_tasks `{Executor} w req :
  reachable w -> store_down (w_store w) = false ->
  py_truthy (get_argument req "task_id" None) = false ->
  py_truthy (get_argument req "limit" None) = false ->
  list_get req w = (mkResponse 200 json_headers (dumps (listing (w_store w) None)), w) /\
  NoDup (order (w_store w)) /\
  (forall id, id ∈ order (w_store w) <-> is_Some (rows (w_store w) !! id)) /\
  List.length (listed_rows (w_store w)) = size (rows (w_store w)).
Proof.
  intros Hw Hs Hk Hl. pose proof (reachable_store_wf w Hw) as Hwf.
  split_and!; [by apply list_get_all | apply Hwf | apply Hwf | by apply listed_rows_length].
Qed.

(** ** Witnesses *)

Lemma list_by_id_witness :
  list_get (req_results "T1") world_up =
  (mkResponse 200 json_headers (dumps (row_json "T1" row_done)), world_up).
Proof. apply list_by_id; first [reflexivity | discriminate]. Defined.

Lemma list_with_limit_witness :
  list_get (mkRequest [("limit", " 1 ")] EmptyString)
    world_up =
  (mkResponse 200 json_headers (dumps (listing (w_store world_up) (Some 1%Z))), world_up).
Proof. apply (list_with_limit _ world_up) with (l := "1"); first [reflexivity | discriminate]. Defined.

Lemma list_bad_limit_witness :
  list_get (mkRequest [("limit", "ten")] EmptyString)
    world_up =
  (error_response ("Unexpected error at tasks listing: " ++ exc_str (ValueError "ten")), world_up).
Proof. apply (list_bad_limit _ _ "ten"); first [reflexivity | discriminate]. Defined.

(** The state after one creation in queue mode from the initial state. *)
Definition w_one_task : World :=
  snd (app_serve "POST" "/api/tasks/create" (req_create "queue") init_world).

Lemma w_one_task_reachable : reachable w_one_task.
Proof. eapply reach_step; [apply reach_init | apply step_request]. Qed.

Lemma list_all_tasks_witness :
  let w := w_one_task in let req := mkRequest [] EmptyString in
  list_get req w = (mkResponse 200 json_headers (dumps (listing (w_store w) None)), w) /\
  NoDup (order (w_store w)) /\
  (forall id, id ∈ order (w_store w) <-> is_Some (rows (w_store w) !! id)) /\
  List.length (listed_rows (w_store w)) = size (rows (w_store w)).
Proof. apply list_all_tasks; [exact w_one_task_reachable | reflexivity..]. Defined.

Lemma list_unknown_id_witness :
  list_get (req_results "T9") world_up =
  (error_response ("Unexpected error at tasks listing: " ++ exc_str (TaskNotFound "T9")), world_up).
Proof. apply (list_unknown_id _ world_up); first [reflexivity | discriminate]. Defined.
