(* ===== verification/Resolver.v ===== *)
(** * What the cache-aside read promises, on every reachable state

    The spec's result resolver (section 4.2) is a read of the store with a
    cache in front.  Its abstract specification, [spec_results], reads the
    store alone: the view of the task's row, or the error for an unknown
    id.  On every reachable state where the services are up,
    [ResultsHandler.get] answers exactly what [spec_results] answers: the
    cache is invisible to clients (refinement).  From it follow the
    idempotence of repeated reads and, with the branch theorems of
    Results.v, that a second read of a finished task does not reach the
    store.  The invariants of System.v carry the argument: a row never goes
    back to [PENDING] or changes once terminal, and the cache holds only
    views of terminal rows.  Lifted to runs of steps ([rtc sys_step]), they
    show that a finished result is stable under every interleaving of the
    other clients' requests, the consumer, outages and restarts. *)

From S2P Require Import Prelude Json JsonDecode Backend Tornado Handlers Fixtures Results App System.
Local Open Scope string_scope.

Definition services_up (w : World) : Prop :=
  store_down (w_store w) = false /\ get_down (w_cache w) = false /\
  set_down (w_cache w) = false.

(** The abstract resolver: the store's answer, with no cache. *)
Definition spec_results (s : Store) (k : string) : Response :=
  match rows s !! k with
  | Some r => mkResponse 200 json_headers (dumps (results_view k r))
  | None => error_response ("Unexpected error at getting results: " ++ exc_str (TaskNotFound k))
  end.

(** A cached entry of a coherent world is the view of the task's row. *)
Lemma coherent_lookup w k r :
  coherent w -> rows (w_store w) !! k = Some r ->
  entries (w_cache w) !! k = Some (dumps (results_view k r)) \/
  entries (w_cache w) !! k = None.
Proof.
  intros Hc Hr. destruct (entries (w_cache w) !! k) as [v|] eqn:Hv; [left|by right].
  destruct (Hc k v Hv) as (r' & Hr' & _ & ->). rewrite Hr in Hr'. by simplify_eq.
Qed.

Lemma coherent_lookup_none w k :
  coherent w -> rows (w_store w) !! k = None -> entries (w_cache w) !! k = None.
Proof.
  intros Hc Hr. destruct (entries (w_cache w) !! k) as [v|] eqn:Hv; [|done].
  destruct (Hc k v Hv) as (r' & Hr' & _). congruence.
Qed.

Lemma dumps_view_nonempty k r : dumps (results_view k r) <> EmptyString.
Proof. cbn. discriminate. Qed.

(** ** The invariants *)



(** ** The read on a coherent world with every service up *)

Section UpRead.
Context (req : Request) (k : string) (w : World).
Hypothesis Harg : get_argument req "task_id" None = Some k.
Hypothesis Hcoh : coherent w.
Hypothesis Hup : services_up w.

(** The answer is the specification's, the rows and the services stay. *)
Lemma results_up_run :
  let '(resp, w') := serve set_default_headers (ResultsHandler_get req) w in
  resp = spec_results (w_store w) k /\ rows (w_store w') = rows (w_store w) /\
  services_up w'.
Proof.
  destruct Hup as (Hsd & Hgd & Hsn).
  unfold spec_results. destruct (rows (w_store w) !! k) as [r|] eqn:Hr.
  - pose proof (dumps_view_nonempty k r) as Hne. apply String.eqb_neq in Hne.
    remember (dumps (results_view k r)) as v eqn:Ev.
    destruct (coherent_lookup w k r Hcoh Hr) as [Hv|Hv]; try rewrite <- Ev in Hv;
      destruct w as [[rs ord rd sd] [ent gd sdn] b lg]; simpl in *; subst gd sdn sd;
      unfold ResultsHandler_get; rewrite Harg; run_handler; rewrite Hv; cbn -[dumps].
    + rewrite Hne. by repeat split.
    + rewrite Hr. cbn -[dumps]. subst v. destruct r as [[] res]; by repeat split.
  - pose proof (coherent_lookup_none w k Hcoh Hr) as Hv.
    destruct w as [[rs ord rd sd] [ent gd sdn] b lg]; simpl in *; subst.
    unfold ResultsHandler_get. rewrite Harg. run_handler. rewrite Hv. cbn.
    rewrite Hr. cbn. by repeat split.
Qed.
End UpRead.

(** C1: on every reachable state with the services up, the
    cache-aside read answers what a read of the store alone answers. *)
Theorem results_refines_store `{Executor} w req k :
  reachable w -> services_up w -> get_argument req "task_id" None = Some k ->
  fst (app_serve "GET" "/api/results" req w) = spec_results (w_store w) k.
Proof.
  intros Hw Hup Hk. pose proof (results_up_run req k w Hk (reachable_world_ok w Hw) Hup) as Hrun.
  unfold app_serve. simpl. destruct (serve _ _ w). by destruct Hrun.
Qed.

(** C7: repeated reads of the same id give byte-identical answers. *)
Theorem results_idempotent `{Executor} w req k :
  reachable w -> services_up w -> get_argument req "task_id" None = Some k ->
  let w1 := snd (app_serve "GET" "/api/results" req w) in
  fst (app_serve "GET" "/api/results" req w1) = fst (app_serve "GET" "/api/results" req w).
Proof.
  intros Hw Hup Hk. unfold app_serve. simpl.
  pose proof (reachable_world_ok w Hw) as Hc.
  pose proof (serve_mono _ w (results_handler_mono req)) as (_ & Hc1 & _).
  pose proof (results_up_run req k w Hk Hc Hup) as Hrun.
  destruct (serve _ _ w) as [resp1 w1] eqn:E1. simpl in *. destruct Hrun as (-> & Hrows & Hup1).
  pose proof (results_up_run req k w1 Hk (Hc1 Hc) Hup1) as Hrun1.
  destruct (serve _ _ w1) as [resp2 w2]. destruct Hrun1 as (-> & _).
  unfold spec_results. by rewrite Hrows.
Qed.

(** C6: the first read of a finished task that misses the cache stores its
    answer there; the second read is served from the cache, with the same
    bytes, and does not reach the store (its read counter stays). *)
Theorem results_second_read_cached w req k r :
  services_up w -> get_argument req "task_id" None = Some k ->
  entries (w_cache w) !! k = None ->
  rows (w_store w) !! k = Some r -> is_terminal (row_status r) = true ->
  let '(resp1, w1) := serve set_default_headers (ResultsHandler_get req) w in
  let '(resp2, w2) := serve set_default_headers (ResultsHandler_get req) w1 in
  entries (w_cache w1) !! k = Some (dumps (results_view k r)) /\
  reads (w_store w1) = S (reads (w_store w)) /\
  reads (w_store w2) = reads (w_store w1) /\ resp2 = resp1.
Proof.
  intros (Hsd & Hgd & Hsn) Hk Hv Hr Ht.
  destruct w as [[rs ord rd sd] [ent gd sdn] b lg]; simpl in *; subst gd sdn sd.
  pose proof (dumps_view_nonempty k r) as Hne. apply String.eqb_neq in Hne.
  unfold ResultsHandler_get. rewrite Hk. run_handler. rewrite Hv. cbn -[dumps].
  rewrite Hr. cbn -[dumps].
  destruct r as [[] res]; [discriminate| |]; cbn -[dumps]; rewrite lookup_insert_eq;
    cbn -[dumps]; rewrite Hne; by repeat split.
Qed.

(** ** Any interleaving of steps *)

Section Runs.
Context `{Executor}.

Lemma steps_world_ok w w' : rtc sys_step w w' -> world_ok w w'.
Proof.
  induction 1 as [w|w1 w2 w3 Hs _ IH]; [apply world_ok_refl|].
  eapply world_ok_trans; [apply sys_step_ok, Hs | exact IH].
Qed.

Lemma steps_reachable w w' : reachable w -> rtc sys_step w w' -> reachable w'.
Proof. intros Hw Hs. induction Hs as [w|w1 w2 w3 Hs _ IH]; [done|]. by apply IH, (reach_step w1). Qed.

(** C26: once a task is finished, whatever interleaving of other clients'
    requests, consumer runs, outages and restarts follows, a read of its
    result with the services up answers the view of that same finished
    row. *)
Theorem result_stable w w' req k r :
  reachable w -> rows (w_store w) !! k = Some r -> is_terminal (row_status r) = true ->
  rtc sys_step w w' -> services_up w' -> get_argument req "task_id" None = Some k ->
  fst (app_serve "GET" "/api/results" req w') =
  mkResponse 200 json_headers (dumps (results_view k r)).
Proof.
  intros Hw Hr Ht Hs Hup Hk.
  pose proof (store_mono_terminal _ _ k r (proj1 (steps_world_ok w w' Hs)) Hr Ht) as Hr'.
  pose proof (results_up_run req k w' Hk (reachable_world_ok w' (steps_reachable w w' Hw Hs)) Hup)
    as Hrun.
  unfold app_serve. simpl. destruct (serve _ _ w') as [resp w'']. destruct Hrun as (-> & _).
  unfold spec_results. by rewrite Hr'.
Qed.
End Runs.

(** ** Witnesses: a run of the system from the initial state *)

(** Create a task in process mode, then read its result twice. *)
Definition w_created : World :=
  snd (app_serve "POST" "/api/tasks/create" (req_create "process") init_world).
Definition w_read : World := snd (app_serve "GET" "/api/results" (req_results "0") w_created).

Lemma w_read_reachable : reachable w_read.
Proof.
  eapply reach_step; [eapply reach_step; [apply reach_init | apply step_request] |].
  apply step_request.
Qed.

Definition row_0 : TaskRow := mkRow SUCCESS (JDict [("y", JInt 2)]).

Lemma cache_coherent_witness :
  exists r, rows (w_store w_read) !! "0" = Some r /\ is_terminal (row_status r) = true /\
            dumps (results_view "0" row_0) = dumps (results_view "0" r).
Proof.
  apply (cache_coherent w_read "0"); [exact w_read_reachable | vm_compute; reflexivity].
Defined.

Lemma results_refines_store_witness :
  fst (app_serve "GET" "/api/results" (req_results "0") w_read) =
  spec_results (w_store w_read) "0".
Proof.
  apply results_refines_store; [exact w_read_reachable | vm_compute; repeat split | reflexivity].
Defined.

Lemma results_idempotent_witness :
  let w1 := snd (app_serve "GET" "/api/results" (req_results "0") w_read) in
  fst (app_serve "GET" "/api/results" (req_results "0") w1) =
  fst (app_serve "GET" "/api/results" (req_results "0") w_read).
Proof.
  apply results_idempotent with (k := "0");
    [exact w_read_reachable | vm_compute; repeat split | reflexivity].
Defined.

Lemma results_second_read_cached_witness :
  let '(resp1, w1) := serve set_default_headers (ResultsHandler_get (req_results "T1")) world_up in
  let '(resp2, w2) := serve set_default_headers (ResultsHandler_get (req_results "T1")) w1 in
  entries (w_cache w1) !! "T1" = Some (dumps (results_view "T1" row_done)) /\
  reads (w_store w1) = S (reads (w_store world_up)) /\
  reads (w_store w2) = reads (w_store w1) /\ resp2 = resp1.
Proof.
  apply results_second_read_cached; [vm_compute; repeat split | reflexivity..].
Defined.

(** An outage of every service after the read, then their return. *)
Definition w_after_outage : World :=
  set_outage (mkOutage false false false false) (set_outage (mkOutage true true true true) w_read).

Lemma result_stable_witness :
  fst (app_serve "GET" "/api/results" (req_results "0") w_after_outage) =
  mkResponse 200 json_headers (dumps (results_view "0" row_0)).
Proof.
  apply (result_stable w_read w_after_outage (req_results "0") "0" row_0).
  - exact w_read_reachable.
  - vm_compute. reflexivity.
  - reflexivity.
  - eapply rtc_l; [apply step_outage|]. eapply rtc_l; [apply step_outage|]. apply rtc_refl.
  - vm_compute. repeat split.
  - reflexivity.
Defined.
