(* ===== verification/Scenario.v ===== *)
(** * The scenarios of the spec's section 8 as runs of the system

    Each scenario is a sequence of [sys_step]s from the initial state,
    over any executor whose answer on the request body is a hypothesis:
    a task created in queue mode, read while pending, run by the consumer
    and read again; a task created in process mode whose run fails, then
    read.  Every response and every state after a step is given in full,
    and the last state is shown reachable. *)

From S2P Require Import Prelude Json JsonDecode Backend Tornado Handlers Fixtures Results App System.
Local Open Scope string_scope.

(** The id the first created task receives: a fresh key of the empty table. *)
Definition first_id : string := fresh (dom (rows (w_store init_world))).

(** The body [{"x": 1}] of [req_create], decoded. *)
Definition x1 : json := JDict [("x", JInt 1)].

(** The state after the creation of the first task in queue mode. *)
Definition w_queued : World :=
  mkWorld (mkStore {[first_id := mkRow PENDING JNull]} [first_id] 0 false)
          (mkCache ∅ false false) (mkBroker [(first_id, x1)] false) [].

(** The state once the consumer has run the task to [res]. *)
Definition w_ran (st : TaskStatus) (res : json) (w : World) : World :=
  mkWorld (mkStore {[first_id := mkRow st res]} [first_id] (reads (w_store w)) false)
          (w_cache w) (mkBroker [] false) (w_log w).

(** [get_argument] returns the id as it was sent. *)
Lemma first_id_arg : py_strip (remove_control_chars first_id) = first_id.
Proof. vm_compute. reflexivity. Qed.

Ltac run_app :=
  cbv [app_serve find_handler make_app handler_method results_get];
  cbn [String.eqb Ascii.eqb Bool.eqb andb];
  cbv [CreateTaskHandler_post ResultsHandler_get]; run_handler.

Section Scenario.
Context `{Executor}.

(** ** Runs of the system *)

Lemma reach_request w verb path req r w' :
  reachable w -> app_serve verb path req w = (r, w') -> reachable w'.
Proof.
  intros Hw Happ. replace w' with (snd (app_serve verb path req w)) by by rewrite Happ.
  eapply reach_step; [exact Hw | apply step_request].
Qed.

Lemma reach_consume w w' : reachable w -> exec consume_one w = w' -> reachable w'.
Proof. intros Hw <-. eapply reach_step; [exact Hw | apply step_consume]. Qed.

(** A read of the only task, terminal and not cached, with every service up:
    the store's view is sent and cached. *)
Lemma read_sole_terminal st res n q lg :
  is_terminal st = true ->
  let w := mkWorld (mkStore {[first_id := mkRow st res]} [first_id] n false)
                   (mkCache ∅ false false) (mkBroker q false) lg in
  let v := dumps (results_view first_id (mkRow st res)) in
  app_serve "GET" "/api/results" (req_results first_id) w =
    (mkResponse 200 json_headers v,
     after_read w (mkCache {[first_id := v]} false false) [save_cache_msg (Some first_id)]).
Proof.
  intros Ht. destruct st; [discriminate| |];
    run_app; rewrite !first_id_arg, lookup_empty; cbn -[dumps];
    rewrite lookup_singleton_eq; cbn -[dumps]; by rewrite insert_empty.
Qed.

(** ** Queue mode *)

Lemma queue_create_step :
  app_serve "POST" "/api/tasks/create" (req_create "queue") init_world =
  (mkResponse 200 json_headers (json_encode (as_json (mkTaskItem first_id PENDING))), w_queued).
Proof. vm_compute. reflexivity. Qed.

Lemma queue_pending_read_step :
  app_serve "GET" "/api/results" (req_results first_id) w_queued =
  (mkResponse 200 json_headers (dumps (results_view first_id (mkRow PENDING JNull))),
   after_read w_queued (w_cache w_queued) [skip_cache_msg (Some first_id)]).
Proof. vm_compute. reflexivity. Qed.

Lemma queue_consume_step res :
  run_cases x1 = inr res ->
  let w2 := after_read w_queued (w_cache w_queued) [skip_cache_msg (Some first_id)] in
  exec consume_one w2 = w_ran SUCCESS res w2.
Proof.
  intros Hrun. cbv [exec consume_one w_queued]; cbn -[dumps]. unfold run_task. rewrite Hrun.
  run_handler. rewrite lookup_singleton_eq. cbn. by rewrite insert_singleton_eq.
Qed.

(** C21: the spec's queue scenario.  Created in queue mode with the body
    [{"x": 1}], the task is answered as pending and its message is queued;
    a read before the consumer runs answers the pending view and caches
    nothing; the consumer marks it [SUCCESS] with the executor's result;
    the next read answers the store's view of the finished task, as
    [{"task": {"id": ..., "status": "success"}, "results": ...}], and the
    cache then holds exactly that text.  Every state is reachable. *)
Theorem queue_scenario res :
  run_cases x1 = inr res ->
  let w2 := after_read w_queued (w_cache w_queued) [skip_cache_msg (Some first_id)] in
  let w3 := w_ran SUCCESS res w2 in
  let v := dumps (results_view first_id (mkRow SUCCESS res)) in
  let w4 := after_read w3 (mkCache {[first_id := v]} false false) [save_cache_msg (Some first_id)] in
  app_serve "POST" "/api/tasks/create" (req_create "queue") init_world =
    (mkResponse 200 json_headers (json_encode (as_json (mkTaskItem first_id PENDING))), w_queued) /\
  queue (w_broker w_queued) = [(first_id, x1)] /\
  app_serve "GET" "/api/results" (req_results first_id) w_queued =
    (mkResponse 200 json_headers (dumps (results_view first_id (mkRow PENDING JNull))), w2) /\
  entries (w_cache w2) = ∅ /\
  exec consume_one w2 = w3 /\
  app_serve "GET" "/api/results" (req_results first_id) w3 = (mkResponse 200 json_headers v, w4) /\
  entries (w_cache w4) !! first_id = Some v /\
  reachable w4.
Proof.
  intros Hrun w2 w3 v w4.
  assert (E4 : app_serve "GET" "/api/results" (req_results first_id) w3 =
               (mkResponse 200 json_headers v, w4)) by (apply read_sole_terminal; done).
  split_and!; [apply queue_create_step | done | apply queue_pending_read_step | done
              | by apply queue_consume_step | exact E4 | apply lookup_singleton_eq |].
  eapply reach_request; [|exact E4]. eapply reach_consume; [|by apply queue_consume_step].
  eapply reach_request; [|apply queue_pending_read_step].
  eapply reach_request; [apply reach_init | apply queue_create_step].
Qed.

(** ** Process mode, with a failing run *)

Lemma process_create_step body j err :
  json_decode body = Some j -> run_cases j = inl err ->
  app_serve "POST" "/api/tasks/create" (mkRequest [("type", "process")] body) init_world =
  (mkResponse 200 json_headers (json_encode (as_json (mkTaskItem first_id PENDING))),
   mkWorld (mkStore {[first_id := mkRow ERROR (JStr err)]} [first_id] 0 false)
           (mkCache ∅ false false) (mkBroker [] false) []).
Proof.
  intros Hdec Hrun.
  cbv [app_serve find_handler make_app handler_method]. cbn [String.eqb Ascii.eqb Bool.eqb andb].
  unfold CreateTaskHandler_post.
  assert (Ht : get_argument (mkRequest [("type", "process")] body) "type" (Some "queue")
               = Some "process") by reflexivity.
  rewrite Ht, bool_decide_true by done. run_handler. rewrite Hdec. cbn. rewrite lookup_empty. cbn.
  rewrite Hrun. cbn. rewrite lookup_insert_eq. cbn -[json_encode].
  rewrite insert_insert_eq, insert_empty. reflexivity.
Qed.

(** C22: the spec's failure scenario.  Created in process mode with a
    body the executor fails on, the task is [ERROR] with the failure
    message once the request returns (the response itself still shows the
    task object as [pending]); the next read answers the [ERROR] view and
    caches it.  Both states are reachable. *)
Theorem process_failure_scenario body j err :
  json_decode body = Some j -> run_cases j = inl err ->
  let row := mkRow ERROR (JStr err) in
  let w1 := mkWorld (mkStore {[first_id := row]} [first_id] 0 false)
                    (mkCache ∅ false false) (mkBroker [] false) [] in
  let v := dumps (results_view first_id row) in
  let w2 := after_read w1 (mkCache {[first_id := v]} false false) [save_cache_msg (Some first_id)] in
  app_serve "POST" "/api/tasks/create" (mkRequest [("type", "process")] body) init_world =
    (mkResponse 200 json_headers (json_encode (as_json (mkTaskItem first_id PENDING))), w1) /\
  app_serve "GET" "/api/results" (req_results first_id) w1 = (mkResponse 200 json_headers v, w2) /\
  reachable w2.
Proof.
  intros Hdec Hrun row w1 v w2.
  assert (E1 := process_create_step body j err Hdec Hrun).
  assert (E2 : app_serve "GET" "/api/results" (req_results first_id) w1 =
               (mkResponse 200 json_headers v, w2)) by (apply read_sole_terminal; done).
  split_and!; [exact E1 | exact E2 |].
  eapply reach_request; [|exact E2]. eapply reach_request; [apply reach_init | exact E1].
Qed.
End Scenario.

(** ** Witnesses *)

Lemma queue_scenario_witness :
  let res := JDict [("y", JInt 2)] in
  run_cases x1 = inr res /\
  (let w2 := after_read w_queued (w_cache w_queued) [skip_cache_msg (Some first_id)] in
  let w3 := w_ran SUCCESS res w2 in
  let v := dumps (results_view first_id (mkRow SUCCESS res)) in
  let w4 := after_read w3 (mkCache {[first_id := v]} false false) [save_cache_msg (Some first_id)] in
  app_serve "POST" "/api/tasks/create" (req_create "queue") init_world =
    (mkResponse 200 json_headers (json_encode (as_json (mkTaskItem first_id PENDING))), w_queued) /\
  queue (w_broker w_queued) = [(first_id, x1)] /\
  app_serve "GET" "/api/results" (req_results first_id) w_queued =
    (mkResponse 200 json_headers (dumps (results_view first_id (mkRow PENDING JNull))), w2) /\
  entries (w_cache w2) = ∅ /\
  exec consume_one w2 = w3 /\
  app_serve "GET" "/api/results" (req_results first_id) w3 = (mkResponse 200 json_headers v, w4) /\
  entries (w_cache w4) !! first_id = Some v /\
  reachable w4).
Proof. split; [reflexivity | apply queue_scenario; reflexivity]. Defined.

Lemma process_failure_scenario_witness :
  json_decode "{}" = Some (JDict []) /\ sample_run (JDict []) = inl "no cases to run" /\
  (let row := mkRow ERROR (JStr "no cases to run") in
  let w1 := mkWorld (mkStore {[first_id := row]} [first_id] 0 false)
                    (mkCache ∅ false false) (mkBroker [] false) [] in
  let v := dumps (results_view first_id row) in
  let w2 := after_read w1 (mkCache {[first_id := v]} false false) [save_cache_msg (Some first_id)] in
  app_serve "POST" "/api/tasks/create" (mkRequest [("type", "process")] "{}") init_world =
    (mkResponse 200 json_headers (json_encode (as_json (mkTaskItem first_id PENDING))), w1) /\
  app_serve "GET" "/api/results" (req_results first_id) w1 = (mkResponse 200 json_headers v, w2) /\
  reachable w2).
Proof.
  split; [reflexivity|]. split; [reflexivity|].
  apply (process_failure_scenario "{}" (JDict [])); reflexivity.
Defined.
