(* ===== verification/Liveness.v ===== *)
(** * The queue consumer drains the queue

    The consumer of the spec's section 4.3 ([consume_one], System.v) takes
    the oldest message and runs its task; the message leaves the queue only
    when the run reached the store.  On a reachable state every queued
    message names a stored task ([reachable_queued]), so with the store up
    each run ends the task's [PENDING] state whatever the executor answers:
    as many consumer runs as there are messages empty the queue and leave
    every queued task terminal.  With the store down a run raises and the
    message stays queued: no message is lost. *)

From S2P Require Import Prelude Json JsonDecode Backend Tornado Handlers Fixtures App System OnceDispatch Scenario.
Local Open Scope string_scope.

Section Drain.
Context `{Executor}.

(** [n] runs of the consumer, one after the other. *)
Definition drain (n : nat) (w : World) : World := Nat.iter n (exec consume_one) w.

(** One run of the consumer on a queue [(id, cases) :: rest] whose task is
    stored: the message leaves the queue and the task is terminal. *)
Lemma consume_one_head w id cases rest :
  store_down (w_store w) = false -> queue (w_broker w) = (id, cases) :: rest ->
  is_Some (rows (w_store w) !! id) ->
  queue (w_broker (exec consume_one w)) = rest /\
  store_down (w_store (exec consume_one w)) = false /\
  finished (w_store (exec consume_one w)) id.
Proof.
  intros Hd Hq Hs. destruct (run_task_finishes (w_store w) (mkTaskItem id PENDING) cases Hd Hs)
    as (s' & Hrun & Hd' & Hf).
  unfold exec, consume_one. rewrite Hq, Hrun. done.
Qed.

Lemma drain_reachable n w : reachable w -> reachable (drain n w).
Proof.
  intros Hw. induction n as [|n IH]; [done|].
  eapply reach_step; [exact IH | apply step_consume].
Qed.

Lemma drain_spec q w :
  queue (w_broker w) = q -> queued_ok w -> store_down (w_store w) = false ->
  let w' := drain (List.length q) w in
  queue (w_broker w') = [] /\ store_down (w_store w') = false /\
  world_ok w w' /\ forall m, m ∈ q -> finished (w_store w') m.1.
Proof.
  revert w. induction q as [|[id cases] rest IH]; intros w Hq Hok Hd w'.
  - split_and!; [done | done | apply world_ok_refl | intros m Hm; by apply elem_of_nil in Hm].
  - destruct (consume_one_head w id cases rest Hd Hq) as (Hq1 & Hd1 & Hf1).
    { apply (Hok (id, cases)). rewrite Hq, elem_of_cons. by left. }
    pose proof (consume_one_mono w) as Hw1.
    destruct (IH (exec consume_one w) Hq1 (world_ok_queued _ _ Hw1 Hok) Hd1)
      as (Hq' & Hd' & Hw' & Hf').
    subst w'. unfold drain. simpl List.length. rewrite Nat.iter_succ_r.
    split_and!; [done | done | by eapply world_ok_trans |].
    intros m. rewrite elem_of_cons. intros [-> | Hm]; [|by apply Hf'].
    eapply finished_mono; [apply Hw' | exact Hf1].
Qed.

(** C23: from any reachable state with the store up, as many consumer
    runs as there are queued messages empty the queue and finish every
    queued task, whatever the executor answers, and the state reached is
    reachable. *)
Theorem consumer_drains w :
  reachable w -> store_down (w_store w) = false ->
  let w' := drain (List.length (queue (w_broker w))) w in
  queue (w_broker w') = [] /\ reachable w' /\
  forall id cases, (id, cases) ∈ queue (w_broker w) -> finished (w_store w') id.
Proof.
  intros Hw Hd. destruct (drain_spec _ w eq_refl (reachable_queued w Hw) Hd) as (Hq & _ & _ & Hf).
  split_and!; [done | by apply drain_reachable | intros id cases Hm; exact (Hf _ Hm)].
Qed.

(** With the store down, a run of the consumer raises and loses no
    message: the queue and the store stay as they were. *)
Theorem consumer_keeps_message w id cases rest :
  store_down (w_store w) = true -> queue (w_broker w) = (id, cases) :: rest ->
  consume_one w = (Raise OperationalError, w).
Proof. intros Hd Hq. unfold consume_one. rewrite Hq, run_task_down by done. by destruct w. Qed.
End Drain.

(** ** Witnesses *)

Lemma w_queued_reachable : reachable w_queued.
Proof. eapply reach_request; [apply reach_init | apply queue_create_step]. Qed.

Lemma consumer_drains_witness :
  let w' := drain (List.length (queue (w_broker w_queued))) w_queued in
  queue (w_broker w') = [] /\ reachable w' /\
  forall id cases, (id, cases) ∈ queue (w_broker w_queued) -> finished (w_store w') id.
Proof. apply consumer_drains; [exact w_queued_reachable | reflexivity]. Defined.

(** A state whose store is down, with the message of [T2] queued. *)
Definition world_store_down : World :=
  mkWorld (w_store (world_tasks ∅ true false)) (w_cache world_up)
          (mkBroker [("T2", x1)] false) [].

Lemma consumer_keeps_message_witness :
  consume_one world_store_down = (Raise OperationalError, world_store_down).
Proof. apply (consumer_keeps_message _ "T2" x1 []); reflexivity. Defined.

(** The database fails after a queue-mode creation: the queued message stays. *)
Definition w_queued_down : World := set_outage (mkOutage true false false false) w_queued.

Lemma consumer_never_orphaned_witness :
  reachable w_queued_down /\ consume_one w_queued_down = (Raise OperationalError, w_queued_down) /\
  (OperationalError = OperationalError /\ w_queued_down = w_queued_down).
Proof.
  assert (Hr : reachable w_queued_down) by (eapply reach_step; [exact w_queued_reachable | apply step_outage]).
  assert (Hc : consume_one w_queued_down = (Raise OperationalError, w_queued_down)) by (vm_compute; reflexivity).
  split; [exact Hr | split; [exact Hc | exact (consumer_never_orphaned w_queued_down _ _ Hr Hc)]].
Defined.

Lemma dispatched_once_witness :
  reachable w_queued /\
  (NoDup (qids w_queued) /\
   forall id cases, (id, cases) ∈ queue (w_broker w_queued) ->
   exists r, rows (w_store w_queued) !! id = Some r /\ row_status r = PENDING).
Proof. split; [exact w_queued_reachable | apply dispatched_once; exact w_queued_reachable]. Defined.
